(** * Agri AI Assistant: the request-processing flow of [app.py]

    A shallow embedding of the Flask application's [/chat] handler and of
    the three functions it drives ([process_audio], [get_anwer_openai],
    [text_to_audio] through [process_text]).  Remote services, the file
    system and the random source are the environment: their answers are
    fields of an [Env] record, the calls the program makes to them are
    recorded in a trace, and Python exceptions are an explicit result. *)

From Stdlib Require Import Ascii String ZArith List Lia.
From stdpp Require Import base decidable option list strings gmap.

Local Open Scope string_scope.
Local Open Scope list_scope.
Set Warnings "-register-all".

(** ** Python strings

    A [str] is modelled by its sequence of bytes (UTF-8): the separators,
    the allow-list and every sentinel of the program are ASCII, and a byte
    of a multi-byte character is never an ASCII byte.  White space is the
    one place where characters outside ASCII matter to the program:
    [strip] removes them, in their two- and three-byte writing. *)

Module PyStr.

(** [c in s] for a one-character [c]. *)
Fixpoint contains (c : ascii) (s : string) : bool :=
  match s with
  | EmptyString => false
  | String a s' => if Ascii.eqb a c then true else contains c s'
  end.

(** The split at the LAST occurrence of [sep], if there is one. *)
Fixpoint rsplit_last (sep : ascii) (s : string) : option (string * string) :=
  match s with
  | EmptyString => None
  | String a s' =>
      match rsplit_last sep s' with
      | Some (h, t) => Some (String a h, t)
      | None => if Ascii.eqb a sep then Some (EmptyString, s') else None
      end
  end.

(** [s.rsplit(sep, 1)]: at most one split, made from the right. *)
Definition rsplit1 (sep : ascii) (s : string) : list string :=
  match rsplit_last sep s with
  | Some (h, t) => [h; t]
  | None => [s]
  end.

Definition is_upper (a : ascii) : bool :=
  let n := nat_of_ascii a in Nat.leb 65 n && Nat.leb n 90.

Definition lower_ascii (a : ascii) : ascii :=
  if is_upper a then ascii_of_nat (nat_of_ascii a + 32) else a.

(** [s.lower()]; only [A]..[Z] change (no character outside ASCII
    lowercases to one of [w], [e], [b], [m]). *)
Fixpoint lower (s : string) : string :=
  match s with
  | EmptyString => EmptyString
  | String a s' => String (lower_ascii a) (lower s')
  end.

(** Python's white space, on ASCII: the characters 9 to 13 and 28 to
    32. *)
Definition is_space (a : ascii) : bool :=
  let n := nat_of_ascii a in
  (Nat.leb 9 n && Nat.leb n 13) || (Nat.leb 28 n && Nat.leb n 32).

(** The white space [str.strip] knows outside ASCII.  In two bytes:
    U+0085 ([C2 85]) and U+00A0 ([C2 A0]). *)
Definition is_space2 (a b : ascii) : bool :=
  Ascii.eqb a "194" && (Ascii.eqb b "133" || Ascii.eqb b "160").

(** In three bytes: U+1680 ([E1 9A 80]), U+2000 to U+200A ([E2 80 80]
    to [E2 80 8A]), U+2028, U+2029, U+202F ([E2 80 A8], [E2 80 A9],
    [E2 80 AF]), U+205F ([E2 81 9F]) and U+3000 ([E3 80 80]). *)
Definition is_space3 (a b c : ascii) : bool :=
  let n := nat_of_ascii c in
  (Ascii.eqb a "225" && Ascii.eqb b "154" && Ascii.eqb c "128") ||
  (Ascii.eqb a "226" && Ascii.eqb b "128" &&
   ((Nat.leb 128 n && Nat.leb n 138) ||
    Ascii.eqb c "168" || Ascii.eqb c "169" || Ascii.eqb c "175")) ||
  (Ascii.eqb a "226" && Ascii.eqb b "129" && Ascii.eqb c "159") ||
  (Ascii.eqb a "227" && Ascii.eqb b "128" && Ascii.eqb c "128").

(** [s.lstrip()]: the leading white-space characters go, whether written
    in one, two or three bytes. *)
Fixpoint lstrip (s : string) : string :=
  match s with
  | EmptyString => EmptyString
  | String a s1 =>
      if is_space a then lstrip s1
      else
        match s1 with
        | String b s2 =>
            if is_space2 a b then lstrip s2
            else
              match s2 with
              | String c s3 => if is_space3 a b c then lstrip s3 else s
              | EmptyString => s
              end
        | EmptyString => s
        end
  end.

(** [s.rstrip()]: the text is cut where what follows is white space
    only. *)
Fixpoint rstrip (s : string) : string :=
  match s with
  | EmptyString => EmptyString
  | String a s' =>
      match lstrip s with
      | EmptyString => EmptyString
      | _ => String a (rstrip s')
      end
  end.

(** [s.strip()]. *)
Definition strip (s : string) : string := rstrip (lstrip s).

(** [bool(s)]: a string is true when it is not empty. *)
Definition truthy (s : string) : bool :=
  match s with EmptyString => false | _ => true end.

Definition starts_with_slash (s : string) : bool :=
  match s with String "/" _ => true | _ => false end.

Fixpoint ends_with_slash (s : string) : bool :=
  match s with
  | EmptyString => false
  | String a EmptyString => Ascii.eqb a "/"
  | String _ s' => ends_with_slash s'
  end.

End PyStr.

(** ** Application configuration ([app.config]) *)

Definition UPLOAD_FOLDER : string := "uploads".
Definition ALLOWED_EXTENSIONS : gset string := {[ "webm" ]}.

(** [allowed_file(filename)]:
    ['.' in filename and filename.rsplit('.', 1)[1].lower() in ALLOWED_EXTENSIONS].
    The subscript [[1]] would raise [IndexError] on a one-element list; the
    left conjunct guards it, and the model answers [false] there. *)
Definition allowed_file (filename : string) : bool :=
  PyStr.contains "." filename &&
  match PyStr.rsplit1 "." filename !! 1%nat with
  | Some ext => bool_decide (PyStr.lower ext ∈ ALLOWED_EXTENSIONS)
  | None => false
  end.

(** ** Python values: parsed JSON

    The values that reach the handler from outside (request bodies, the
    answers of the remote services) are parsed JSON.  [JNull] is Python's
    [None]; numbers are kept as integers, only their truth value matters. *)

Inductive json : Type :=
| JNull
| JBool (b : bool)
| JNum (n : Z)
| JStr (s : string)
| JArr (items : list json)
| JObj (fields : list (string * json)).

(** Exceptions.  Every class below derives from [Exception];
    [AuthenticationError] derives from [openai.error.OpenAIError], whose
    other subclasses are [OpenAIError cls]. *)
Inductive exn : Type :=
| AuthenticationError
| OpenAIError (cls : string)
| RequestException (cls : string)
| OSError (cls : string)
| KeyError
| IndexError
| TypeError
| AttributeError
| ValueError
| AssertionError
| gTTSError.

Inductive result (A : Type) : Type :=
| Ok (a : A)
| Raise (e : exn).
Arguments Ok {A} a.
Arguments Raise {A} e.

Module Py.

(** [bool(v)]. *)
Definition truthy (v : json) : bool :=
  match v with
  | JNull => false
  | JBool b => b
  | JNum n => negb (Z.eqb n 0)
  | JStr s => PyStr.truthy s
  | JArr items => match items with [] => false | _ => true end
  | JObj fields => match fields with [] => false | _ => true end
  end.

(** [a or b]. *)
Definition or_ (a b : json) : json := if truthy a then a else b.

(** First binding of a key, as [MultiDict.get] and [dict] look-ups do. *)
Fixpoint assoc {A : Type} (k : string) (kv : list (string * A)) : option A :=
  match kv with
  | [] => None
  | (k', v) :: rest => if String.eqb k' k then Some v else assoc k rest
  end.

(** [isinstance(v, dict)]. *)
Definition is_dict (v : json) : bool :=
  match v with JObj _ => true | _ => false end.

(** [v.get(k)]: defined on a dict only; any other value has no
    attribute [get]. *)
Definition get (v : json) (k : string) : result json :=
  match v with
  | JObj fields => Ok (default JNull (assoc k fields))
  | _ => Raise AttributeError
  end.

(** [v[k]] for a string key. *)
Definition getitem (v : json) (k : string) : result json :=
  match v with
  | JObj fields =>
      match assoc k fields with Some x => Ok x | None => Raise KeyError end
  | _ => Raise TypeError
  end.

(** [v[i]] for a non-negative integer index. *)
Definition getindex (v : json) (i : nat) : result json :=
  match v with
  | JArr items =>
      match items !! i with Some x => Ok x | None => Raise IndexError end
  | JStr s =>
      match String.get i s with
      | Some c => Ok (JStr (String c EmptyString))
      | None => Raise IndexError
      end
  | JObj _ => Raise KeyError
  | _ => Raise TypeError
  end.

(** [v.strip()]: only a [str] has it. *)
Definition strip (v : json) : result string :=
  match v with
  | JStr s => Ok (PyStr.strip s)
  | _ => Raise AttributeError
  end.

(** [isinstance(e, AuthenticationError)], [isinstance(e, OpenAIError)]. *)
Definition is_AuthenticationError (e : exn) : bool :=
  match e with AuthenticationError => true | _ => false end.

Definition is_OpenAIError (e : exn) : bool :=
  match e with AuthenticationError | OpenAIError _ => true | _ => false end.

(** [os.path.join(a, b)] (POSIX). *)
Definition os_path_join (a b : string) : string :=
  if PyStr.starts_with_slash b then b
  else if negb (PyStr.truthy a) || PyStr.ends_with_slash a then a +:+ b
  else a +:+ "/" +:+ b.

(** [string.ascii_uppercase + string.digits]. *)
Definition ascii_uppercase_digits : string :=
  "ABCDEFGHIJKLMNOPQRSTUVWXYZ0123456789".

(** [url_for('static', filename=name)] with Flask's default static
    route. *)
Definition url_for_static (name : string) : string := "/static/" +:+ name.

End Py.

(** ** The environment and the program state *)

(** What the program does to the outside, in the order it does it.
    [Call] marks the entry of one of the program's own functions. *)
Inductive event : Type :=
| Call (fn : string)
| Log (level msg : string)
| FileSave (path : string)
| FileRead (path : string)
| HttpPost (url authorization : string) (timeout : Z)
| ChatCompletionCreate (model : string) (messages : json) (timeout : Z)
| SpeechSave (text path : string)
| RandomChoices (k : nat).

(** The answer of [requests.post]: the status and what [response.json()]
    gives. *)
Record http_response : Type := {
  status_code : Z;
  json_body : result json
}.

(** The collaborators.  Each remote call, the upload's [save] and the
    speech engine may answer or raise; the random source is a sequence of
    draws.  [storage_leaves] and [gTTS_leaves] are what a [save] that
    raised has left at its target: nothing ([None]: the file could not be
    opened, or [gTTS(text)] itself raised), or the bytes written until
    then (the target is opened for writing first, so these may be none
    at all). *)
Record Env : Type := {
  HUGGING_FACE_API_KEY : option string;
  secure_filename : string -> string;
  storage_save : string -> string -> option exn;
  storage_leaves : string -> string -> option string;
  requests_post : string -> string -> string -> result http_response;
  ChatCompletion_create : json -> result json;
  gTTS_save : string -> string -> result string;
  gTTS_leaves : string -> string -> option string;
  random_draw : nat -> nat
}.

(** The mutable part: the files on disk, [openai.api_key] (the admin
    routes change it at run time) and the position in the random
    sequence. *)
Record State : Type := {
  fs : gmap string string;
  api_key : option string;
  rng_pos : nat
}.

(** A run gives a value or an exception, the state it leaves and the
    events it produced. *)
Record outcome (A : Type) : Type := {
  res : result A;
  final : State;
  events : list event
}.
Arguments res {A} o.
Arguments final {A} o.
Arguments events {A} o.
Arguments Build_outcome {A} res final events.

Definition M (A : Type) : Type := State -> outcome A.

Definition ret {A : Type} (a : A) : M A :=
  fun st => Build_outcome (Ok a) st [].

Definition raise {A : Type} (e : exn) : M A :=
  fun st => Build_outcome (Raise e) st [].

Definition bind {A B : Type} (m : M A) (k : A -> M B) : M B :=
  fun st =>
    match m st with
    | Build_outcome (Ok a) st1 evs1 =>
        match k a st1 with
        | Build_outcome r st2 evs2 => Build_outcome r st2 (evs1 ++ evs2)
        end
    | Build_outcome (Raise e) st1 evs1 => Build_outcome (Raise e) st1 evs1
    end.

(** [try: body  except Exception as e: handler e]. *)
Definition try_except {A : Type} (body : M A) (handler : exn -> M A) : M A :=
  fun st =>
    match body st with
    | Build_outcome (Ok a) st1 evs1 => Build_outcome (Ok a) st1 evs1
    | Build_outcome (Raise e) st1 evs1 =>
        match handler e st1 with
        | Build_outcome r st2 evs2 => Build_outcome r st2 (evs1 ++ evs2)
        end
    end.

Definition lift {A : Type} (r : result A) : M A :=
  fun st => Build_outcome r st [].

Definition emit (e : event) : M unit :=
  fun st => Build_outcome (Ok tt) st [e].

Definition get_state : M State :=
  fun st => Build_outcome (Ok st) st [].

Definition put_state (st' : State) : M unit :=
  fun _ => Build_outcome (Ok tt) st' [].

Declare Scope py_scope.
Delimit Scope py_scope with py.
Notation "'let*' x ':=' c 'in' k" := (bind c (fun x => k))
  (at level 10, x name, c at level 100, k at level 200) : py_scope.
Notation "c '>>' k" := (bind c (fun _ => k))
  (at level 100, k at level 200, right associativity) : py_scope.
Local Open Scope py_scope.

(** [app.logger.<level>(msg, ...)]. *)
Definition log (level msg : string) : M unit := emit (Log level msg).

(** ** Requests and responses *)

(** An uploaded file ([werkzeug.FileStorage]): its client-side name and
    its content. *)
Record FileStorage : Type := {
  filename : string;
  stream : string
}.

(** [bool(f)] is [bool(f.filename)]. *)
Definition file_truthy (f : FileStorage) : bool := PyStr.truthy (filename f).

(** What a POST carries.  [request.files] and [request.form] are filled
    from a form body only, and [request.get_json(silent=True)] answers
    from a JSON body only ([None] when the body does not parse). *)
Inductive Request : Type :=
| FormData (files : list (string * FileStorage)) (form : list (string * string))
| JsonBody (parsed : option json)
| OtherBody.

Definition request_files (r : Request) : list (string * FileStorage) :=
  match r with FormData files _ => files | _ => [] end.

Definition request_form (r : Request) : list (string * string) :=
  match r with FormData _ form => form | _ => [] end.

(** [request.form.get(k)]. *)
Definition request_form_get (r : Request) (k : string) : json :=
  match Py.assoc k (request_form r) with
  | Some s => JStr s
  | None => JNull
  end.

(** [request.get_json(silent=True)]. *)
Definition request_get_json (r : Request) : json :=
  match r with JsonBody (Some j) => j | _ => JNull end.

Record Response : Type := {
  status : Z;
  body : list (string * json)
}.

(** [jsonify(d)] and [jsonify(d), code]. *)
Definition jsonify (d : list (string * json)) (code : Z) : Response :=
  {| status := code; body := d |}.

(** [request.form.get('text') or (request.get_json(silent=True) or {}).get('text')]:
    the right operand is evaluated only when the left one is false. *)
Definition text_field (request : Request) : result json :=
  let t := request_form_get request "text" in
  if Py.truthy t then Ok t
  else Py.get (Py.or_ (request_get_json request) (JObj [])) "text".

(** ** The program *)

Section Program.

Context (env : Env).

(** The world's side of each call. *)

(** The file at [path] now holds [bytes]. *)
Definition write_file (path bytes : string) : M unit :=
  let* st := get_state in
  put_state {| fs := <[path := bytes]> (fs st);
               api_key := api_key st; rng_pos := rng_pos st |}.

(** [f.save(path)].  A save that raises may have opened, and so emptied
    or partly written, its target. *)
Definition save (f : FileStorage) (path : string) : M unit :=
  emit (FileSave path) >>
  match storage_save env path (stream f) with
  | Some e =>
      match storage_leaves env path (stream f) with
      | Some bytes => write_file path bytes >> raise e
      | None => raise e
      end
  | None => write_file path (stream f)
  end.

(** [with open(path, "rb") as f: data = f.read()]. *)
Definition read_file (path : string) : M string :=
  emit (FileRead path) >>
  let* st := get_state in
  match fs st !! path with
  | Some data => ret data
  | None => raise (OSError "FileNotFoundError")
  end.

Definition post (url authorization data : string) (timeout : Z)
  : M http_response :=
  emit (HttpPost url authorization timeout) >>
  lift (requests_post env url authorization data).

(** [response.raise_for_status()]. *)
Definition raise_for_status (r : http_response) : M unit :=
  if Z.leb 400 (status_code r) && Z.ltb (status_code r) 600
  then raise (RequestException "HTTPError")
  else ret tt.

Definition create_completion (model : string) (messages : json) (timeout : Z)
  : M json :=
  emit (ChatCompletionCreate model messages timeout) >>
  lift (ChatCompletion_create env messages).

(** [gTTS(text)] followed by [tts.save(path)].  An engine that raises
    may have opened, and so emptied or partly written, its target. *)
Definition speech_save (text path : string) : M unit :=
  emit (SpeechSave text path) >>
  match gTTS_save env text path with
  | Raise e =>
      match gTTS_leaves env text path with
      | Some bytes => write_file path bytes >> raise e
      | None => raise e
      end
  | Ok audio => write_file path audio
  end.

(** One draw of [random.choices]: an index into the population. *)
Definition pick (population : string) (draw : nat) : string :=
  match String.get (draw mod String.length population) population with
  | Some c => String c EmptyString
  | None => EmptyString
  end.

Fixpoint choices_from (population : string) (pos k : nat) : string :=
  match k with
  | O => EmptyString
  | S k' =>
      pick population (random_draw env pos) +:+ choices_from population (S pos) k'
  end.

(** [''.join(random.choices(population, k=k))]. *)
Definition random_choices (population : string) (k : nat) : M string :=
  emit (RandomChoices k) >>
  let* st := get_state in
  put_state {| fs := fs st; api_key := api_key st; rng_pos := rng_pos st + k |} >>
  ret (choices_from population (rng_pos st) k).

(** [get_anwer_openai(question)]. *)
Definition get_anwer_openai (question : json) : M string :=
  emit (Call "get_anwer_openai") >>
  let* st := get_state in
  if negb (from_option PyStr.truthy false (api_key st)) then
    log "error" "OpenAI API key missing when calling get_anwer_openai" >>
    ret "OpenAI API key missing on server. Set OPENAI_API_KEY and restart the app."
  else
    try_except
      (let* completion :=
         create_completion "gpt-3.5-turbo"
           (JArr [JObj [("role", JStr "system");
                        ("content", JStr "I want you to act like a helpful agriculture chatbot and help farmers with their query")];
                  JObj [("role", JStr "user"); ("content", question)]])
           30 in
       let* choices := lift (Py.getitem completion "choices") in
       let* first := lift (Py.getindex choices 0) in
       let* message := lift (Py.getitem first "message") in
       let* content := lift (Py.getitem message "content") in
       lift (Py.strip content))
      (fun e =>
         if Py.is_AuthenticationError e then
           log "error" "OpenAI AuthenticationError: %s" >>
           ret "OpenAI authentication failed. Check OPENAI_API_KEY on the server."
         else if Py.is_OpenAIError e then
           log "error" "OpenAI API error: %s" >>
           ret "OpenAI API error. See server logs."
         else
           log "exception" "Unexpected error calling OpenAI: %s" >>
           ret "Unexpected server error while contacting OpenAI.").

(** [text_to_audio(text, filename)]: logs and re-raises. *)
Definition text_to_audio (text name : string) : M string :=
  emit (Call "text_to_audio") >>
  try_except
    (let out_path := "static/audio/" +:+ name +:+ ".mp3" in
     speech_save text out_path >>
     ret out_path)
    (fun e =>
       log "exception" "text_to_audio failed: %s" >>
       raise e).

(** [allowed_file] is above; [process_audio(filepath)].  The file is
    read before the [try] begins. *)
Definition process_audio (filepath : string) : M json :=
  emit (Call "process_audio") >>
  match HUGGING_FACE_API_KEY env with
  | Some key =>
      if PyStr.truthy key then
        let API_URL := "https://api-inference.huggingface.co/models/jonatasgrosman/wav2vec2-large-xlsr-53-english" in
        let* data := read_file filepath in
        try_except
          (let* response := post API_URL ("Bearer " +:+ key) data 60 in
           raise_for_status response >>
           let* data := lift (json_body response) in
           let* text :=
             (if Py.is_dict data then lift (Py.get data "text") else ret JNull) in
           if negb (Py.truthy text) then
             log "error" "Unexpected transcription response: %s" >>
             ret (JStr "Could not transcribe audio.")
           else ret text)
          (fun e =>
             log "exception" "Audio transcription failed: %s" >>
             ret (JStr "Audio transcription failed."))
      else
        log "error" "No HUGGING_FACE_API_KEY; cannot transcribe audio." >>
        ret (JStr "Transcription service not configured.")
  | None =>
      log "error" "No HUGGING_FACE_API_KEY; cannot transcribe audio." >>
      ret (JStr "Transcription service not configured.")
  end.

(** [process_text(text)].  Every return of [get_anwer_openai] is a
    [str] (a literal or the result of [strip]), so the [isinstance]
    test of the source holds and [return_text] is kept as it is. *)
Definition process_text (text : json) : M (list (string * json)) :=
  emit (Call "process_text") >>
  try_except
    (let* return_text := get_anwer_openai text in
     let* res := random_choices Py.ascii_uppercase_digits 8 in
     let* voice_file :=
       try_except
         (let* out_path := text_to_audio return_text res in
          ret (Py.url_for_static ("audio/" +:+ res +:+ ".mp3")))
         (fun e =>
            log "exception" "text_to_audio failed: %s" >>
            ret "") in
     ret [("text", JStr return_text); ("voice", JStr voice_file)])
    (fun e =>
       log "exception" "process_text failed: %s" >>
       ret [("text", JStr "Server error processing request. Check server logs.");
            ("voice", JStr "")]).

(** The second half of [chat]: the text field, or the 400. *)
Definition chat_text (request : Request) : M Response :=
  let* text := lift (text_field request) in
  if Py.truthy text then
    let* response := process_text text in
    ret (jsonify response 200)
  else ret (jsonify [("text", JStr "Invalid request")] 400).

(** The body of the [try] of [chat]. *)
Definition chat_body (request : Request) : M Response :=
  match Py.assoc "audio" (request_files request) with
  | Some f =>
      if file_truthy f && allowed_file (filename f) then
        let name := secure_filename env (filename f) in
        let filepath := Py.os_path_join UPLOAD_FOLDER name in
        save f filepath >>
        let* transcription := process_audio filepath in
        ret (jsonify [("text", transcription)] 200)
      else chat_text request
  | None => chat_text request
  end.

(** [chat()], the handler of [POST /chat]. *)
Definition chat (request : Request) : M Response :=
  try_except (chat_body request)
    (fun e =>
       log "exception" "Unhandled /chat error: %s" >>
       ret (jsonify [("text", JStr "Internal server error")] 500)).

End Program.

(** ** Reading a trace *)

Definition is_call (fn : string) (e : event) : bool :=
  match e with Call f => String.eqb f fn | _ => false end.

(** Was the function [fn] of the program entered? *)
Definition invoked (fn : string) (evs : list event) : bool :=
  existsb (is_call fn) evs.

Definition is_completion_request (e : event) : bool :=
  match e with ChatCompletionCreate _ _ _ => true | _ => false end.

(** The number of calls made to the ChatCompletion API. *)
Definition api_attempts (evs : list event) : nat :=
  length (List.filter is_completion_request evs).

Definition is_network_call (e : event) : bool :=
  match e with
  | ChatCompletionCreate _ _ _ | HttpPost _ _ _ | SpeechSave _ _ => true
  | _ => false
  end.

(** The paths the run wrote, or tried to write, on disk. *)
Definition written_paths (evs : list event) : list string :=
  flat_map (fun e => match e with
                     | FileSave p => [p]
                     | SpeechSave _ p => [p]
                     | _ => []
                     end) evs.

(** [bool(openai.api_key)]. *)
Definition key_set (st : State) : bool :=
  from_option PyStr.truthy false (api_key st).

(** The messages [get_anwer_openai] sends for a question. *)
Definition messages_for (question : json) : json :=
  JArr [JObj [("role", JStr "system");
              ("content", JStr "I want you to act like a helpful agriculture chatbot and help farmers with their query")];
        JObj [("role", JStr "user"); ("content", question)]].

(** [completion["choices"][0]["message"]["content"].strip()]. *)
Definition completion_text (completion : json) : result string :=
  match Py.getitem completion "choices" with
  | Raise e => Raise e
  | Ok choices =>
      match Py.getindex choices 0 with
      | Raise e => Raise e
      | Ok first =>
          match Py.getitem first "message" with
          | Raise e => Raise e
          | Ok message =>
              match Py.getitem message "content" with
              | Raise e => Raise e
              | Ok content => Py.strip content
              end
          end
      end
  end.

(** What the single API attempt yields: the trimmed text of the first
    choice, or the exception that the call or the reading of its answer
    raised. *)
Definition attempt_outcome (env : Env) (question : json) : result string :=
  match ChatCompletion_create env (messages_for question) with
  | Ok completion => completion_text completion
  | Raise e => Raise e
  end.

(** The sentinels of the program. *)
Definition KEY_MISSING : string :=
  "OpenAI API key missing on server. Set OPENAI_API_KEY and restart the app.".
Definition AUTH_FAILED : string :=
  "OpenAI authentication failed. Check OPENAI_API_KEY on the server.".
Definition API_ERROR : string := "OpenAI API error. See server logs.".
Definition UNEXPECTED_ERROR : string :=
  "Unexpected server error while contacting OpenAI.".
Definition INVALID_REQUEST : Response :=
  jsonify [("text", JStr "Invalid request")] 400.
Definition INTERNAL_SERVER_ERROR : Response :=
  jsonify [("text", JStr "Internal server error")] 500.

(** ** A concrete world, for running the program *)

(** [werkzeug.utils.secure_filename] on an ASCII name under POSIX: path
    separators become blanks, blank-separated words are joined by [_],
    characters outside [A-Za-z0-9_.-] are dropped, and leading and
    trailing dots and underscores are stripped. *)
Module Werkzeug.

Definition keep (a : ascii) : bool :=
  let n := nat_of_ascii a in
  (Nat.leb 65 n && Nat.leb n 90) || (Nat.leb 97 n && Nat.leb n 122) ||
  (Nat.leb 48 n && Nat.leb n 57) ||
  Nat.eqb n 95 || Nat.eqb n 46 || Nat.eqb n 45.

(** ["_".join(s.split())], after [/] has been replaced by a blank. *)
Fixpoint join_words (started pending : bool) (s : string) : string :=
  match s with
  | EmptyString => EmptyString
  | String a s' =>
      if PyStr.is_space a || Ascii.eqb a "/" then join_words started started s'
      else
        let rest := String a (join_words true false s') in
        if pending then String "_" rest else rest
  end.

Fixpoint only_kept (s : string) : string :=
  match s with
  | EmptyString => EmptyString
  | String a s' => if keep a then String a (only_kept s') else only_kept s'
  end.

Definition is_dot_or_underscore (a : ascii) : bool :=
  Ascii.eqb a "." || Ascii.eqb a "_".

Fixpoint lstrip_dots (s : string) : string :=
  match s with
  | EmptyString => EmptyString
  | String a s' => if is_dot_or_underscore a then lstrip_dots s' else s
  end.

Fixpoint rstrip_dots (s : string) : string :=
  match s with
  | EmptyString => EmptyString
  | String a s' =>
      match rstrip_dots s' with
      | EmptyString =>
          if is_dot_or_underscore a then EmptyString else String a EmptyString
      | r => String a r
      end
  end.

Definition secure_filename (name : string) : string :=
  rstrip_dots (lstrip_dots (only_kept (join_words false false name))).

End Werkzeug.

(** A completion object whose first choice says [answer]. *)
Definition completion_saying (answer : string) : json :=
  JObj [("choices",
         JArr [JObj [("message",
                      JObj [("role", JStr "assistant");
                            ("content", JStr answer)])]])].

(** Every collaborator answers: the transcriber hears ["hello"], the
    model answers ["Apply fungicide X"], the speech engine writes its
    file, the disk takes every upload. *)
Definition working_env : Env := {|
  HUGGING_FACE_API_KEY := Some "hf_token";
  secure_filename := Werkzeug.secure_filename;
  storage_save := fun _ _ => None;
  storage_leaves := fun _ _ => None;
  requests_post := fun _ _ _ =>
    Ok {| status_code := 200; json_body := Ok (JObj [("text", JStr "hello")]) |};
  ChatCompletion_create := fun _ => Ok (completion_saying "Apply fungicide X");
  gTTS_save := fun _ _ => Ok "ID3";
  gTTS_leaves := fun _ _ => None;
  random_draw := fun i => (7 * i + 3)%nat
|}.

(** The same world with a disk that refuses every upload. *)
Definition full_disk_env : Env := {|
  HUGGING_FACE_API_KEY := Some "hf_token";
  secure_filename := Werkzeug.secure_filename;
  storage_save := fun _ _ => Some (OSError "OSError");
  storage_leaves := fun _ _ => Some "";
  requests_post := requests_post working_env;
  ChatCompletion_create := ChatCompletion_create working_env;
  gTTS_save := gTTS_save working_env;
  gTTS_leaves := gTTS_leaves working_env;
  random_draw := random_draw working_env
|}.

(** The same world with a model that rejects the credential. *)
Definition rejecting_env : Env := {|
  HUGGING_FACE_API_KEY := Some "hf_token";
  secure_filename := Werkzeug.secure_filename;
  storage_save := fun _ _ => None;
  storage_leaves := fun _ _ => None;
  requests_post := requests_post working_env;
  ChatCompletion_create := fun _ => Raise AuthenticationError;
  gTTS_save := gTTS_save working_env;
  gTTS_leaves := gTTS_leaves working_env;
  random_draw := random_draw working_env
|}.

(** The same world with a speech engine that fails, leaving an empty
    file. *)
Definition mute_env : Env := {|
  HUGGING_FACE_API_KEY := Some "hf_token";
  secure_filename := Werkzeug.secure_filename;
  storage_save := fun _ _ => None;
  storage_leaves := fun _ _ => None;
  requests_post := requests_post working_env;
  ChatCompletion_create := ChatCompletion_create working_env;
  gTTS_save := fun _ _ => Raise gTTSError;
  gTTS_leaves := fun _ _ => Some "";
  random_draw := random_draw working_env
|}.

(** The same world with a transcriber that answers its text in
    segments: a list where a string is expected. *)
Definition segments_env : Env := {|
  HUGGING_FACE_API_KEY := Some "hf_token";
  secure_filename := Werkzeug.secure_filename;
  storage_save := fun _ _ => None;
  storage_leaves := fun _ _ => None;
  requests_post := fun _ _ _ =>
    Ok {| status_code := 200;
          json_body := Ok (JObj [("text", JArr [JStr "hel"; JStr "lo"])]) |};
  ChatCompletion_create := ChatCompletion_create working_env;
  gTTS_save := gTTS_save working_env;
  gTTS_leaves := gTTS_leaves working_env;
  random_draw := random_draw working_env
|}.

(** An empty disk, with and without the OpenAI credential. *)
Definition fresh_state : State :=
  {| fs := ∅; api_key := Some "sk-test"; rng_pos := 0 |}.
Definition keyless_state : State :=
  {| fs := ∅; api_key := None; rng_pos := 0 |}.

Definition upload (name content : string) : Request :=
  FormData [("audio", {| filename := name; stream := content |})] [].
Definition upload_with_text (name content text : string) : Request :=
  FormData [("audio", {| filename := name; stream := content |})] [("text", text)].
Definition text_form (text : string) : Request := FormData [] [("text", text)].
Definition empty_form : Request := FormData [] [].

(** ** Names used in the statements *)

Definition hf_key_set (env : Env) : bool :=
  from_option PyStr.truthy false (HUGGING_FACE_API_KEY env).

Definition TRANSCRIBER_URL : string :=
  "https://api-inference.huggingface.co/models/jonatasgrosman/wav2vec2-large-xlsr-53-english".

(** What the remote transcriber's answer holds under [text], when the
    call, its status and its JSON are all in order. *)
Definition remote_text (env : Env) (key data : string) : result json :=
  match requests_post env TRANSCRIBER_URL ("Bearer " +:+ key) data with
  | Raise e => Raise e
  | Ok response =>
      if Z.leb 400 (status_code response) && Z.ltb (status_code response) 600
      then Raise (RequestException "HTTPError")
      else
        match json_body response with
        | Raise e => Raise e
        | Ok (JObj fields) => Ok (default JNull (Py.assoc "text" fields))
        | Ok _ => Ok JNull
        end
  end.

Definition is_log (e : event) : bool :=
  match e with Log _ _ => true | _ => false end.

(** The model's API and log lines: all the Answer Generator does. *)
Definition is_answer_io (e : event) : bool :=
  match e with
  | Log _ _ | ChatCompletionCreate _ _ _ => true
  | _ => false
  end.

(** Events that enter no function of the program and write no file. *)
Definition is_quiet (e : event) : bool :=
  match e with
  | Log _ _ | ChatCompletionCreate _ _ _ | RandomChoices _
  | FileRead _ | HttpPost _ _ _ => true
  | _ => false
  end.

(** The token [process_text] draws in state [st], and the file and the
    URL made from a token. *)
Definition speech_token (env : Env) (st : State) : string :=
  choices_from env Py.ascii_uppercase_digits (rng_pos st) 8.
Definition speech_path (token : string) : string :=
  "static/audio/" +:+ token +:+ ".mp3".
Definition speech_url (token : string) : string :=
  "/static/audio/" +:+ token +:+ ".mp3".

(** The state after a successful [f.save(path)]. *)
Definition saved (f : FileStorage) (path : string) (st : State) : State :=
  {| fs := <[path := stream f]> (fs st);
     api_key := api_key st; rng_pos := rng_pos st |}.

(** The state after an [f.save(path)] that raised: the file holds what
    the failed save left there, or is as before when it left nothing. *)
Definition unsaved (env : Env) (f : FileStorage) (path : string) (st : State)
  : State :=
  match storage_leaves env path (stream f) with
  | Some bytes =>
      {| fs := <[path := bytes]> (fs st);
         api_key := api_key st; rng_pos := rng_pos st |}
  | None => st
  end.

(** The path an upload is saved at. *)
Definition upload_path (env : Env) (f : FileStorage) : string :=
  Py.os_path_join UPLOAD_FOLDER (secure_filename env (filename f)).

(** Calls to the model and to the speech engine. *)
Definition is_answer_or_speech (e : event) : bool :=
  match e with
  | ChatCompletionCreate _ _ _ | SpeechSave _ _ => true
  | _ => false
  end.

(** The transcriber being entered, reading its file or calling out. *)
Definition is_transcriber_call (e : event) : bool :=
  match e with
  | Call fn => String.eqb fn "process_audio"
  | FileRead _ | HttpPost _ _ _ => true
  | _ => false
  end.

(** Reads, posts and log lines: all the transcriber does. *)
Definition is_transcriber_io (e : event) : bool :=
  match e with
  | Log _ _ | FileRead _ | HttpPost _ _ _ => true
  | _ => false
  end.

(** A request has a text field when its form holds a non-empty [text],
    or its JSON body is an object holding a true [text]. *)
Definition json_has_get (j : json) : bool :=
  match j with
  | JObj _ => true
  | _ => negb (Py.truthy j)
  end.

(** ** The administrative routes

    [admin_set_openai_key] and [admin_clear_openai_key] change the
    credential the Answer Generator reads.  Besides the program state they
    touch [os.environ], and they read the request's headers. *)

Definition LF : ascii := "010"%char.
Definition CR : ascii := "013"%char.
Definition NUL : ascii := "000"%char.

(** The no-break space U+00A0, in UTF-8. *)
Definition NBSP : string := String "194" (String "160" EmptyString).

(** Reading in text mode translates the line ends ["\r\n"] and ["\r"]
    to ["\n"] (universal newlines). *)
Fixpoint translate_newlines (s : string) : string :=
  match s with
  | EmptyString => EmptyString
  | String c s' =>
      if Ascii.eqb c CR then
        match s' with
        | String c' s'' =>
            if Ascii.eqb c' LF then String LF (translate_newlines s'')
            else String LF (translate_newlines s')
        | EmptyString => String LF EmptyString
        end
      else String c (translate_newlines s')
  end.

(** [f.readlines()] on translated text: every line keeps its ["\n"],
    and a last line without one is kept as it is. *)
Fixpoint readlines (s : string) : list string :=
  match s with
  | EmptyString => []
  | String c s' =>
      if Ascii.eqb c LF then String c EmptyString :: readlines s'
      else
        match readlines s' with
        | [] => [String c EmptyString]
        | l :: ls => String c l :: ls
        end
  end.

(** What [f.writelines(lines)] writes. *)
Definition writelines (lines : list string) : string := String.concat "" lines.

(** [line.strip().startswith("OPENAI_API_KEY=")]. *)
Definition is_key_line (line : string) : bool :=
  String.prefix "OPENAI_API_KEY=" (PyStr.strip line).

(** [f"OPENAI_API_KEY={key}\n"]. *)
Definition key_line (key : string) : string :=
  "OPENAI_API_KEY=" +:+ key +:+ String LF EmptyString.

(** The loop over [enumerate(lines)]: the first line that assigns the
    key is replaced and the loop breaks; [None] when no line does
    ([found] stays [False]). *)
Fixpoint replace_first_key_line (key : string) (lines : list string)
  : option (list string) :=
  match lines with
  | [] => None
  | line :: rest =>
      if is_key_line line then Some (key_line key :: rest)
      else
        match replace_first_key_line key rest with
        | Some rest' => Some (line :: rest')
        | None => None
        end
  end.

(** The lines written back: the replacement, or the old lines followed
    by [f"\nOPENAI_API_KEY={key}\n"]. *)
Definition dotenv_lines (key : string) (lines : list string) : list string :=
  match replace_first_key_line key lines with
  | Some lines' => lines'
  | None => lines ++ [String LF EmptyString +:+ key_line key]
  end.

(** The text of [.env] after the route has run, from the text it held
    ([None] when there was no file). *)
Definition dotenv_text (key : string) (old : option string) : string :=
  match old with
  | Some text =>
      writelines (dotenv_lines key (readlines (translate_newlines text)))
  | None => key_line key
  end.

(** A request as the admin routes see it: what
    [request.headers.get("X-Admin-Token")] gives, and its body. *)
Record AdminRequest : Type := {
  x_admin_token : option string;
  content : Request
}.

(** [request.headers.get("X-Admin-Token") or request.form.get("token")
     or (request.get_json(silent=True) or {}).get("token")]. *)
Definition admin_token (request : AdminRequest) : result json :=
  let h := from_option JStr JNull (x_admin_token request) in
  if Py.truthy h then Ok h
  else
    let f := request_form_get (content request) "token" in
    if Py.truthy f then Ok f
    else Py.get (Py.or_ (request_get_json (content request)) (JObj [])) "token".

(** [token != ADMIN_TOKEN], for the string [ADMIN_TOKEN]. *)
Definition token_differs (token : json) (admin : string) : bool :=
  match token with
  | JStr s => negb (String.eqb s admin)
  | _ => true
  end.

(** [payload.get(k)] for [payload = request.form or
    (request.get_json(silent=True) or {})]: a form that holds a field is
    the payload, otherwise the JSON body is. *)
Definition payload_get (request : AdminRequest) (k : string) : result json :=
  match request_form (content request) with
  | _ :: _ => Ok (request_form_get (content request) k)
  | [] => Py.get (Py.or_ (request_get_json (content request)) (JObj [])) k
  end.

(** [(payload.get("key") or payload.get("OPENAI_API_KEY") or "").strip()]. *)
Definition payload_key (request : AdminRequest) : result string :=
  match payload_get request "key" with
  | Raise e => Raise e
  | Ok a =>
      if Py.truthy a then Py.strip a
      else
        match payload_get request "OPENAI_API_KEY" with
        | Raise e => Raise e
        | Ok b => Py.strip (Py.or_ b (JStr ""))
        end
  end.

(** The state the admin routes run in: the program's state and
    [os.environ]. *)
Record AdminState : Type := {
  app_state : State;
  environ : gmap string string
}.

Record admin_outcome : Type := {
  reply : result Response;
  after : AdminState;
  logged : list event
}.

Definition with_api_key (k : option string) (st : State) : State :=
  {| fs := fs st; api_key := k; rng_pos := rng_pos st |}.

Definition with_file (path text : string) (st : State) : State :=
  {| fs := <[path := text]> (fs st); api_key := api_key st;
     rng_pos := rng_pos st |}.

Section Admin.

(** [ADMIN_TOKEN] (read from the environment at start-up),
    [os.getcwd()], and the platform's answers:
    - [write_refused]: whether opening a file for writing, or the write
      itself, raises;
    - [write_leaves]: what a write that raised has left in the file,
      [None] when the file could not even be opened, otherwise the bytes
      written until then (none at all when the file was only truncated);
    - [read_refused]: whether reading a file that exists raises (no
      permission, or bytes that are not UTF-8);
    - [environ_encodes]: whether [os.environ] can encode a value (a lone
      surrogate, which a JSON escape can bring, cannot be). *)
Context (ADMIN_TOKEN : option string).
Context (cwd : string).
Context (write_refused : string -> string -> option exn).
Context (read_refused : string -> string -> option exn).
Context (write_leaves : string -> string -> option string).
Context (environ_encodes : string -> bool).

(** The guard both routes start with: [Ok true] lets the request
    through, [Ok false] is the 403, and the token expression may raise. *)
Definition admin_guard (request : AdminRequest) : result bool :=
  match ADMIN_TOKEN with
  | Some admin =>
      if PyStr.truthy admin then
        match admin_token request with
        | Raise e => Raise e
        | Ok token => Ok (negb (token_differs token admin))
        end
      else Ok true
  | None => Ok true
  end.

Definition UNAUTHORIZED : Response :=
  jsonify [("error", JStr "unauthorized")] 403.

(** [with open(path, "w", encoding="utf-8") as f:] followed by the
    write of [text]: what it gives, and the state it leaves. *)
Definition write_text (path text : string) (st : State) : result unit * State :=
  match write_refused path text with
  | Some e =>
      (Raise e,
       match write_leaves path text with
       | Some bytes => with_file path bytes st
       | None => st
       end)
  | None => (Ok tt, with_file path text st)
  end.

(** The body of the [try] of [admin_set_openai_key]: [.env] is rewritten,
    or created.  A file that exists is read first, and nothing is written
    when the read raises. *)
Definition write_dotenv (key : string) (st : State) : result unit * State :=
  let env_path := Py.os_path_join cwd ".env" in
  match fs st !! env_path with
  | Some old =>
      match read_refused env_path old with
      | Some e => (Raise e, st)
      | None => write_text env_path (dotenv_text key (Some old)) st
      end
  | None => write_text env_path (dotenv_text key None) st
  end.

(** [admin_set_openai_key()], the handler of [POST /admin/set_openai_key]. *)
Definition admin_set_openai_key (request : AdminRequest) (st : AdminState)
  : admin_outcome :=
  match admin_guard request with
  | Raise e => {| reply := Raise e; after := st; logged := [] |}
  | Ok false => {| reply := Ok UNAUTHORIZED; after := st; logged := [] |}
  | Ok true =>
      match payload_key request with
      | Raise e => {| reply := Raise e; after := st; logged := [] |}
      | Ok key =>
          if negb (PyStr.truthy key) then
            {| reply := Ok (jsonify [("error", JStr "no key provided")] 400);
               after := st; logged := [] |}
          else if PyStr.contains NUL key || negb (environ_encodes key) then
            (* [openai.api_key = key] is done; [os.environ[...] = key]
               refuses a value with an embedded null byte ([ValueError])
               and one it cannot encode ([UnicodeEncodeError], which is a
               [ValueError]). *)
            {| reply := Raise ValueError;
               after := {| app_state := with_api_key (Some key) (app_state st);
                           environ := environ st |};
               logged := [] |}
          else
            let st1 :=
              {| app_state := with_api_key (Some key) (app_state st);
                 environ := <["OPENAI_API_KEY" := key]> (environ st) |} in
            match write_dotenv key (app_state st1) with
            | (Ok _, app') =>
                {| reply := Ok (jsonify [("status", JStr "ok")] 200);
                   after := {| app_state := app'; environ := environ st1 |};
                   logged :=
                     [Log "info" "OPENAI_API_KEY set via admin endpoint and saved to .env"] |}
            | (Raise e, app') =>
                {| reply :=
                     Ok (jsonify [("status", JStr "ok");
                                  ("warning", JStr "runtime key set but .env write failed")]
                           200);
                   after := {| app_state := app'; environ := environ st1 |};
                   logged := [Log "exception" "Failed to write .env: %s"] |}
            end
      end
  end.

(** [admin_clear_openai_key()], the handler of
    [POST /admin/clear_openai_key]. *)
Definition admin_clear_openai_key (request : AdminRequest) (st : AdminState)
  : admin_outcome :=
  match admin_guard request with
  | Raise e => {| reply := Raise e; after := st; logged := [] |}
  | Ok false => {| reply := Ok UNAUTHORIZED; after := st; logged := [] |}
  | Ok true =>
      {| reply := Ok (jsonify [("status", JStr "cleared")] 200);
         after := {| app_state := with_api_key None (app_state st);
                     environ := delete "OPENAI_API_KEY" (environ st) |};
         logged := [Log "info" "OPENAI_API_KEY cleared from runtime environment"] |}
  end.

End Admin.

(** ** Names used in the statements about the rest of the code *)

Definition is_http_post (e : event) : bool :=
  match e with HttpPost _ _ _ => true | _ => false end.

(** The number of posts made to the transcription service. *)
Definition http_posts (evs : list event) : nat :=
  length (List.filter is_http_post evs).

Definition is_file_read (e : event) : bool :=
  match e with FileRead _ => true | _ => false end.

(** What [process_audio] returns once its file has been read. *)
Definition transcription_of (r : result json) : json :=
  match r with
  | Raise _ => JStr "Audio transcription failed."
  | Ok text =>
      if Py.truthy text then text else JStr "Could not transcribe audio."
  end.

(** The state after the speech engine has been asked for [text] at
    [path]: its audio is at the path, or, when it raised, what it left
    there. *)
Definition after_speech (env : Env) (text path : string) (st : State) : State :=
  match gTTS_save env text path with
  | Ok audio => with_file path audio st
  | Raise _ =>
      match gTTS_leaves env text path with
      | Some bytes => with_file path bytes st
      | None => st
      end
  end.

(** A string that holds neither a carriage return nor a line feed. *)
Definition single_line (s : string) : bool :=
  negb (PyStr.contains LF s) && negb (PyStr.contains CR s).

(** A line that ends with its only line feed, and a last line that has
    none. *)
Definition terminated (l : string) : Prop :=
  exists b, l = b +:+ String LF EmptyString /\ PyStr.contains LF b = false.
Definition unterminated (l : string) : Prop :=
  l <> "" /\ PyStr.contains LF l = false.

(** Lines as [readlines] gives them: all terminated, but possibly the
    last. *)
Fixpoint lines_ok (ls : list string) : Prop :=
  match ls with
  | [] => True
  | l :: rest =>
      match rest with
      | [] => terminated l \/ unterminated l
      | _ :: _ => terminated l /\ lines_ok rest
      end
  end.

Definition no_key_line (ls : list string) : bool :=
  forallb (fun l => negb (is_key_line l)) ls.

(** The first line that assigns the key, if any. *)
Definition first_key_line (lines : list string) : option string :=
  List.find is_key_line lines.

(** The working world without the transcription credential. *)
Definition unconfigured_env : Env := {|
  HUGGING_FACE_API_KEY := None;
  secure_filename := Werkzeug.secure_filename;
  storage_save := fun _ _ => None;
  storage_leaves := fun _ _ => None;
  requests_post := requests_post working_env;
  ChatCompletion_create := ChatCompletion_create working_env;
  gTTS_save := gTTS_save working_env;
  gTTS_leaves := gTTS_leaves working_env;
  random_draw := random_draw working_env
|}.

(** A disk that takes every write, and one that refuses them all. *)
Definition writable : string -> string -> option exn := fun _ _ => None.
Definition read_only : string -> string -> option exn :=
  fun _ _ => Some (OSError "PermissionError").

(** A disk on which every file can be read, and one whose files do not
    decode ([UnicodeDecodeError], which is a [ValueError]). *)
Definition readable : string -> string -> option exn := fun _ _ => None.
Definition undecodable : string -> string -> option exn :=
  fun _ _ => Some ValueError.

(** A write that raised before the file was opened, and one that raised
    after the file had been truncated. *)
Definition not_opened : string -> string -> option string := fun _ _ => None.
Definition truncated : string -> string -> option string := fun _ _ => Some "".

(** An environment that encodes every value, and one whose encoding is
    ASCII. *)
Definition any_value : string -> bool := fun _ => true.
Definition ascii_only (s : string) : bool :=
  forallb (fun a => Nat.ltb (nat_of_ascii a) 128) (list_ascii_of_string s).

(** What reading [.env] raises in the route; a file that does not exist
    is not read. *)
Definition dotenv_read_error (read_refused : string -> string -> option exn)
    (path : string) (old : option string) : option exn :=
  match old with
  | Some text => read_refused path text
  | None => None
  end.

(** The two bodies [admin_set_openai_key] answers with its 200. *)
Definition KEY_SAVED : list (string * json) := [("status", JStr "ok")].
Definition KEY_NOT_SAVED : list (string * json) :=
  [("status", JStr "ok");
   ("warning", JStr "runtime key set but .env write failed")].

Definition admin_start : AdminState :=
  {| app_state := keyless_state; environ := ∅ |}.

(** The same start with a [.env] in the working directory [/srv/app]. *)
Definition admin_with_dotenv : AdminState :=
  {| app_state := with_file "/srv/app/.env" ("A=1" +:+ String LF "") keyless_state;
     environ := ∅ |}.

(** A form that sets [key], sent with the header token [token]. *)
Definition set_key_request (token key : string) : AdminRequest :=
  {| x_admin_token := Some token;
     content := FormData [] [("key", key)] |}.

(** ** Facts about the string operations *)

Lemma rsplit_last_None (sep : ascii) (s : string) :
  PyStr.rsplit_last sep s = None <-> PyStr.contains sep s = false.
Proof.
  induction s as [|a s IH]; simpl; [tauto|].
  destruct (PyStr.rsplit_last sep s) as [[h t]|].
  - destruct (Ascii.eqb a sep); split; try discriminate.
    intros H. apply IH in H. discriminate.
  - destruct (Ascii.eqb a sep); split; try discriminate; try tauto.
Qed.

Lemma rsplit_last_Some (sep : ascii) (s h t : string) :
  PyStr.rsplit_last sep s = Some (h, t) <->
  s = h +:+ String sep t /\ PyStr.contains sep t = false.
Proof.
  revert h. induction s as [|a s IH]; intros h; simpl.
  - split; [discriminate|]. intros [H _]. destruct h; discriminate.
  - destruct (PyStr.rsplit_last sep s) as [[h' t']|] eqn:E.
    + split.
      * intros [= <- <-]. destruct (proj1 (IH h') eq_refl) as [-> Ht].
        split; [reflexivity|exact Ht].
      * intros [Hs Ht]. destruct h as [|b h]; simpl in Hs.
        -- injection Hs as -> ->.
           apply rsplit_last_None in Ht. congruence.
        -- injection Hs as -> Hs.
           assert (Some (h', t') = Some (h, t)) as [= -> ->]
             by (apply IH; split; assumption).
           reflexivity.
    + apply rsplit_last_None in E. split.
      * destruct (Ascii.eqb_spec a sep) as [->|]; [|discriminate].
        intros [= <- <-]. split; [reflexivity|exact E].
      * intros [Hs Ht]. destruct h as [|b h]; simpl in Hs.
        -- injection Hs as -> ->. rewrite Ascii.eqb_refl. reflexivity.
        -- injection Hs as -> ->. exfalso.
           clear -E. induction h as [|c h IHh]; simpl in E.
           ++ rewrite Ascii.eqb_refl in E. discriminate.
           ++ destruct (Ascii.eqb c sep); [discriminate|auto].
Qed.

Lemma contains_app_sep (sep : ascii) (h t : string) :
  PyStr.contains sep (h +:+ String sep t) = true.
Proof.
  induction h as [|c h IH]; simpl.
  - rewrite Ascii.eqb_refl. reflexivity.
  - destruct (Ascii.eqb c sep); [reflexivity|exact IH].
Qed.

(** The subscript [[1]] of [allowed_file] is never out of range where it
    is evaluated. *)
Lemma allowed_file_subscript_in_range (name : string) :
  PyStr.contains "." name = true ->
  is_Some (PyStr.rsplit1 "." name !! 1%nat).
Proof.
  intros H. unfold PyStr.rsplit1.
  destruct (PyStr.rsplit_last "." name) as [[h t]|] eqn:E.
  - exists t. reflexivity.
  - apply rsplit_last_None in E. congruence.
Qed.

(** C10. [allowed_file(filename)] is true exactly when the filename has
    the form [stem + "." + ext] where [ext] holds no further dot (so [ext]
    is what follows the last dot) and [ext], lowercased, is in the
    allow-list, whose only member is ["webm"]; only that last segment is
    looked at, and ["clip.exe.webm"] is accepted. *)
Theorem allowed_file_last_segment :
  (forall name : string,
      allowed_file name = true <->
      exists stem ext : string,
        name = stem +:+ "." +:+ ext /\
        PyStr.contains "." ext = false /\
        PyStr.lower ext ∈ ALLOWED_EXTENSIONS) /\
  (forall ext : string, ext ∈ ALLOWED_EXTENSIONS <-> ext = "webm") /\
  allowed_file "clip.exe.webm" = true.
Proof.
  assert (Hset : forall ext : string, ext ∈ ALLOWED_EXTENSIONS <-> ext = "webm").
  { intros ext. unfold ALLOWED_EXTENSIONS. apply elem_of_singleton. }
  split; [|split; [exact Hset|vm_compute; reflexivity]].
  intros name. unfold allowed_file, PyStr.rsplit1. split.
  - intros H. apply andb_prop in H as [Hdot Hext].
    destruct (PyStr.rsplit_last "." name) as [[h t]|] eqn:E.
    + simpl in Hext. apply bool_decide_eq_true in Hext.
      apply rsplit_last_Some in E as [-> Ht].
      exists h, t. repeat split; assumption.
    + apply rsplit_last_None in E. congruence.
  - intros (stem & ext & -> & Hnodot & Hin).
    change (stem +:+ "." +:+ ext) with (stem +:+ String "." ext).
    rewrite contains_app_sep. simpl.
    assert (E : PyStr.rsplit_last "." (stem +:+ String "." ext) = Some (stem, ext))
      by (apply rsplit_last_Some; split; [reflexivity|assumption]).
    rewrite E. simpl. apply bool_decide_eq_true. exact Hin.
Qed.

(** ** Running the embedded program in proofs *)

Ltac unfold_run :=
  unfold bind, try_except, ret, raise, lift, log, emit, get_state, put_state;
  cbn beta iota.

(** Case analysis on the innermost scrutinee that is not itself a
    [match]. *)
Ltac split_scrutinee :=
  match goal with
  | |- context [match ?x with _ => _ end] =>
      lazymatch x with
      | context [match _ with _ => _ end] => fail
      | _ => destruct x eqn:?
      end
  end.

Ltac run_cases := repeat (split_scrutinee; cbn beta iota).

Ltac by_event_induction l :=
  let e := fresh "e" in
  let IH := fresh "IH" in
  let H := fresh "H" in
  let He := fresh "He" in
  let Hl := fresh "Hl" in
  induction l as [|e l IH]; simpl; [reflexivity|];
  intros H; apply andb_prop in H as [He Hl];
  rewrite (IH Hl); destruct e; try discriminate; reflexivity.

(** ** Facts about traces *)

Lemma invoked_app (fn : string) (a b : list event) :
  invoked fn (a ++ b) = invoked fn a || invoked fn b.
Proof. apply existsb_app. Qed.

Lemma written_paths_app (a b : list event) :
  written_paths (a ++ b) = written_paths a ++ written_paths b.
Proof. apply flat_map_app. Qed.

Lemma quiet_not_invoked (fn : string) (l : list event) :
  forallb is_quiet l = true -> invoked fn l = false.
Proof. by_event_induction l. Qed.

Lemma quiet_writes_nothing (l : list event) :
  forallb is_quiet l = true -> written_paths l = [].
Proof. by_event_induction l. Qed.

Lemma logs_are_quiet (l : list event) :
  forallb is_log l = true -> forallb is_quiet l = true.
Proof. by_event_induction l. Qed.

Lemma logs_are_answer_io (l : list event) :
  forallb is_log l = true -> forallb is_answer_io l = true.
Proof. by_event_induction l. Qed.

Lemma logs_are_transcriber_io (l : list event) :
  forallb is_log l = true -> forallb is_transcriber_io l = true.
Proof. by_event_induction l. Qed.

Lemma logs_make_no_attempt (l : list event) :
  forallb is_log l = true -> api_attempts l = 0%nat.
Proof.
  unfold api_attempts. induction l as [|e l IH]; simpl; [reflexivity|].
  intros H. apply andb_prop in H as [He Hl].
  destruct e; try discriminate; simpl; auto.
Qed.

Lemma logs_make_no_network_call (l : list event) :
  forallb is_log l = true -> existsb is_network_call l = false.
Proof. by_event_induction l. Qed.

Lemma answer_io_quiet (l : list event) :
  forallb is_answer_io l = true -> forallb is_quiet l = true.
Proof. by_event_induction l. Qed.

Lemma answer_io_no_transcriber (l : list event) :
  forallb is_answer_io l = true -> existsb is_transcriber_call l = false.
Proof. by_event_induction l. Qed.

Lemma transcriber_io_quiet (l : list event) :
  forallb is_transcriber_io l = true -> forallb is_quiet l = true.
Proof. by_event_induction l. Qed.

Lemma transcriber_io_no_answer_or_speech (l : list event) :
  forallb is_transcriber_io l = true -> existsb is_answer_or_speech l = false.
Proof. by_event_induction l. Qed.

(** ** The Answer Generator *)

(** Without a credential the function stops at its guard. *)
Lemma get_anwer_openai_no_key (env : Env) (question : json) (st : State) :
  key_set st = false ->
  get_anwer_openai env question st =
  {| res := Ok KEY_MISSING; final := st;
     events := [Call "get_anwer_openai";
                Log "error" "OpenAI API key missing when calling get_anwer_openai"] |}.
Proof.
  intros H. unfold get_anwer_openai, key_set in *. unfold_run.
  rewrite H. reflexivity.
Qed.

(** With a credential it makes its one call, logs at most once, and turns
    the outcome into a string. *)
Lemma get_anwer_openai_with_key (env : Env) (question : json) (st : State) :
  key_set st = true ->
  exists answer logs,
    get_anwer_openai env question st =
    {| res := Ok answer; final := st;
       events := Call "get_anwer_openai" ::
                 ChatCompletionCreate "gpt-3.5-turbo" (messages_for question) 30 ::
                 logs |} /\
    forallb is_log logs = true.
Proof.
  intros H. unfold get_anwer_openai, key_set, create_completion in *. unfold_run.
  rewrite H. cbn [negb]. fold (messages_for question).
  run_cases; eexists _, _; split; reflexivity.
Qed.

(** The answer, as a function of the attempt's outcome. *)
Lemma get_anwer_openai_answer (env : Env) (question : json) (st : State) :
  key_set st = true ->
  res (get_anwer_openai env question st) =
  Ok match attempt_outcome env question with
     | Ok text => text
     | Raise e =>
         if Py.is_AuthenticationError e then AUTH_FAILED
         else if Py.is_OpenAIError e then API_ERROR
         else UNEXPECTED_ERROR
     end.
Proof.
  intros H.
  unfold get_anwer_openai, key_set, create_completion, attempt_outcome,
    completion_text in *.
  unfold_run. rewrite H. cbn [negb]. fold (messages_for question).
  destruct (ChatCompletion_create env (messages_for question)) as [c|e];
    cbn beta iota.
  - destruct (Py.getitem c "choices") as [x1|e]; cbn beta iota;
      [destruct (Py.getindex x1 0) as [x2|e]; cbn beta iota;
        [destruct (Py.getitem x2 "message") as [x3|e]; cbn beta iota;
          [destruct (Py.getitem x3 "content") as [x4|e]; cbn beta iota;
            [destruct (Py.strip x4) as [s|e]; cbn beta iota |] |] |] |];
      try (destruct (Py.is_AuthenticationError e);
           [|destruct (Py.is_OpenAIError e)]); reflexivity.
  - destruct (Py.is_AuthenticationError e);
      [|destruct (Py.is_OpenAIError e)]; reflexivity.
Qed.

Lemma key_set_unset (st : State) :
  api_key st = None \/ api_key st = Some "" -> key_set st = false.
Proof. unfold key_set. intros [-> | ->]; reflexivity. Qed.

(** C3. With [openai.api_key] unset ([None] or empty),
    [get_anwer_openai] returns the key-missing sentinel for every
    question and makes no network call: the ChatCompletion API is
    invoked zero times. *)
Theorem get_anwer_openai_key_missing
    (env : Env) (question : json) (st : State) :
  api_key st = None \/ api_key st = Some "" ->
  res (get_anwer_openai env question st) =
    Ok "OpenAI API key missing on server. Set OPENAI_API_KEY and restart the app." /\
  api_attempts (events (get_anwer_openai env question st)) = 0%nat /\
  existsb is_network_call (events (get_anwer_openai env question st)) = false.
Proof.
  intros H. apply key_set_unset in H.
  rewrite (get_anwer_openai_no_key env question st H).
  repeat split.
Qed.

Lemma get_anwer_openai_key_missing_witness :
  (api_key keyless_state = None \/ api_key keyless_state = Some "") /\
  res (get_anwer_openai working_env (JStr "How do I treat leaf rust?") keyless_state) =
    Ok "OpenAI API key missing on server. Set OPENAI_API_KEY and restart the app." /\
  api_attempts
    (events (get_anwer_openai working_env (JStr "How do I treat leaf rust?")
               keyless_state)) = 0%nat.
Proof.
  split; [left; reflexivity|].
  destruct (get_anwer_openai_key_missing working_env
              (JStr "How do I treat leaf rust?") keyless_state
              (or_introl eq_refl)) as (H1 & H2 & _).
  split; [exact H1|exact H2].
Defined.

Lemma sentinels_distinct :
  NoDup [KEY_MISSING; AUTH_FAILED; API_ERROR; UNEXPECTED_ERROR].
Proof.
  apply (bool_decide_unpack _). vm_compute. exact I.
Qed.

(** C4, as the code has it.  [get_anwer_openai] never lets an exception
    escape and leaves the state alone; it makes at most one API attempt,
    none when the credential is unset and exactly one when it is set; and
    the failures of that attempt map to three distinct sentinels:
    an authentication rejection, any other API-level error, and any other
    (local) error, whether raised by the call or while reading its
    answer. *)
Theorem get_anwer_openai_one_attempt_no_escape
    (env : Env) (question : json) (st : State) :
  (exists answer, res (get_anwer_openai env question st) = Ok answer) /\
  final (get_anwer_openai env question st) = st /\
  api_attempts (events (get_anwer_openai env question st)) =
    (if key_set st then 1%nat else 0%nat) /\
  (key_set st = true ->
   forall e, attempt_outcome env question = Raise e ->
     (e = AuthenticationError ->
      res (get_anwer_openai env question st) = Ok AUTH_FAILED) /\
     ((exists cls, e = OpenAIError cls) ->
      res (get_anwer_openai env question st) = Ok API_ERROR) /\
     (Py.is_OpenAIError e = false ->
      res (get_anwer_openai env question st) = Ok UNEXPECTED_ERROR)) /\
  (key_set st = true ->
   forall text, attempt_outcome env question = Ok text ->
     res (get_anwer_openai env question st) = Ok text) /\
  NoDup [KEY_MISSING; AUTH_FAILED; API_ERROR; UNEXPECTED_ERROR].
Proof.
  destruct (key_set st) eqn:Hk.
  - destruct (get_anwer_openai_with_key env question st Hk)
      as (answer & logs & E & Hlogs).
    pose proof (get_anwer_openai_answer env question st Hk) as Ha.
    rewrite E in *. cbn [res final events] in *.
    split; [eauto|]. split; [reflexivity|]. split.
    { unfold api_attempts. simpl. f_equal.
      apply (logs_make_no_attempt logs Hlogs). }
    split; [|split].
    + intros _ e He. rewrite He in Ha. repeat split.
      * intros ->. exact Ha.
      * intros [cls ->]. exact Ha.
      * intros Hn. rewrite Hn in Ha.
        destruct e; try discriminate; exact Ha.
    + intros _ text Ht. rewrite Ht in Ha. exact Ha.
    + apply sentinels_distinct.
  - rewrite (get_anwer_openai_no_key env question st Hk). cbn [res final events].
    split; [eauto|]. split; [reflexivity|]. split; [reflexivity|].
    split; [discriminate|]. split; [discriminate|].
    apply sentinels_distinct.
Qed.

Lemma get_anwer_openai_one_attempt_no_escape_witness :
  res (get_anwer_openai rejecting_env (JStr "How do I treat leaf rust?") fresh_state) =
    Ok AUTH_FAILED /\
  api_attempts
    (events (get_anwer_openai rejecting_env (JStr "How do I treat leaf rust?")
               fresh_state)) = 1%nat.
Proof.
  destruct (get_anwer_openai_one_attempt_no_escape rejecting_env
              (JStr "How do I treat leaf rust?") fresh_state)
    as (_ & _ & Hn & Hfail & _).
  split; [|exact Hn].
  exact (proj1 (Hfail eq_refl AuthenticationError eq_refl) eq_refl).
Defined.

(** C4 as it was stated fails where the credential is unset: the guard
    returns before any API attempt, so the attempts are zero, not one. *)
Lemma get_anwer_openai_no_attempt_without_key :
  key_set keyless_state = false /\
  res (get_anwer_openai working_env (JStr "How do I treat leaf rust?") keyless_state) =
    Ok KEY_MISSING /\
  api_attempts
    (events (get_anwer_openai working_env (JStr "How do I treat leaf rust?")
               keyless_state)) = 0%nat /\
  api_attempts
    (events (get_anwer_openai working_env (JStr "How do I treat leaf rust?")
               keyless_state)) <> 1%nat.
Proof. vm_compute. repeat split; discriminate. Qed.

(** ** The Speech Transcriber *)

Lemma process_audio_no_key (env : Env) (filepath : string) (st : State) :
  hf_key_set env = false ->
  process_audio env filepath st =
  {| res := Ok (JStr "Transcription service not configured."); final := st;
     events := [Call "process_audio";
                Log "error" "No HUGGING_FACE_API_KEY; cannot transcribe audio."] |}.
Proof.
  unfold hf_key_set, process_audio. unfold_run.
  destruct (HUGGING_FACE_API_KEY env) as [key|]; simpl; [|reflexivity].
  intros ->. reflexivity.
Qed.

(** With a credential, a path that holds no file makes the read raise,
    and nothing catches it inside [process_audio]. *)
Lemma process_audio_missing_file (env : Env) (filepath : string) (st : State) :
  hf_key_set env = true ->
  fs st !! filepath = None ->
  process_audio env filepath st =
  {| res := Raise (OSError "FileNotFoundError"); final := st;
     events := [Call "process_audio"; FileRead filepath] |}.
Proof.
  unfold hf_key_set, process_audio, read_file. unfold_run.
  destruct (HUGGING_FACE_API_KEY env) as [key|]; simpl; [|discriminate].
  intros -> ->. reflexivity.
Qed.

(** Once the file has been read, [process_audio] returns: the remote
    text when there is one, and a sentinel otherwise. *)
Lemma process_audio_readable
    (env : Env) (filepath : string) (st : State) (key data : string) :
  HUGGING_FACE_API_KEY env = Some key ->
  PyStr.truthy key = true ->
  fs st !! filepath = Some data ->
  exists logs,
    process_audio env filepath st =
    {| res := Ok match remote_text env key data with
                 | Raise _ => JStr "Audio transcription failed."
                 | Ok text =>
                     if Py.truthy text then text
                     else JStr "Could not transcribe audio."
                 end;
       final := st;
       events := Call "process_audio" :: FileRead filepath ::
                 HttpPost TRANSCRIBER_URL ("Bearer " +:+ key) 60 :: logs |} /\
    forallb is_log logs = true.
Proof.
  intros Hkey Htruthy Hfile.
  unfold process_audio, read_file, post, raise_for_status, remote_text.
  unfold_run. rewrite Hkey, Htruthy. cbn beta iota. rewrite Hfile. cbn beta iota.
  fold TRANSCRIBER_URL.
  destruct (requests_post env TRANSCRIBER_URL ("Bearer " +:+ key) data)
    as [response|e]; cbn beta iota; [|eexists; split; reflexivity].
  destruct (Z.leb 400 (status_code response) && Z.ltb (status_code response) 600);
    cbn beta iota; [eexists; split; reflexivity|].
  destruct (json_body response) as [d|e]; cbn beta iota;
    [|eexists; split; reflexivity].
  destruct d; simpl; try (eexists; split; reflexivity).
  destruct (Py.truthy (default JNull (Py.assoc "text" fields)));
    simpl; eexists; split; reflexivity.
Qed.

(** C8, at its failing input: with the transcription credential set and
    no file at the path, [process_audio] raises [FileNotFoundError]
    instead of returning a sentinel: the file is opened and read before
    the [try] that turns failures into sentinels. *)
Theorem process_audio_raises_on_unreadable_path :
  hf_key_set working_env = true /\
  fs fresh_state !! "uploads/missing.webm" = None /\
  res (process_audio working_env "uploads/missing.webm" fresh_state) =
    Raise (OSError "FileNotFoundError") /\
  forall (env : Env) (filepath : string) (st : State),
    hf_key_set env = true ->
    fs st !! filepath = None ->
    res (process_audio env filepath st) = Raise (OSError "FileNotFoundError").
Proof.
  split; [reflexivity|]. split; [reflexivity|]. split.
  - rewrite process_audio_missing_file; reflexivity.
  - intros env filepath st Hk Hf.
    rewrite process_audio_missing_file; [reflexivity|assumption..].
Qed.

(** What C8 says does hold from the [try] on, and at the guard: no
    credential, a transport failure, a failure status, a body that is not
    JSON, not an object, or without a true [text] all give a sentinel. *)
Lemma process_audio_sentinels
    (env : Env) (filepath : string) (st : State) :
  (hf_key_set env = false ->
   res (process_audio env filepath st) =
     Ok (JStr "Transcription service not configured.")) /\
  (forall key data,
     HUGGING_FACE_API_KEY env = Some key -> PyStr.truthy key = true ->
     fs st !! filepath = Some data ->
     (forall e, remote_text env key data = Raise e ->
        res (process_audio env filepath st) = Ok (JStr "Audio transcription failed.")) /\
     (forall text, remote_text env key data = Ok text -> Py.truthy text = false ->
        res (process_audio env filepath st) = Ok (JStr "Could not transcribe audio.")) /\
     (forall text, remote_text env key data = Ok text -> Py.truthy text = true ->
        res (process_audio env filepath st) = Ok text)).
Proof.
  split.
  - intros H. rewrite process_audio_no_key by assumption. reflexivity.
  - intros key data Hk Ht Hf.
    destruct (process_audio_readable env filepath st key data Hk Ht Hf)
      as (logs & -> & _). cbn [res].
    repeat split.
    + intros e ->. reflexivity.
    + intros text -> ->. reflexivity.
    + intros text -> ->. reflexivity.
Qed.

(** After a successful save the transcriber finds its file: it returns,
    and it does nothing but read, post and log. *)
Lemma process_audio_after_save
    (env : Env) (f : FileStorage) (path : string) (st : State) :
  exists transcription tail,
    process_audio env path (saved f path st) =
    {| res := Ok transcription; final := saved f path st;
       events := Call "process_audio" :: tail |} /\
    forallb is_transcriber_io tail = true.
Proof.
  destruct (HUGGING_FACE_API_KEY env) as [key|] eqn:Hk.
  - destruct (PyStr.truthy key) eqn:Ht.
    + destruct (process_audio_readable env path (saved f path st) key (stream f)
                  Hk Ht) as (logs & -> & Hlogs).
      { simpl. apply lookup_insert_eq. }
      eexists _, _. split; [reflexivity|].
      simpl. apply logs_are_transcriber_io, Hlogs.
    + rewrite process_audio_no_key
        by (unfold hf_key_set; rewrite Hk; exact Ht).
      eexists _, _. split; reflexivity.
  - rewrite process_audio_no_key by (unfold hf_key_set; rewrite Hk; reflexivity).
    eexists _, _. split; reflexivity.
Qed.

(** ** The text pipeline *)

(** [get_anwer_openai] always returns a string, leaves the state as it
    found it, and does nothing but call the API and log. *)
Lemma get_anwer_openai_shape (env : Env) (question : json) (st : State) :
  exists answer tail,
    get_anwer_openai env question st =
    {| res := Ok answer; final := st;
       events := Call "get_anwer_openai" :: tail |} /\
    forallb is_answer_io tail = true.
Proof.
  destruct (key_set st) eqn:Hk.
  - destruct (get_anwer_openai_with_key env question st Hk)
      as (answer & logs & -> & Hlogs).
    eexists _, _. split; [reflexivity|].
    simpl. apply logs_are_answer_io, Hlogs.
  - rewrite (get_anwer_openai_no_key env question st Hk). eauto.
Qed.

(** [process_text], run: the answer, one draw of a token, one attempt at
    synthesis; the voice is the URL when the speech engine wrote its file
    and empty when it raised. *)
Lemma process_text_run (env : Env) (text : json) (st : State) :
  exists answer tail logs st',
    get_anwer_openai env text st =
      {| res := Ok answer; final := st;
         events := Call "get_anwer_openai" :: tail |} /\
    forallb is_answer_io tail = true /\
    forallb is_log logs = true /\
    process_text env text st =
    {| res := Ok [("text", JStr answer);
                  ("voice",
                   JStr match gTTS_save env answer
                                (speech_path (speech_token env st)) with
                        | Ok _ => speech_url (speech_token env st)
                        | Raise _ => ""
                        end)];
       final := st';
       events :=
         Call "process_text" :: Call "get_anwer_openai" :: tail ++
         RandomChoices 8 :: Call "text_to_audio" ::
         SpeechSave answer (speech_path (speech_token env st)) :: logs |}.
Proof.
  destruct (get_anwer_openai_shape env text st) as (answer & tail & E & Hq).
  exists answer, tail.
  unfold process_text, random_choices, text_to_audio, speech_save, write_file.
  unfold_run. rewrite E. cbn beta iota.
  fold (speech_token env st). fold (speech_path (speech_token env st)).
  destruct (gTTS_save env answer (speech_path (speech_token env st)))
    as [audio|e]; cbn beta iota.
  - eexists [], _. split; [reflexivity|]. split; [assumption|].
    split; [reflexivity|]. simpl. rewrite ?app_nil_r. reflexivity.
  - exists [Log "exception" "text_to_audio failed: %s";
            Log "exception" "text_to_audio failed: %s"].
    destruct (gTTS_leaves env answer (speech_path (speech_token env st)));
      cbn beta iota;
      (eexists; split; [reflexivity|]; split; [assumption|];
       split; [reflexivity|]; simpl; rewrite ?app_nil_r; reflexivity).
Qed.

(** ** The dispatcher *)

Lemma allowed_file_truthy (name : string) :
  allowed_file name = true -> PyStr.truthy name = true.
Proof.
  unfold allowed_file. intros H. apply andb_prop in H as [H _].
  destruct name; [discriminate|reflexivity].
Qed.

(** [chat] is its body, unless the body raises. *)
Lemma chat_of_body (env : Env) (request : Request) (st : State) :
  chat env request st =
  match res (chat_body env request st) with
  | Ok _ => chat_body env request st
  | Raise _ =>
      {| res := Ok INTERNAL_SERVER_ERROR;
         final := final (chat_body env request st);
         events := events (chat_body env request st) ++
                   [Log "exception" "Unhandled /chat error: %s"] |}
  end.
Proof.
  unfold chat. unfold_run.
  destruct (chat_body env request st) as [[r|e] st' evs]; reflexivity.
Qed.

(** The text half of the handler. *)
Lemma chat_text_run (env : Env) (request : Request) (st : State) :
  chat_text env request st =
  match text_field request with
  | Raise e => {| res := Raise e; final := st; events := [] |}
  | Ok text =>
      if Py.truthy text then
        {| res := match res (process_text env text st) with
                  | Ok d => Ok (jsonify d 200)
                  | Raise e => Raise e
                  end;
           final := final (process_text env text st);
           events := events (process_text env text st) |}
      else {| res := Ok INVALID_REQUEST; final := st; events := [] |}
  end.
Proof.
  unfold chat_text. unfold_run.
  destruct (text_field request) as [text|e]; cbn beta iota; [|reflexivity].
  destruct (Py.truthy text); [|reflexivity].
  destruct (process_text env text st) as [[d|e] st' evs]; simpl;
    rewrite ?app_nil_r; reflexivity.
Qed.

(** Without an upload that qualifies, the body of [chat] is its text
    half. *)
Lemma chat_body_no_qualifying_audio (env : Env) (request : Request) (st : State) :
  (forall f, Py.assoc "audio" (request_files request) = Some f ->
             allowed_file (filename f) = false) ->
  chat_body env request st = chat_text env request st.
Proof.
  intros H. unfold chat_body.
  destruct (Py.assoc "audio" (request_files request)) as [f|]; [|reflexivity].
  rewrite (H f eq_refl), andb_false_r. reflexivity.
Qed.

(** With an upload that qualifies, the body saves it and hands it to the
    transcriber, whose answer it returns. *)
Lemma chat_body_qualifying_audio
    (env : Env) (request : Request) (st : State) (f : FileStorage) :
  Py.assoc "audio" (request_files request) = Some f ->
  allowed_file (filename f) = true ->
  chat_body env request st =
  match storage_save env (upload_path env f) (stream f) with
  | Some e =>
      {| res := Raise e; final := unsaved env f (upload_path env f) st;
         events := [FileSave (upload_path env f)] |}
  | None =>
      let o := process_audio env (upload_path env f) (saved f (upload_path env f) st) in
      {| res := match res o with
                | Ok transcription => Ok (jsonify [("text", transcription)] 200)
                | Raise e => Raise e
                end;
         final := final o;
         events := FileSave (upload_path env f) :: events o |}
  end.
Proof.
  intros Hf Hallowed. unfold chat_body, save, write_file, unsaved.
  rewrite Hf, Hallowed.
  unfold file_truthy. rewrite (allowed_file_truthy _ Hallowed). cbn [andb].
  fold (upload_path env f). unfold_run.
  destruct (storage_save env (upload_path env f) (stream f)) as [e|];
    cbn beta iota;
    [destruct (storage_leaves env (upload_path env f) (stream f)); reflexivity|].
  fold (saved f (upload_path env f) st).
  destruct (process_audio env (upload_path env f)
              (saved f (upload_path env f) st)) as [[t|e] st' evs]; simpl;
    rewrite ?app_nil_r; reflexivity.
Qed.

(** C1, as the code has it.  For a request whose [audio] upload passes
    [allowed_file], the handler first saves the upload under
    [uploads/<sanitized name>]; neither the Answer Generator
    ([get_anwer_openai], through [process_text]) nor the Speech
    Synthesizer ([text_to_audio]) is entered and neither service is
    called.  When the save succeeds the transcriber runs and its
    transcription is returned at once as [{text: transcription}] with
    status 200; when the save raises, the transcriber is not run and the
    answer is the 500 of the catch-all. *)
Theorem chat_audio_is_terminal
    (env : Env) (request : Request) (st : State) (f : FileStorage) :
  Py.assoc "audio" (request_files request) = Some f ->
  allowed_file (filename f) = true ->
  invoked "get_anwer_openai" (events (chat env request st)) = false /\
  invoked "text_to_audio" (events (chat env request st)) = false /\
  invoked "process_text" (events (chat env request st)) = false /\
  existsb is_answer_or_speech (events (chat env request st)) = false /\
  head (events (chat env request st)) = Some (FileSave (upload_path env f)) /\
  (storage_save env (upload_path env f) (stream f) = None ->
   invoked "process_audio" (events (chat env request st)) = true /\
   exists transcription,
     res (process_audio env (upload_path env f) (saved f (upload_path env f) st)) =
       Ok transcription /\
     res (chat env request st) = Ok (jsonify [("text", transcription)] 200)) /\
  (forall e, storage_save env (upload_path env f) (stream f) = Some e ->
   invoked "process_audio" (events (chat env request st)) = false /\
   res (chat env request st) = Ok INTERNAL_SERVER_ERROR).
Proof.
  intros Hf Hallowed.
  rewrite chat_of_body, (chat_body_qualifying_audio env request st f Hf Hallowed).
  destruct (storage_save env (upload_path env f) (stream f)) as [e|].
  - cbn [res final events app]. repeat split; try reflexivity; try discriminate.
  - destruct (process_audio_after_save env f (upload_path env f) st)
      as (t & tail & E & Hio).
    rewrite E. cbn [res final events app].
    pose proof (transcriber_io_quiet _ Hio) as Hq.
    repeat split; try discriminate.
    + simpl. apply (quiet_not_invoked "get_anwer_openai"), Hq.
    + simpl. apply (quiet_not_invoked "text_to_audio"), Hq.
    + simpl. apply (quiet_not_invoked "process_text"), Hq.
    + simpl. apply transcriber_io_no_answer_or_speech, Hio.
    + exists t. split; reflexivity.
Qed.

Lemma chat_audio_is_terminal_witness :
  invoked "get_anwer_openai"
    (events (chat working_env (upload "clip.webm" "RIFF") fresh_state)) = false /\
  res (chat working_env (upload "clip.webm" "RIFF") fresh_state) =
    Ok (jsonify [("text", JStr "hello")] 200).
Proof.
  destruct (chat_audio_is_terminal working_env (upload "clip.webm" "RIFF")
              fresh_state {| filename := "clip.webm"; stream := "RIFF" |}
              eq_refl eq_refl)
    as (H1 & _ & _ & _ & _ & Hok & _).
  split; [exact H1|].
  destruct (Hok eq_refl) as (_ & t & Ht & Hres).
  rewrite Hres. vm_compute in Ht. injection Ht as <-. reflexivity.
Defined.

(** C1 as it was stated fails when the upload cannot be saved: the
    filename passes the allow-list, yet the response is the 500 sentinel
    and no transcription is returned. *)
Lemma chat_audio_save_failure_is_500 :
  allowed_file "clip.webm" = true /\
  res (chat full_disk_env (upload "clip.webm" "RIFF") fresh_state) =
    Ok (jsonify [("text", JStr "Internal server error")] 500) /\
  invoked "process_audio"
    (events (chat full_disk_env (upload "clip.webm" "RIFF") fresh_state)) = false.
Proof. vm_compute. repeat split. Qed.

(** [chat] always answers: nothing propagates out of the handler. *)
Lemma chat_never_raises (env : Env) (request : Request) (st : State) :
  exists response, res (chat env request st) = Ok response.
Proof.
  rewrite chat_of_body.
  destruct (res (chat_body env request st)) as [r|e] eqn:E.
  - exists r. exact E.
  - eexists. reflexivity.
Qed.

(** C5. Whenever an exception escapes the dispatch logic (the body of
    the handler's [try]), the handler answers status 500 with the body
    [{text: "Internal server error"}], which carries nothing of the
    exception; and for every request the handler returns a response, so
    no exception reaches the transport layer. *)
Theorem chat_catch_all
    (env : Env) (request : Request) (st : State) (e : exn) :
  res (chat_body env request st) = Raise e ->
  res (chat env request st) =
    Ok {| status := 500; body := [("text", JStr "Internal server error")] |} /\
  events (chat env request st) =
    events (chat_body env request st) ++
    [Log "exception" "Unhandled /chat error: %s"] /\
  (forall request' st', exists response, res (chat env request' st') = Ok response).
Proof.
  intros H. rewrite chat_of_body, H.
  repeat split. intros request' st'. apply chat_never_raises.
Qed.

Lemma chat_catch_all_witness :
  res (chat_body working_env (JsonBody (Some (JArr [JNum 1]))) fresh_state) =
    Raise AttributeError /\
  res (chat working_env (JsonBody (Some (JArr [JNum 1]))) fresh_state) =
    Ok {| status := 500; body := [("text", JStr "Internal server error")] |}.
Proof.
  split; [reflexivity|].
  exact (proj1 (chat_catch_all working_env (JsonBody (Some (JArr [JNum 1])))
                  fresh_state AttributeError eq_refl)).
Defined.

(** What C6 says does hold as long as the JSON body, if any, is an
    object or is false ([null], [false], [0], an empty string or list):
    without a qualifying upload and without a true text, the answer is
    the 400. *)
Lemma chat_invalid_request (env : Env) (request : Request) (st : State) :
  (forall f, Py.assoc "audio" (request_files request) = Some f ->
             allowed_file (filename f) = false) ->
  Py.truthy (request_form_get request "text") = false ->
  json_has_get (request_get_json request) = true ->
  Py.truthy (default JNull
               (match request_get_json request with
                | JObj fields => Py.assoc "text" fields
                | _ => None
                end)) = false ->
  chat env request st =
  {| res := Ok {| status := 400; body := [("text", JStr "Invalid request")] |};
     final := st; events := [] |}.
Proof.
  intros Haudio Hform Hget Hjson.
  rewrite chat_of_body, chat_body_no_qualifying_audio by assumption.
  rewrite chat_text_run. unfold text_field. rewrite Hform.
  unfold Py.or_, Py.get.
  destruct (request_get_json request) as [| b | n | s | items | fields];
    simpl in *.
  - reflexivity.
  - apply negb_true_iff in Hget. rewrite Hget. reflexivity.
  - rewrite negb_true_iff in Hget. rewrite Hget. reflexivity.
  - rewrite negb_true_iff in Hget. rewrite Hget. reflexivity.
  - destruct items; [reflexivity|discriminate].
  - destruct fields as [|kv fields]; [reflexivity|].
    cbn [res]. rewrite Hjson. reflexivity.
Qed.

(** C6, at its failing input: a POST whose JSON body is the array [[1]]
    carries no upload and no text field, yet the answer is the 500 of the
    catch-all and not the 400: [[1].get] raises [AttributeError], the
    guard [or {}] having covered only a missing or false body. *)
Theorem chat_json_array_is_500 :
  request_files (JsonBody (Some (JArr [JNum 1]))) = [] /\
  request_form_get (JsonBody (Some (JArr [JNum 1]))) "text" = JNull /\
  text_field (JsonBody (Some (JArr [JNum 1]))) = Raise AttributeError /\
  (forall env st,
     res (chat env (JsonBody (Some (JArr [JNum 1]))) st) =
       Ok {| status := 500; body := [("text", JStr "Internal server error")] |}).
Proof.
  split; [reflexivity|]. split; [reflexivity|]. split; [reflexivity|].
  intros env st.
  rewrite chat_of_body, chat_body_no_qualifying_audio by (intros f [=]).
  rewrite chat_text_run. reflexivity.
Qed.

(** The events of the text pipeline: the transcriber is not among
    them, and the only file written is the speech file. *)
Lemma process_text_events (env : Env) (text : json) (st : State) :
  invoked "process_text" (events (process_text env text st)) = true /\
  invoked "process_audio" (events (process_text env text st)) = false /\
  existsb is_transcriber_call (events (process_text env text st)) = false /\
  written_paths (events (process_text env text st)) =
    [speech_path (speech_token env st)].
Proof.
  destruct (process_text_run env text st)
    as (answer & tail & logs & st' & _ & Htail & Hlogs & ->).
  cbn [events].
  pose proof (answer_io_quiet _ Htail) as Hq.
  pose proof (logs_are_quiet _ Hlogs) as Hq'.
  split; [reflexivity|]. split; [|split].
  - cbn [invoked existsb is_call String.eqb orb Ascii.eqb Bool.eqb].
    fold (invoked "process_audio" (tail ++ RandomChoices 8 :: Call "text_to_audio"
      :: SpeechSave answer (speech_path (speech_token env st)) :: logs)).
    rewrite invoked_app, (quiet_not_invoked _ _ Hq).
    simpl. apply (quiet_not_invoked "process_audio"), Hq'.
  - simpl. rewrite existsb_app, (answer_io_no_transcriber _ Htail).
    simpl. clear -Hlogs. revert Hlogs. by_event_induction logs.
  - simpl. rewrite written_paths_app, (quiet_writes_nothing _ Hq).
    simpl. rewrite (quiet_writes_nothing _ Hq'). reflexivity.
Qed.

(** C7. When the [audio] upload's filename is refused by
    [allowed_file], the handler never enters [process_audio] (and neither
    reads a file nor posts to the transcriber); it goes on to the text
    field: a non-empty [text] is handed to the text pipeline, whose answer
    is returned with status 200, and without one the answer is the 400
    sentinel. *)
Theorem chat_disallowed_audio_falls_through
    (env : Env) (request : Request) (st : State) (f : FileStorage) :
  Py.assoc "audio" (request_files request) = Some f ->
  allowed_file (filename f) = false ->
  invoked "process_audio" (events (chat env request st)) = false /\
  existsb is_transcriber_call (events (chat env request st)) = false /\
  (forall text,
     Py.assoc "text" (request_form request) = Some text -> text <> "" ->
     invoked "process_text" (events (chat env request st)) = true /\
     exists d, res (process_text env (JStr text) st) = Ok d /\
               res (chat env request st) = Ok (jsonify d 200)) /\
  (Py.assoc "text" (request_form request) = None \/
   Py.assoc "text" (request_form request) = Some "" ->
   chat env request st =
   {| res := Ok {| status := 400; body := [("text", JStr "Invalid request")] |};
      final := st; events := [] |}).
Proof.
  intros Hf Hrefused.
  assert (Hnone : forall f', Py.assoc "audio" (request_files request) = Some f' ->
                             allowed_file (filename f') = false)
    by (intros f' Hf'; congruence).
  rewrite chat_of_body, (chat_body_no_qualifying_audio env request st Hnone).
  rewrite chat_text_run.
  destruct request as [files form| |]; [|discriminate Hf..].
  unfold text_field, request_form_get, request_get_json, request_form.
  destruct (Py.assoc "text" form) as [text|] eqn:Htext.
  - destruct text as [|c text];
      cbn [Py.truthy PyStr.truthy Py.or_ Py.get default from_option Py.assoc
           res events].
    + repeat split; congruence.
    + destruct (process_text_run env (JStr (String c text)) st)
        as (answer & tail & logs & st' & _ & _ & _ & E).
      destruct (process_text_events env (JStr (String c text)) st)
        as (Hpt & Hpa & Htc & _).
      rewrite E in *. cbn [res final events] in *.
      split; [exact Hpa|]. split; [exact Htc|]. split.
      * intros text' [= <-] _. rewrite E. cbn [res].
        split; [exact Hpt|]. eexists. split; reflexivity.
      * intros [H|H]; discriminate H.
  - cbn [Py.truthy Py.or_ Py.get default from_option Py.assoc res events].
    repeat split; try discriminate.
Qed.

Lemma chat_disallowed_audio_falls_through_witness :
  allowed_file "clip.exe" = false /\
  invoked "process_audio"
    (events (chat working_env
               (upload_with_text "clip.exe" "MZ" "How do I treat leaf rust?")
               fresh_state)) = false /\
  res (chat working_env
         (upload_with_text "clip.exe" "MZ" "How do I treat leaf rust?")
         fresh_state) =
    Ok (jsonify [("text", JStr "Apply fungicide X");
                 ("voice", JStr "/static/audio/DKRY5CJQ.mp3")] 200) /\
  res (chat working_env (upload "clip.exe" "MZ") fresh_state) =
    Ok {| status := 400; body := [("text", JStr "Invalid request")] |}.
Proof.
  split; [reflexivity|].
  destruct (chat_disallowed_audio_falls_through working_env
              (upload_with_text "clip.exe" "MZ" "How do I treat leaf rust?")
              fresh_state {| filename := "clip.exe"; stream := "MZ" |}
              eq_refl eq_refl) as (H1 & _ & Htext & _).
  split; [exact H1|]. split.
  - destruct (Htext "How do I treat leaf rust?" eq_refl)
      as (_ & d & Hd & Hres); [discriminate|].
    rewrite Hres. vm_compute in Hd. injection Hd as <-. reflexivity.
  - destruct (chat_disallowed_audio_falls_through working_env
                (upload "clip.exe" "MZ")
                fresh_state {| filename := "clip.exe"; stream := "MZ" |}
                eq_refl eq_refl) as (_ & _ & _ & H400).
    rewrite (H400 (or_introl eq_refl)). reflexivity.
Defined.

(** ** The shape of the responses *)

Lemma speech_url_not_empty (token : string) : speech_url token <> "".
Proof. unfold speech_url. simpl. discriminate. Qed.

(** The dictionary [process_text] returns. *)
Lemma process_text_response (env : Env) (text : json) (st : State) :
  exists answer voice,
    res (process_text env text st) =
      Ok [("text", JStr answer); ("voice", JStr voice)] /\
    res (get_anwer_openai env text st) = Ok answer /\
    (voice = "" <->
     exists e, gTTS_save env answer (speech_path (speech_token env st)) = Raise e) /\
    (voice <> "" -> voice = speech_url (speech_token env st)).
Proof.
  destruct (process_text_run env text st)
    as (answer & tail & logs & st' & Ha & _ & _ & E).
  rewrite E, Ha. cbn [res].
  eexists _, _. split; [reflexivity|]. split; [reflexivity|].
  destruct (gTTS_save env answer (speech_path (speech_token env st))) as [audio|e].
  - split; [split|reflexivity].
    + intros H. exfalso. exact (speech_url_not_empty _ H).
    + intros [e He]. discriminate He.
  - split; [split; eauto|]. intros H. exfalso. apply H. reflexivity.
Qed.

(** The three responses of the text half of [chat], by what the text
    field holds. *)
Lemma chat_text_half_shape (env : Env) (request : Request) (st : State) :
  chat_body env request st = chat_text env request st ->
  match text_field request with
  | Ok text =>
      if Py.truthy text then
        invoked "process_text" (events (chat env request st)) = true /\
        exists answer voice,
          res (process_text env text st) =
            Ok [("text", JStr answer); ("voice", JStr voice)] /\
          res (chat env request st) =
            Ok {| status := 200;
                  body := [("text", JStr answer); ("voice", JStr voice)] |}
      else
        invoked "process_text" (events (chat env request st)) = false /\
        res (chat env request st) =
          Ok {| status := 400; body := [("text", JStr "Invalid request")] |}
  | Raise e =>
      invoked "process_text" (events (chat env request st)) = false /\
      res (chat_body env request st) = Raise e /\
      res (chat env request st) =
        Ok {| status := 500; body := [("text", JStr "Internal server error")] |}
  end.
Proof.
  intros Hbody. rewrite chat_of_body, Hbody, chat_text_run.
  destruct (text_field request) as [text|e]; cbn [res events];
    [destruct (Py.truthy text)|].
  - destruct (process_text_response env text st) as (answer & voice & H1 & _).
    destruct (process_text_events env text st) as (Hpt & _).
    rewrite H1. cbn [res events].
    split; [exact Hpt|]. exists answer, voice. split; reflexivity.
  - split; reflexivity.
  - split; [reflexivity|]. split; reflexivity.
Qed.

(** What the transcriber returns for a saved upload is a string, unless
    the service answered a true [text] that is not one. *)
Lemma process_audio_after_save_text
    (env : Env) (f : FileStorage) (path : string) (st : State)
    (transcription : json) :
  res (process_audio env path (saved f path st)) = Ok transcription ->
  (forall key v,
     HUGGING_FACE_API_KEY env = Some key ->
     remote_text env key (stream f) = Ok v -> Py.truthy v = true ->
     exists s, v = JStr s) ->
  exists s, transcription = JStr s.
Proof.
  intros Hres Hstr.
  destruct (HUGGING_FACE_API_KEY env) as [key|] eqn:Hk;
    [destruct (PyStr.truthy key) eqn:Ht|].
  - destruct (process_audio_readable env path (saved f path st) key (stream f)
                Hk Ht) as (logs & E & _).
    { simpl. apply lookup_insert_eq. }
    rewrite E in Hres. cbn [res] in Hres. injection Hres as <-.
    destruct (remote_text env key (stream f)) as [v|e] eqn:Hv; [|eauto].
    destruct (Py.truthy v) eqn:Htv; [|eauto].
    exact (Hstr key v eq_refl Hv Htv).
  - rewrite process_audio_no_key in Hres
      by (unfold hf_key_set; rewrite Hk; exact Ht).
    injection Hres as <-. eauto.
  - rewrite process_audio_no_key in Hres
      by (unfold hf_key_set; rewrite Hk; reflexivity).
    injection Hres as <-. eauto.
Qed.

(** C2, as the code has it.  The dictionary of the text pipeline has
    exactly the fields [text] and [voice], both strings: [text] is the
    answer or a sentinel, and [voice] is empty exactly when the speech
    engine raised (otherwise it is the URL of the speech file).  Every
    request gets a response, which carries a [text] field and is one of
    four: the dictionary of the text pipeline with status 200, when there
    is no upload that qualifies and the text field is true; the 400
    [{text: "Invalid request"}], when there is none and the text field is
    false; the 500 [{text: "Internal server error"}], when the body of the
    handler raised (the save of an upload that qualifies, or the text
    field); and, for an upload that qualifies and was saved, the
    200 [{text: transcription}] with what the transcriber returned, which
    is a string whenever what the service answers under [text] is one.
    The last three have the single field [text] and no [voice]. *)
Theorem chat_response_shape :
  (forall (env : Env) (text : json) (st : State),
     exists answer voice,
       res (process_text env text st) =
         Ok [("text", JStr answer); ("voice", JStr voice)] /\
       res (get_anwer_openai env text st) = Ok answer /\
       (voice = "" <->
        exists e,
          gTTS_save env answer (speech_path (speech_token env st)) = Raise e) /\
       (voice <> "" -> voice = speech_url (speech_token env st))) /\
  (forall (env : Env) (request : Request) (st : State),
     exists response,
       res (chat env request st) = Ok response /\
       is_Some (Py.assoc "text" (body response)) /\
       ((exists text answer voice,
           (forall f, Py.assoc "audio" (request_files request) = Some f ->
                      allowed_file (filename f) = false) /\
           text_field request = Ok text /\ Py.truthy text = true /\
           invoked "process_text" (events (chat env request st)) = true /\
           res (process_text env text st) =
             Ok [("text", JStr answer); ("voice", JStr voice)] /\
           response =
             {| status := 200;
                body := [("text", JStr answer); ("voice", JStr voice)] |}) \/
        (invoked "process_text" (events (chat env request st)) = false /\
         Py.assoc "voice" (body response) = None /\
         ((exists text,
             (forall f, Py.assoc "audio" (request_files request) = Some f ->
                        allowed_file (filename f) = false) /\
             text_field request = Ok text /\ Py.truthy text = false /\
             response =
               {| status := 400; body := [("text", JStr "Invalid request")] |}) \/
          ((exists e,
              res (chat_body env request st) = Raise e /\
              ((exists f,
                  Py.assoc "audio" (request_files request) = Some f /\
                  allowed_file (filename f) = true /\
                  storage_save env (upload_path env f) (stream f) = Some e) \/
               ((forall f, Py.assoc "audio" (request_files request) = Some f ->
                           allowed_file (filename f) = false) /\
                text_field request = Raise e))) /\
           response =
             {| status := 500;
                body := [("text", JStr "Internal server error")] |}) \/
          (exists f transcription,
             Py.assoc "audio" (request_files request) = Some f /\
             allowed_file (filename f) = true /\
             storage_save env (upload_path env f) (stream f) = None /\
             res (process_audio env (upload_path env f)
                    (saved f (upload_path env f) st)) = Ok transcription /\
             response = {| status := 200; body := [("text", transcription)] |} /\
             ((forall key v,
                 HUGGING_FACE_API_KEY env = Some key ->
                 remote_text env key (stream f) = Ok v -> Py.truthy v = true ->
                 exists s, v = JStr s) ->
              exists s, transcription = JStr s)))))).
Proof.
  split; [exact process_text_response|].
  intros env request st.
  (* the text half, once for the two ways of having no upload that
     qualifies *)
  match goal with
  | |- ?G =>
      assert (Htext : (forall f, Py.assoc "audio" (request_files request) = Some f ->
                                 allowed_file (filename f) = false) -> G)
  end.
  { intros Hnone.
    pose proof (chat_text_half_shape env request st
                  (chat_body_no_qualifying_audio env request st Hnone)) as H.
    destruct (text_field request) as [text|e] eqn:Hfield;
      [destruct (Py.truthy text) eqn:Htruthy|].
    - destruct H as (Hpt & answer & voice & Hd & ->).
      eexists. split; [reflexivity|]. split; [eexists; reflexivity|]. left.
      exists text, answer, voice. repeat split; auto.
    - destruct H as (Hpt & ->).
      eexists. split; [reflexivity|]. split; [eexists; reflexivity|]. right.
      split; [exact Hpt|]. split; [reflexivity|]. left.
      exists text. repeat split; auto.
    - destruct H as (Hpt & Hraise & ->).
      eexists. split; [reflexivity|]. split; [eexists; reflexivity|]. right.
      split; [exact Hpt|]. split; [reflexivity|]. right. left.
      split; [|reflexivity]. exists e. split; [exact Hraise|]. right.
      split; [exact Hnone|reflexivity]. }
  destruct (Py.assoc "audio" (request_files request)) as [f|] eqn:Hf;
    [destruct (allowed_file (filename f)) eqn:Hallowed|].
  - clear Htext.
    pose proof (chat_body_qualifying_audio env request st f Hf Hallowed) as Hbody.
    rewrite chat_of_body, Hbody.
    destruct (storage_save env (upload_path env f) (stream f)) as [e|] eqn:Hsave.
    + cbn [res events]. eexists. split; [reflexivity|].
      split; [eexists; reflexivity|]. right.
      split; [reflexivity|]. split; [reflexivity|]. right. left.
      split; [|reflexivity]. exists e. split; [reflexivity|]. left.
      exists f. split; [reflexivity|]. split; [exact Hallowed|exact Hsave].
    + destruct (process_audio_after_save env f (upload_path env f) st)
        as (t & tail & E & Hio).
      cbn zeta. rewrite E. cbn [res final events app].
      eexists. split; [reflexivity|].
      split; [eexists; reflexivity|]. right.
      split; [|split; [reflexivity|]].
      * simpl. apply (quiet_not_invoked "process_text").
        apply transcriber_io_quiet, Hio.
      * right. right. exists f, t.
        split; [reflexivity|]. split; [exact Hallowed|].
        split; [exact Hsave|]. split; [rewrite E; reflexivity|].
        split; [reflexivity|].
        apply (process_audio_after_save_text env f (upload_path env f) st t).
        rewrite E. reflexivity.
  - apply Htext. intros f'. congruence.
  - apply Htext. intros f'. congruence.
Qed.

(** C2 as it was stated fails on the audio path: the response to an
    accepted upload is [{text: transcription}], with no [voice] field
    (the speech engine was not run, and the field is absent rather than
    empty); the 400 has none either.  And [text] need not be a string
    there: what the service answers under [text] is returned as it is,
    here a list. *)
Lemma chat_audio_response_has_no_voice :
  res (chat working_env (upload "clip.webm" "RIFF") fresh_state) =
    Ok {| status := 200; body := [("text", JStr "hello")] |} /\
  Py.assoc "voice" [("text", JStr "hello")] = None /\
  existsb is_answer_or_speech
    (events (chat working_env (upload "clip.webm" "RIFF") fresh_state)) = false /\
  res (chat working_env empty_form fresh_state) =
    Ok {| status := 400; body := [("text", JStr "Invalid request")] |} /\
  Py.assoc "voice" [("text", JStr "Invalid request")] = None /\
  res (chat segments_env (upload "clip.webm" "RIFF") fresh_state) =
    Ok {| status := 200;
          body := [("text", JArr [JStr "hel"; JStr "lo"])] |}.
Proof. vm_compute. repeat split. Qed.

(** ** The names of the files written *)

Lemma string_get_in_range (s : string) (n : nat) :
  (n < String.length s)%nat ->
  exists c, String.get n s = Some c /\ PyStr.contains c s = true.
Proof.
  revert n. induction s as [|a s IH]; simpl; intros n H; [lia|].
  destruct n as [|n].
  - exists a. rewrite Ascii.eqb_refl. split; reflexivity.
  - destruct (IH n) as (c & Hc & Hin); [lia|].
    exists c. split; [exact Hc|]. rewrite Hin.
    destruct (Ascii.eqb a c); reflexivity.
Qed.

Lemma append_cons (a : ascii) (s t : string) :
  String a s +:+ t = String a (s +:+ t).
Proof. reflexivity. Qed.

Lemma append_empty (t : string) : "" +:+ t = t.
Proof. reflexivity. Qed.

Lemma length_append (s t : string) :
  String.length (s +:+ t) = (String.length s + String.length t)%nat.
Proof.
  induction s as [|a s IH]; [reflexivity|].
  rewrite append_cons. simpl. rewrite IH. reflexivity.
Qed.

(** A draw from a non-empty population is one of its characters. *)
Lemma pick_one (population : string) (draw : nat) :
  population <> "" ->
  exists c, pick population draw = String c EmptyString /\
            PyStr.contains c population = true.
Proof.
  intros Hne. unfold pick.
  destruct (string_get_in_range population
              (draw mod String.length population)) as (c & -> & Hin).
  - apply Nat.mod_upper_bound. destruct population; [congruence|simpl; lia].
  - exists c. split; [reflexivity|exact Hin].
Qed.

(** [random.choices(population, k=k)] gives [k] characters, each from the
    population. *)
Lemma choices_from_spec (env : Env) (population : string) (pos k : nat) :
  population <> "" ->
  String.length (choices_from env population pos k) = k /\
  forallb (fun c => PyStr.contains c population)
    (list_ascii_of_string (choices_from env population pos k)) = true.
Proof.
  intros Hne. revert pos. induction k as [|k IH]; intros pos; simpl.
  - split; reflexivity.
  - destruct (pick_one population (random_draw env pos) Hne) as (c & -> & Hin).
    destruct (IH (S pos)) as [Hlen Hall].
    rewrite append_cons, append_empty. simpl.
    rewrite Hlen, Hin, Hall. split; reflexivity.
Qed.

Lemma speech_path_injective (t1 t2 : string) :
  speech_path t1 = speech_path t2 -> t1 = t2.
Proof.
  unfold speech_path. rewrite !append_cons, !append_empty.
  intros H. injection H as H.
  assert (Hlen : String.length t1 = String.length t2).
  { apply (f_equal String.length) in H.
    rewrite !length_append in H. lia. }
  revert t2 H Hlen. induction t1 as [|a t1 IH]; intros [|b t2] H Hlen;
    simpl in Hlen; try discriminate Hlen; [reflexivity|].
  rewrite !append_cons in H. injection H as -> H.
  f_equal. apply IH; [exact H|lia].
Qed.

(** C9, as the code has it.  An accepted upload is written at
    [uploads/<sanitized filename>], a path fixed by the upload's filename
    alone; the speech file of a text request is written at
    [static/audio/<token>.mp3], where the token is 8 characters drawn by
    the random source from the upper-case letters and the digits.
    Nothing makes these names unique to a request: two uploads whose
    sanitized names agree are written to the same path, and two speech
    files share a path exactly when the same token was drawn. *)
Theorem written_file_names :
  (forall (env : Env) (request : Request) (st : State) (f : FileStorage),
     Py.assoc "audio" (request_files request) = Some f ->
     allowed_file (filename f) = true ->
     written_paths (events (chat env request st)) =
       [Py.os_path_join UPLOAD_FOLDER (secure_filename env (filename f))]) /\
  (forall (env : Env) (request : Request) (st : State) (text : json),
     (forall f, Py.assoc "audio" (request_files request) = Some f ->
                allowed_file (filename f) = false) ->
     text_field request = Ok text -> Py.truthy text = true ->
     written_paths (events (chat env request st)) =
       [speech_path (speech_token env st)]) /\
  (forall (env : Env) (st : State),
     String.length (speech_token env st) = 8%nat /\
     forallb (fun c => PyStr.contains c "ABCDEFGHIJKLMNOPQRSTUVWXYZ0123456789")
       (list_ascii_of_string (speech_token env st)) = true) /\
  (forall t1 t2 : string, speech_path t1 = speech_path t2 <-> t1 = t2) /\
  (forall (env : Env) (r1 r2 : Request) (st1 st2 : State) (f1 f2 : FileStorage),
     Py.assoc "audio" (request_files r1) = Some f1 ->
     Py.assoc "audio" (request_files r2) = Some f2 ->
     allowed_file (filename f1) = true ->
     allowed_file (filename f2) = true ->
     secure_filename env (filename f1) = secure_filename env (filename f2) ->
     written_paths (events (chat env r1 st1)) =
     written_paths (events (chat env r2 st2))).
Proof.
  assert (Hupload :
    forall (env : Env) (request : Request) (st : State) (f : FileStorage),
      Py.assoc "audio" (request_files request) = Some f ->
      allowed_file (filename f) = true ->
      written_paths (events (chat env request st)) =
        [Py.os_path_join UPLOAD_FOLDER (secure_filename env (filename f))]).
  { intros env request st f Hf Hallowed.
    rewrite chat_of_body, (chat_body_qualifying_audio env request st f Hf Hallowed).
    fold (upload_path env f).
    destruct (storage_save env (upload_path env f) (stream f)) as [e|].
    - reflexivity.
    - destruct (process_audio_after_save env f (upload_path env f) st)
        as (t & tail & E & Hio).
      rewrite E. cbn [res final events]. simpl.
      rewrite (quiet_writes_nothing _ (transcriber_io_quiet _ Hio)).
      reflexivity. }
  split; [exact Hupload|]. split; [|split; [|split]].
  - intros env request st text Hnone Htext Htruthy.
    rewrite chat_of_body, (chat_body_no_qualifying_audio env request st Hnone).
    rewrite chat_text_run, Htext, Htruthy.
    destruct (process_text_response env text st) as (answer & voice & E & _).
    rewrite E. cbn [res events].
    apply process_text_events.
  - intros env st. unfold speech_token.
    apply (choices_from_spec env Py.ascii_uppercase_digits (rng_pos st) 8).
    discriminate.
  - intros t1 t2. split; [apply speech_path_injective|congruence].
  - intros env r1 r2 st1 st2 f1 f2 H1 H2 Ha1 Ha2 Hsame.
    rewrite (Hupload env r1 st1 f1 H1 Ha1), (Hupload env r2 st2 f2 H2 Ha2), Hsame.
    reflexivity.
Qed.

(** C9 as it was stated fails: two different requests that upload
    under the same filename, or under filenames that sanitize to the same
    name, write to the same path. *)
Lemma two_requests_one_path :
  upload "clip.webm" "first take" <> upload "clip.webm" "second take" /\
  written_paths
    (events (chat working_env (upload "clip.webm" "first take") fresh_state)) =
    ["uploads/clip.webm"] /\
  written_paths
    (events (chat working_env (upload "clip.webm" "second take") fresh_state)) =
    ["uploads/clip.webm"] /\
  written_paths
    (events (chat working_env (upload "my clip.webm" "third take") fresh_state)) =
    ["uploads/my_clip.webm"] /\
  written_paths
    (events (chat working_env (upload "my_clip.webm" "fourth take") fresh_state)) =
    ["uploads/my_clip.webm"].
Proof.
  split; [discriminate|]. vm_compute. repeat split.
Qed.

(** ** The scenarios of the specification, run *)

Example allowed_file_examples :
  allowed_file "clip.webm" = true /\
  allowed_file "clip.exe" = false /\
  allowed_file "noext" = false /\
  allowed_file "CLIP.WebM" = true /\
  allowed_file "clip.webm." = false.
Proof. vm_compute. repeat split. Qed.

Example scenario_text_ok :
  res (chat working_env (text_form "How do I treat leaf rust?") fresh_state) =
  Ok (jsonify [("text", JStr "Apply fungicide X");
               ("voice", JStr "/static/audio/DKRY5CJQ.mp3")] 200).
Proof. vm_compute. reflexivity. Qed.

Example scenario_nothing_sent :
  res (chat working_env empty_form fresh_state) =
  Ok (jsonify [("text", JStr "Invalid request")] 400).
Proof. vm_compute. reflexivity. Qed.

Example scenario_audio :
  chat working_env (upload "clip.webm" "RIFF") fresh_state =
  {| res := Ok (jsonify [("text", JStr "hello")] 200);
     final := saved {| filename := "clip.webm"; stream := "RIFF" |}
                "uploads/clip.webm" fresh_state;
     events := [FileSave "uploads/clip.webm"; Call "process_audio";
                FileRead "uploads/clip.webm";
                HttpPost TRANSCRIBER_URL "Bearer hf_token" 60] |}.
Proof. reflexivity. Qed.

Example scenario_authentication_failure :
  res (chat rejecting_env (text_form "How do I treat leaf rust?") fresh_state) =
  Ok (jsonify [("text", JStr AUTH_FAILED);
               ("voice", JStr "/static/audio/DKRY5CJQ.mp3")] 200).
Proof. vm_compute. reflexivity. Qed.

Example scenario_speech_failure :
  res (chat mute_env (text_form "How do I treat leaf rust?") fresh_state) =
  Ok (jsonify [("text", JStr "Apply fungicide X"); ("voice", JStr "")] 200).
Proof. vm_compute. reflexivity. Qed.

(** ** The allow-list and letter case *)

Lemma lower_ascii_dot (a : ascii) :
  Ascii.eqb (PyStr.lower_ascii a) "." = Ascii.eqb a ".".
Proof. destruct a as [[] [] [] [] [] [] [] []]; reflexivity. Qed.

Lemma lower_ascii_idempotent (a : ascii) :
  PyStr.lower_ascii (PyStr.lower_ascii a) = PyStr.lower_ascii a.
Proof. destruct a as [[] [] [] [] [] [] [] []]; reflexivity. Qed.

Lemma lower_idempotent (s : string) : PyStr.lower (PyStr.lower s) = PyStr.lower s.
Proof.
  induction s as [|a s IH]; simpl; [reflexivity|].
  rewrite lower_ascii_idempotent, IH. reflexivity.
Qed.

Lemma contains_dot_lower (s : string) :
  PyStr.contains "." (PyStr.lower s) = PyStr.contains "." s.
Proof.
  induction s as [|a s IH]; simpl; [reflexivity|].
  rewrite lower_ascii_dot, IH. reflexivity.
Qed.

Lemma rsplit_last_lower (s : string) :
  PyStr.rsplit_last "." (PyStr.lower s) =
  match PyStr.rsplit_last "." s with
  | Some (h, t) => Some (PyStr.lower h, PyStr.lower t)
  | None => None
  end.
Proof.
  induction s as [|a s IH]; simpl; [reflexivity|].
  rewrite IH, lower_ascii_dot.
  destruct (PyStr.rsplit_last "." s) as [[h t]|]; [reflexivity|].
  destruct (Ascii.eqb a "."); reflexivity.
Qed.

Lemma allowed_file_lower (name : string) :
  allowed_file (PyStr.lower name) = allowed_file name.
Proof.
  unfold allowed_file, PyStr.rsplit1.
  rewrite contains_dot_lower, rsplit_last_lower.
  destruct (PyStr.rsplit_last "." name) as [[h t]|]; [|reflexivity].
  simpl. rewrite lower_idempotent. reflexivity.
Qed.

(** X1. [allowed_file] does not look at letter case anywhere in the
    name: two filenames that differ only in the case of their ASCII
    letters get the same verdict. *)
Theorem allowed_file_ignores_case (name1 name2 : string) :
  PyStr.lower name1 = PyStr.lower name2 ->
  allowed_file name1 = allowed_file name2.
Proof.
  intros H. rewrite <- (allowed_file_lower name1), <- (allowed_file_lower name2), H.
  reflexivity.
Qed.

Lemma allowed_file_ignores_case_witness :
  PyStr.lower "Field Note.WebM" = PyStr.lower "field note.WEBM" /\
  allowed_file "Field Note.WebM" = allowed_file "field note.WEBM" /\
  allowed_file "field note.WEBM" = true.
Proof.
  split; [reflexivity|]. split; [|vm_compute; reflexivity].
  apply (allowed_file_ignores_case "Field Note.WebM" "field note.WEBM").
  reflexivity.
Defined.

(** X2. A name that [allowed_file] accepts is never empty, so the test
    [f and allowed_file(f.filename)] of [chat] is decided by
    [allowed_file] alone; and a name without a dot, or one that ends in a
    dot, is refused. *)
Theorem allowed_file_guard :
  (forall f : FileStorage,
     file_truthy f && allowed_file (filename f) = allowed_file (filename f)) /\
  (forall name, PyStr.contains "." name = false -> allowed_file name = false) /\
  (forall stem, allowed_file (stem +:+ ".") = false).
Proof.
  split; [|split].
  - intros f. destruct (allowed_file (filename f)) eqn:H.
    + unfold file_truthy. rewrite (allowed_file_truthy _ H). reflexivity.
    + apply andb_false_r.
  - intros name H. unfold allowed_file. rewrite H. reflexivity.
  - intros stem. unfold allowed_file, PyStr.rsplit1.
    assert (E : PyStr.rsplit_last "." (stem +:+ String "." "") = Some (stem, ""))
      by (apply rsplit_last_Some; split; reflexivity).
    change (stem +:+ ".") with (stem +:+ String "." "").
    rewrite E, contains_app_sep. reflexivity.
Qed.

(** ** More on the Speech Transcriber *)

Lemma logs_make_no_post (l : list event) :
  forallb is_log l = true -> http_posts l = 0%nat.
Proof.
  unfold http_posts. induction l as [|e l IH]; simpl; [reflexivity|].
  intros H. apply andb_prop in H as [He Hl].
  destruct e; try discriminate; simpl; auto.
Qed.

(** X3. Without a transcription credential ([HUGGING_FACE_API_KEY]
    unset or empty) [process_audio] answers
    ["Transcription service not configured."] for every path, whether a
    file is there or not: it reads no file, posts nothing and leaves the
    state as it was. *)
Theorem process_audio_unconfigured
    (env : Env) (filepath : string) (st : State) :
  HUGGING_FACE_API_KEY env = None \/ HUGGING_FACE_API_KEY env = Some "" ->
  res (process_audio env filepath st) =
    Ok (JStr "Transcription service not configured.") /\
  final (process_audio env filepath st) = st /\
  existsb is_file_read (events (process_audio env filepath st)) = false /\
  http_posts (events (process_audio env filepath st)) = 0%nat.
Proof.
  intros H.
  assert (Hk : hf_key_set env = false)
    by (unfold hf_key_set; destruct H as [-> | ->]; reflexivity).
  rewrite (process_audio_no_key env filepath st Hk). repeat split.
Qed.

Lemma process_audio_unconfigured_witness :
  res (process_audio unconfigured_env "uploads/missing.webm" fresh_state) =
    Ok (JStr "Transcription service not configured.") /\
  fs fresh_state !! "uploads/missing.webm" = None.
Proof.
  split; [|reflexivity].
  exact (proj1 (process_audio_unconfigured unconfigured_env
                  "uploads/missing.webm" fresh_state (or_introl eq_refl))).
Defined.

(** X4. With the credential set and a file at the path,
    [process_audio] never raises and leaves the state as it was; it
    posts exactly once (no retry), to the transcription URL with the
    bearer credential and a timeout of 60; and it returns the remote
    answer's [text] when that is true, ["Could not transcribe audio."]
    when the answer has no true [text], and
    ["Audio transcription failed."] when the post raised, the status was
    a failure or the body was not JSON. *)
Theorem process_audio_with_file
    (env : Env) (filepath : string) (st : State) (key data : string) :
  HUGGING_FACE_API_KEY env = Some key ->
  key <> "" ->
  fs st !! filepath = Some data ->
  res (process_audio env filepath st) =
    Ok (transcription_of (remote_text env key data)) /\
  final (process_audio env filepath st) = st /\
  http_posts (events (process_audio env filepath st)) = 1%nat /\
  HttpPost TRANSCRIBER_URL ("Bearer " +:+ key) 60 ∈
    events (process_audio env filepath st).
Proof.
  intros Hk Hne Hf.
  assert (Ht : PyStr.truthy key = true) by (destruct key; [congruence|reflexivity]).
  destruct (process_audio_readable env filepath st key data Hk Ht Hf)
    as (logs & E & Hlogs).
  rewrite E. cbn [res final events]. split; [reflexivity|]. split; [reflexivity|].
  split.
  - unfold http_posts. simpl. f_equal. apply (logs_make_no_post logs Hlogs).
  - apply elem_of_cons. right. apply elem_of_cons. right.
    apply elem_of_cons. left. reflexivity.
Qed.

Lemma process_audio_with_file_witness :
  res (process_audio working_env "uploads/clip.webm"
         (saved {| filename := "clip.webm"; stream := "RIFF" |}
            "uploads/clip.webm" fresh_state)) = Ok (JStr "hello") /\
  http_posts
    (events (process_audio working_env "uploads/clip.webm"
               (saved {| filename := "clip.webm"; stream := "RIFF" |}
                  "uploads/clip.webm" fresh_state))) = 1%nat.
Proof.
  destruct (process_audio_with_file working_env "uploads/clip.webm"
              (saved {| filename := "clip.webm"; stream := "RIFF" |}
                 "uploads/clip.webm" fresh_state) "hf_token" "RIFF" eq_refl)
    as (H1 & _ & H3 & _); [discriminate|reflexivity|].
  split; [exact H1|exact H3].
Defined.

(** ** The Speech Synthesizer *)

(** [text_to_audio], run. *)
Lemma text_to_audio_run (env : Env) (text name : string) (st : State) :
  text_to_audio env text name st =
  {| res := match gTTS_save env text (speech_path name) with
            | Ok _ => Ok (speech_path name)
            | Raise e => Raise e
            end;
     final := after_speech env text (speech_path name) st;
     events :=
       Call "text_to_audio" :: SpeechSave text (speech_path name) ::
       match gTTS_save env text (speech_path name) with
       | Ok _ => []
       | Raise _ => [Log "exception" "text_to_audio failed: %s"]
       end |}.
Proof.
  unfold text_to_audio, speech_save, write_file, after_speech. unfold_run.
  fold (speech_path name).
  destruct (gTTS_save env text (speech_path name)); [reflexivity|].
  destruct (gTTS_leaves env text (speech_path name)); reflexivity.
Qed.

(** What the speech engine's run leaves outside its target, and of the
    rest of the state: all as it was. *)
Lemma after_speech_frame (env : Env) (text path : string) (st : State) :
  api_key (after_speech env text path st) = api_key st /\
  rng_pos (after_speech env text path st) = rng_pos st /\
  forall p, p <> path -> fs (after_speech env text path st) !! p = fs st !! p.
Proof.
  unfold after_speech.
  destruct (gTTS_save env text path); [|destruct (gTTS_leaves env text path)];
    (split; [reflexivity|]; split; [reflexivity|]); intros p Hp;
    try reflexivity; apply lookup_insert_ne; congruence.
Qed.

(** It removes no file. *)
Lemma after_speech_keeps (env : Env) (text path : string) (st : State) (p : string) :
  is_Some (fs st !! p) -> is_Some (fs (after_speech env text path st) !! p).
Proof.
  intros Hp. unfold after_speech.
  destruct (gTTS_save env text path); [|destruct (gTTS_leaves env text path)];
    cbn [with_file fs]; try exact Hp;
    (destruct (decide (path = p)) as [->|Hne];
     [rewrite lookup_insert_eq; eauto|rewrite lookup_insert_ne by exact Hne; exact Hp]).
Qed.

(** X5. [text_to_audio] either returns the path
    [static/audio/<name>.mp3], with the engine's audio on disk at that
    path, or raises again the very exception the speech engine raised,
    after one log line; the file at that path is then what the failed
    engine left there (it opens its target before it fetches the audio),
    or the file of before when the engine left nothing.  In both cases
    every other file, the credential and the random source are
    untouched.  It swallows nothing. *)
Theorem text_to_audio_returns_or_reraises
    (env : Env) (text name : string) (st : State) :
  (forall audio,
     gTTS_save env text ("static/audio/" +:+ name +:+ ".mp3") = Ok audio ->
     res (text_to_audio env text name st) =
       Ok ("static/audio/" +:+ name +:+ ".mp3") /\
     fs (final (text_to_audio env text name st))
       !! ("static/audio/" +:+ name +:+ ".mp3") = Some audio) /\
  (forall e,
     gTTS_save env text ("static/audio/" +:+ name +:+ ".mp3") = Raise e ->
     res (text_to_audio env text name st) = Raise e /\
     last (events (text_to_audio env text name st)) =
       Some (Log "exception" "text_to_audio failed: %s") /\
     fs (final (text_to_audio env text name st))
       !! ("static/audio/" +:+ name +:+ ".mp3") =
     match gTTS_leaves env text ("static/audio/" +:+ name +:+ ".mp3") with
     | Some bytes => Some bytes
     | None => fs st !! ("static/audio/" +:+ name +:+ ".mp3")
     end) /\
  (forall p, p <> "static/audio/" +:+ name +:+ ".mp3" ->
     fs (final (text_to_audio env text name st)) !! p = fs st !! p) /\
  api_key (final (text_to_audio env text name st)) = api_key st /\
  rng_pos (final (text_to_audio env text name st)) = rng_pos st.
Proof.
  rewrite text_to_audio_run. fold (speech_path name). cbn [res final events].
  destruct (after_speech_frame env text (speech_path name) st)
    as (Hkey & Hrng & Hframe).
  split; [|split; [|split; [exact Hframe|split; [exact Hkey|exact Hrng]]]].
  - intros audio Haudio. unfold after_speech. rewrite Haudio.
    split; [reflexivity|apply lookup_insert_eq].
  - intros e He. unfold after_speech. rewrite He.
    split; [reflexivity|]. split; [reflexivity|].
    destruct (gTTS_leaves env text (speech_path name));
      [apply lookup_insert_eq|reflexivity].
Qed.

Lemma text_to_audio_returns_or_reraises_witness :
  res (text_to_audio working_env "Apply fungicide X" "DKRY5CJQ" fresh_state) =
    Ok "static/audio/DKRY5CJQ.mp3" /\
  res (text_to_audio mute_env "Apply fungicide X" "DKRY5CJQ" fresh_state) =
    Raise gTTSError /\
  fs (final (text_to_audio mute_env "Apply fungicide X" "DKRY5CJQ" fresh_state))
    !! "static/audio/DKRY5CJQ.mp3" = Some "".
Proof.
  split; [|split].
  - exact (proj1 (proj1 (text_to_audio_returns_or_reraises working_env
                           "Apply fungicide X" "DKRY5CJQ" fresh_state)
                    "ID3" eq_refl)).
  - exact (proj1 (proj1 (proj2 (text_to_audio_returns_or_reraises mute_env
                                  "Apply fungicide X" "DKRY5CJQ" fresh_state))
                    gTTSError eq_refl)).
  - exact (proj2 (proj2 (proj1 (proj2 (text_to_audio_returns_or_reraises mute_env
                                         "Apply fungicide X" "DKRY5CJQ"
                                         fresh_state))
                           gTTSError eq_refl))).
Defined.

(** ** What the text pipeline leaves behind *)

(** The state [process_text] ends in. *)
Lemma process_text_state (env : Env) (text : json) (st : State) :
  exists answer,
    res (get_anwer_openai env text st) = Ok answer /\
    final (process_text env text st) =
    {| fs := fs (after_speech env answer (speech_path (speech_token env st)) st);
       api_key := api_key st; rng_pos := rng_pos st + 8 |}.
Proof.
  destruct (get_anwer_openai_shape env text st) as (answer & tail & E & _).
  exists answer. rewrite E. split; [reflexivity|].
  unfold process_text, random_choices, text_to_audio, speech_save, write_file,
    after_speech.
  unfold_run. rewrite E. cbn beta iota.
  fold (speech_token env st). fold (speech_path (speech_token env st)).
  destruct (gTTS_save env answer (speech_path (speech_token env st)));
    [reflexivity|].
  destruct (gTTS_leaves env answer (speech_path (speech_token env st)));
    reflexivity.
Qed.

(** X6. [process_text] never raises and never changes the credential;
    it consumes exactly 8 draws of the random source.  When the [voice]
    it returns is not empty, it is ["/"] followed by the path of a file
    that is on disk when the call returns, holding the speech engine's
    audio; when it is empty, the file at that path is what the failed
    engine left there, or the file of before when it left nothing.  No
    file other than the speech file is touched. *)
Theorem process_text_effects (env : Env) (text : json) (st : State) :
  exists answer voice,
    res (process_text env text st) =
      Ok [("text", JStr answer); ("voice", JStr voice)] /\
    api_key (final (process_text env text st)) = api_key st /\
    rng_pos (final (process_text env text st)) = (rng_pos st + 8)%nat /\
    (voice <> "" ->
     voice = "/" +:+ speech_path (speech_token env st) /\
     exists audio,
       gTTS_save env answer (speech_path (speech_token env st)) = Ok audio /\
       fs (final (process_text env text st))
         !! speech_path (speech_token env st) = Some audio) /\
    (voice = "" ->
     fs (final (process_text env text st)) !! speech_path (speech_token env st) =
     match gTTS_leaves env answer (speech_path (speech_token env st)) with
     | Some bytes => Some bytes
     | None => fs st !! speech_path (speech_token env st)
     end) /\
    (forall p, p <> speech_path (speech_token env st) ->
       fs (final (process_text env text st)) !! p = fs st !! p).
Proof.
  destruct (process_text_run env text st)
    as (answer & tail & logs & st' & Ha & _ & _ & E).
  destruct (process_text_state env text st) as (answer' & Ha' & Hfinal).
  rewrite Ha in Ha'. cbn [res] in Ha'. injection Ha' as <-.
  rewrite Hfinal. rewrite E. cbn [res fs api_key rng_pos].
  destruct (after_speech_frame env answer (speech_path (speech_token env st)) st)
    as (_ & _ & Hframe).
  eexists _, _. split; [reflexivity|].
  split; [reflexivity|]. split; [reflexivity|].
  split; [|split; [|exact Hframe]]; unfold after_speech;
    destruct (gTTS_save env answer (speech_path (speech_token env st)))
      as [audio|e].
  - intros _. split; [reflexivity|]. exists audio.
    split; [reflexivity|apply lookup_insert_eq].
  - intros H. exfalso. apply H. reflexivity.
  - intros H. exfalso. exact (speech_url_not_empty _ H).
  - intros _.
    destruct (gTTS_leaves env answer (speech_path (speech_token env st)));
      [apply lookup_insert_eq|reflexivity].
Qed.

Lemma process_text_effects_witness :
  res (process_text working_env (JStr "How do I treat leaf rust?") fresh_state) =
    Ok [("text", JStr "Apply fungicide X");
        ("voice", JStr "/static/audio/DKRY5CJQ.mp3")] /\
  fs (final (process_text working_env (JStr "How do I treat leaf rust?")
               fresh_state)) !! "static/audio/DKRY5CJQ.mp3" = Some "ID3".
Proof.
  destruct (process_text_effects working_env (JStr "How do I treat leaf rust?")
              fresh_state) as (answer & voice & Hres & _ & _ & Hvoice & _).
  assert (Hv : res (process_text working_env (JStr "How do I treat leaf rust?")
                      fresh_state) =
               Ok [("text", JStr "Apply fungicide X");
                   ("voice", JStr "/static/audio/DKRY5CJQ.mp3")])
    by (vm_compute; reflexivity).
  split; [exact Hv|].
  rewrite Hv in Hres. injection Hres as <- <-.
  destruct Hvoice as (_ & audio & Haudio & Hfile); [discriminate|].
  vm_compute in Haudio. injection Haudio as <-. exact Hfile.
Defined.

(** ** More on the dispatcher *)

(** X7. A request without a qualifying upload whose text (a non-empty
    form field, or a true [text] of any JSON type in a JSON object) is
    found always gets status 200 with a [{text, voice}] body, whatever the
    model, the speech engine and the disk do: every failure behind the
    text pipeline is absorbed into the body, none becomes a 5xx.  The
    [text] returned is what [get_anwer_openai] gave for that text. *)
Theorem chat_text_route_is_200
    (env : Env) (request : Request) (st : State) (text : json) :
  (forall f, Py.assoc "audio" (request_files request) = Some f ->
             allowed_file (filename f) = false) ->
  text_field request = Ok text ->
  Py.truthy text = true ->
  exists answer voice,
    res (chat env request st) =
      Ok {| status := 200;
            body := [("text", JStr answer); ("voice", JStr voice)] |} /\
    res (get_anwer_openai env text st) = Ok answer /\
    final (chat env request st) = final (process_text env text st).
Proof.
  intros Hnone Htext Htruthy.
  rewrite chat_of_body, (chat_body_no_qualifying_audio env request st Hnone).
  rewrite chat_text_run, Htext, Htruthy.
  destruct (process_text_response env text st) as (answer & voice & E & Ha & _).
  rewrite E. cbn [res final]. exists answer, voice.
  split; [reflexivity|]. split; [exact Ha|reflexivity].
Qed.

Lemma chat_text_route_is_200_witness :
  text_field (JsonBody (Some (JObj [("text", JNum 5)]))) = Ok (JNum 5) /\
  res (chat rejecting_env (JsonBody (Some (JObj [("text", JNum 5)]))) fresh_state) =
    Ok {| status := 200;
          body := [("text", JStr AUTH_FAILED);
                   ("voice", JStr "/static/audio/DKRY5CJQ.mp3")] |}.
Proof.
  split; [reflexivity|].
  destruct (chat_text_route_is_200 rejecting_env
              (JsonBody (Some (JObj [("text", JNum 5)]))) fresh_state (JNum 5))
    as (answer & voice & Hres & _); [intros f [=]|reflexivity|reflexivity|].
  rewrite Hres. vm_compute in Hres. injection Hres as <- <-. reflexivity.
Defined.

(** X8. Audio takes precedence: when the upload qualifies, the form
    fields of the request are never consulted, so the same upload sent
    with any other form fields gets the same outcome (response, state
    and trace). *)
Theorem chat_audio_ignores_form
    (env : Env) (files : list (string * FileStorage))
    (form form' : list (string * string)) (st : State) (f : FileStorage) :
  Py.assoc "audio" files = Some f ->
  allowed_file (filename f) = true ->
  chat env (FormData files form) st = chat env (FormData files form') st.
Proof.
  intros Hf Hallowed.
  rewrite !chat_of_body.
  rewrite (chat_body_qualifying_audio env (FormData files form) st f Hf Hallowed).
  rewrite (chat_body_qualifying_audio env (FormData files form') st f Hf Hallowed).
  reflexivity.
Qed.

Lemma chat_audio_ignores_form_witness :
  chat working_env (upload_with_text "clip.webm" "RIFF" "How do I treat leaf rust?")
    fresh_state =
  chat working_env (upload "clip.webm" "RIFF") fresh_state /\
  res (chat working_env (upload "clip.webm" "RIFF") fresh_state) =
    Ok {| status := 200; body := [("text", JStr "hello")] |}.
Proof.
  split; [|reflexivity].
  exact (chat_audio_ignores_form working_env
           [("audio", {| filename := "clip.webm"; stream := "RIFF" |})]
           [("text", "How do I treat leaf rust?")] [] fresh_state
           {| filename := "clip.webm"; stream := "RIFF" |} eq_refl eq_refl).
Defined.

(** X9. What is transcribed is what was uploaded: when the upload
    qualifies, the save succeeds and the transcription credential is set,
    the bytes of the upload are on disk at [uploads/<sanitized name>]
    (replacing whatever was there), the service is posted to exactly
    once, and the response is [{text: t}] with status 200, where [t] is
    the transcriber's result for those very bytes. *)
Theorem chat_transcribes_the_upload
    (env : Env) (request : Request) (st : State) (f : FileStorage) (key : string) :
  Py.assoc "audio" (request_files request) = Some f ->
  allowed_file (filename f) = true ->
  storage_save env (upload_path env f) (stream f) = None ->
  HUGGING_FACE_API_KEY env = Some key ->
  key <> "" ->
  res (chat env request st) =
    Ok {| status := 200;
          body := [("text", transcription_of (remote_text env key (stream f)))] |} /\
  fs (final (chat env request st)) !! upload_path env f = Some (stream f) /\
  http_posts (events (chat env request st)) = 1%nat.
Proof.
  intros Hf Hallowed Hsave Hk Hne.
  rewrite chat_of_body, (chat_body_qualifying_audio env request st f Hf Hallowed).
  rewrite Hsave. cbn zeta.
  assert (Ht : PyStr.truthy key = true) by (destruct key; [congruence|reflexivity]).
  destruct (process_audio_readable env (upload_path env f)
              (saved f (upload_path env f) st) key (stream f) Hk Ht)
    as (logs & E & Hlogs).
  { simpl. apply lookup_insert_eq. }
  rewrite E. cbn [res final events].
  split; [reflexivity|]. split; [simpl; apply lookup_insert_eq|].
  unfold http_posts. simpl. f_equal. apply (logs_make_no_post logs Hlogs).
Qed.

Lemma chat_transcribes_the_upload_witness :
  res (chat working_env (upload "clip.webm" "RIFF") fresh_state) =
    Ok {| status := 200; body := [("text", JStr "hello")] |} /\
  fs (final (chat working_env (upload "clip.webm" "RIFF") fresh_state))
    !! "uploads/clip.webm" = Some "RIFF".
Proof.
  destruct (chat_transcribes_the_upload working_env (upload "clip.webm" "RIFF")
              fresh_state {| filename := "clip.webm"; stream := "RIFF" |}
              "hf_token" eq_refl eq_refl eq_refl eq_refl)
    as (H1 & H2 & _); [discriminate|].
  split; [exact H1|exact H2].
Defined.

(** The state [chat] ends in when its body is the text half. *)
Lemma chat_text_half_final (env : Env) (request : Request) (st : State) :
  chat_body env request st = chat_text env request st ->
  (final (chat env request st) = st /\
   written_paths (events (chat env request st)) = []) \/
  (exists text,
     written_paths (events (chat env request st)) =
       [speech_path (speech_token env st)] /\
     final (chat env request st) = final (process_text env text st)).
Proof.
  intros Hbody. rewrite chat_of_body, Hbody, chat_text_run.
  destruct (text_field request) as [text|e]; cbn [res final events];
    [destruct (Py.truthy text)|].
  - destruct (process_text_response env text st) as (a & v & E & _).
    destruct (process_text_events env text st) as (_ & _ & _ & Hw).
    rewrite E. cbn [res final events]. right. exists text.
    split; [exact Hw|reflexivity].
  - left. split; reflexivity.
  - left. split; reflexivity.
Qed.

(** The state [chat] ends in, on each of its routes. *)
Lemma chat_final_cases (env : Env) (request : Request) (st : State) :
  final (chat env request st) = st \/
  (exists f,
     written_paths (events (chat env request st)) = [upload_path env f] /\
     (final (chat env request st) = saved f (upload_path env f) st \/
      final (chat env request st) = unsaved env f (upload_path env f) st)) \/
  (exists text,
     written_paths (events (chat env request st)) =
       [speech_path (speech_token env st)] /\
     final (chat env request st) = final (process_text env text st)).
Proof.
  destruct (Py.assoc "audio" (request_files request)) as [f|] eqn:Hf;
    [destruct (allowed_file (filename f)) eqn:Hallowed|].
  - rewrite chat_of_body.
    rewrite (chat_body_qualifying_audio env request st f Hf Hallowed).
    destruct (storage_save env (upload_path env f) (stream f)) as [e|].
    + right. left. exists f. split; [reflexivity|]. right. reflexivity.
    + destruct (process_audio_after_save env f (upload_path env f) st)
        as (t & tail & E & Hio).
      rewrite E. cbn [res final events]. right. left. exists f.
      split; [|left; reflexivity]. simpl.
      rewrite (quiet_writes_nothing _ (transcriber_io_quiet _ Hio)). reflexivity.
  - destruct (chat_text_half_final env request st) as [[H _]|H]; auto.
    apply chat_body_no_qualifying_audio. intros f'. congruence.
  - destruct (chat_text_half_final env request st) as [[H _]|H]; auto.
    apply chat_body_no_qualifying_audio. intros f'. congruence.
Qed.

(** X10. [chat] never changes the credential, never removes a file,
    and changes the disk only at the paths its trace reports as written:
    every other path holds after the request what it held before. *)
Theorem chat_frame (env : Env) (request : Request) (st : State) :
  api_key (final (chat env request st)) = api_key st /\
  (forall p, ~ In p (written_paths (events (chat env request st))) ->
     fs (final (chat env request st)) !! p = fs st !! p) /\
  (forall p, is_Some (fs st !! p) ->
     is_Some (fs (final (chat env request st)) !! p)).
Proof.
  destruct (chat_final_cases env request st)
    as [-> | [(f & Hw & [-> | ->]) | (text & Hw & ->)]].
  - repeat split; auto.
  - rewrite Hw. cbn [saved fs api_key]. split; [reflexivity|]. split.
    + intros p Hp. apply lookup_insert_ne. intros <-. apply Hp. left. reflexivity.
    + intros p Hp. destruct (decide (upload_path env f = p)) as [->|Hne].
      * rewrite lookup_insert_eq. eauto.
      * rewrite lookup_insert_ne by exact Hne. exact Hp.
  - rewrite Hw. unfold unsaved.
    destruct (storage_leaves env (upload_path env f) (stream f));
      [|repeat split; auto].
    cbn [fs api_key]. split; [reflexivity|]. split.
    + intros p Hp. apply lookup_insert_ne. intros <-. apply Hp. left. reflexivity.
    + intros p Hp. destruct (decide (upload_path env f = p)) as [->|Hne].
      * rewrite lookup_insert_eq. eauto.
      * rewrite lookup_insert_ne by exact Hne. exact Hp.
  - rewrite Hw.
    destruct (process_text_state env text st) as (a & _ & ->).
    cbn [fs api_key]. split; [reflexivity|]. split.
    + intros p Hp.
      apply (after_speech_frame env a (speech_path (speech_token env st)) st).
      intros ->. apply Hp. left. reflexivity.
    + intros p Hp. apply after_speech_keeps, Hp.
Qed.

(** X11. A request with nothing to process gets the 400
    [{text: "Invalid request"}] and has no effect at all (no event, state
    unchanged): a form without a qualifying upload whose [text] is
    missing or empty; a body that is neither a form nor JSON, or JSON
    that does not parse; a JSON body that is false ([null], [false], [0],
    [""], [[]], [{}]); and a JSON object whose [text] is missing or
    false. *)
Theorem chat_nothing_to_process (env : Env) (st : State) :
  (forall files form,
     (forall f, Py.assoc "audio" files = Some f -> allowed_file (filename f) = false) ->
     Py.assoc "text" form = None \/ Py.assoc "text" form = Some "" ->
     chat env (FormData files form) st =
     {| res := Ok {| status := 400; body := [("text", JStr "Invalid request")] |};
        final := st; events := [] |}) /\
  chat env OtherBody st =
    {| res := Ok {| status := 400; body := [("text", JStr "Invalid request")] |};
       final := st; events := [] |} /\
  chat env (JsonBody None) st =
    {| res := Ok {| status := 400; body := [("text", JStr "Invalid request")] |};
       final := st; events := [] |} /\
  (forall j,
     Py.truthy j = false ->
     chat env (JsonBody (Some j)) st =
     {| res := Ok {| status := 400; body := [("text", JStr "Invalid request")] |};
        final := st; events := [] |}) /\
  (forall fields,
     Py.truthy (default JNull (Py.assoc "text" fields)) = false ->
     chat env (JsonBody (Some (JObj fields))) st =
     {| res := Ok {| status := 400; body := [("text", JStr "Invalid request")] |};
        final := st; events := [] |}).
Proof.
  split; [|split; [|split; [|split]]].
  - intros files form Hnone Htext.
    apply chat_invalid_request; try reflexivity; [exact Hnone|].
    unfold request_form_get. cbn [request_form].
    destruct Htext as [-> | ->]; reflexivity.
  - apply chat_invalid_request; try reflexivity. intros f [=].
  - apply chat_invalid_request; try reflexivity. intros f [=].
  - intros j Hj. apply chat_invalid_request; try reflexivity.
    + intros f [=].
    + cbn [request_get_json]. unfold json_has_get.
      destruct j; try reflexivity; rewrite Hj; reflexivity.
    + cbn [request_get_json]. destruct j; try reflexivity.
      destruct fields; [reflexivity|discriminate Hj].
  - intros fields Hf. apply chat_invalid_request; try reflexivity.
    + intros f [=].
    + exact Hf.
Qed.

Lemma chat_nothing_to_process_witness :
  chat working_env (JsonBody (Some (JObj [("text", JStr "")]))) fresh_state =
  {| res := Ok {| status := 400; body := [("text", JStr "Invalid request")] |};
     final := fresh_state; events := [] |}.
Proof.
  exact (proj2 (proj2 (proj2 (proj2 (chat_nothing_to_process working_env fresh_state))))
           [("text", JStr "")] eq_refl).
Defined.

(** ** The administrative routes: who gets through *)

Lemma string_eqb_decide (a b : string) :
  String.eqb a b = bool_decide (a = b).
Proof.
  destruct (String.eqb_spec a b) as [->|Hne].
  - symmetry. apply bool_decide_eq_true. reflexivity.
  - symmetry. apply bool_decide_eq_false. exact Hne.
Qed.

Lemma truthy_nonempty (s : string) : s <> "" -> PyStr.truthy s = true.
Proof. destruct s; [congruence|reflexivity]. Qed.

(** X12. The guard of both admin routes.  With no [ADMIN_TOKEN]
    configured (unset or empty) every request gets through and the
    request is not even looked at.  With one configured, the token is the
    first non-empty of the [X-Admin-Token] header, the form field [token]
    and the JSON field [token]: a non-empty header decides alone,
    whatever the body holds; without a header a non-empty form field
    decides; without either, the JSON body decides: a JSON object gets
    through exactly when its [token] is the configured string (a missing
    token, or one that is not a string, is refused), a request with no
    JSON body or a false one ([null], [0], [""], [[]], [{}]) is refused,
    and a JSON body that is true but not an object makes the guard raise
    [AttributeError]. *)
Theorem admin_guard_spec (request : AdminRequest) :
  (forall ADMIN_TOKEN,
     ADMIN_TOKEN = None \/ ADMIN_TOKEN = Some "" ->
     admin_guard ADMIN_TOKEN request = Ok true) /\
  (forall admin header,
     admin <> "" -> x_admin_token request = Some header -> header <> "" ->
     admin_guard (Some admin) request = Ok (bool_decide (header = admin))) /\
  (forall admin field,
     admin <> "" ->
     x_admin_token request = None \/ x_admin_token request = Some "" ->
     Py.assoc "token" (request_form (content request)) = Some field ->
     field <> "" ->
     admin_guard (Some admin) request = Ok (bool_decide (field = admin))) /\
  (forall admin,
     admin <> "" ->
     x_admin_token request = None \/ x_admin_token request = Some "" ->
     Py.assoc "token" (request_form (content request)) = None \/
     Py.assoc "token" (request_form (content request)) = Some "" ->
     (Py.truthy (request_get_json (content request)) = false ->
      admin_guard (Some admin) request = Ok false) /\
     (forall fields token,
        request_get_json (content request) = JObj fields ->
        Py.assoc "token" fields = Some (JStr token) ->
        admin_guard (Some admin) request = Ok (bool_decide (token = admin))) /\
     (forall fields,
        request_get_json (content request) = JObj fields ->
        Py.assoc "token" fields = None \/
        (exists v, Py.assoc "token" fields = Some v /\ forall s, v <> JStr s) ->
        admin_guard (Some admin) request = Ok false) /\
     (Py.truthy (request_get_json (content request)) = true ->
      Py.is_dict (request_get_json (content request)) = false ->
      admin_guard (Some admin) request = Raise AttributeError)).
Proof.
  split; [|split; [|split]].
  - intros ADMIN_TOKEN [-> | ->]; reflexivity.
  - intros admin header Ha Hh Hne. unfold admin_guard, admin_token.
    rewrite (truthy_nonempty admin Ha), Hh. cbn [from_option Py.truthy].
    rewrite (truthy_nonempty header Hne). cbn [token_differs].
    rewrite negb_involutive. rewrite string_eqb_decide. reflexivity.
  - intros admin field Ha Hh Hf Hne. unfold admin_guard, admin_token.
    rewrite (truthy_nonempty admin Ha).
    assert (Hh' : Py.truthy (from_option JStr JNull (x_admin_token request)) = false)
      by (destruct Hh as [-> | ->]; reflexivity).
    rewrite Hh'. unfold request_form_get. rewrite Hf. cbn [Py.truthy].
    rewrite (truthy_nonempty field Hne). cbn [token_differs].
    rewrite negb_involutive, string_eqb_decide. reflexivity.
  - intros admin Ha Hh Hf.
    assert (Hguard : admin_guard (Some admin) request =
                     match Py.get (Py.or_ (request_get_json (content request))
                                     (JObj [])) "token" with
                     | Raise e => Raise e
                     | Ok token => Ok (negb (token_differs token admin))
                     end).
    { unfold admin_guard, admin_token. rewrite (truthy_nonempty admin Ha).
      assert (Hh' : Py.truthy (from_option JStr JNull (x_admin_token request)) = false)
        by (destruct Hh as [-> | ->]; reflexivity).
      rewrite Hh'. unfold request_form_get.
      assert (Hf' : Py.truthy match Py.assoc "token" (request_form (content request)) with
                              | Some s => JStr s
                              | None => JNull
                              end = false)
        by (destruct Hf as [-> | ->]; reflexivity).
      rewrite Hf'. reflexivity. }
    rewrite Hguard. unfold Py.or_. split; [|split; [|split]].
    + intros ->. reflexivity.
    + intros fields token -> Htoken.
      assert (Hne : Py.truthy (JObj fields) = true)
        by (destruct fields; [discriminate Htoken|reflexivity]).
      rewrite Hne. cbn [Py.get]. rewrite Htoken.
      cbn [default from_option id token_differs].
      rewrite negb_involutive, string_eqb_decide. reflexivity.
    + intros fields -> Htoken.
      destruct (Py.truthy (JObj fields));
        cbn [Py.get Py.assoc default from_option id]; [|reflexivity].
      destruct Htoken as [-> | (v & -> & Hv)]; [reflexivity|].
      cbn [default from_option id]. destruct v; try reflexivity.
      exfalso. exact (Hv s eq_refl).
    + intros -> Hd.
      destruct (request_get_json (content request)); try reflexivity.
      discriminate Hd.
Qed.

Lemma admin_guard_spec_witness :
  admin_guard (Some "s3cret")
    {| x_admin_token := Some "s3cret";
       content := FormData [] [("token", "wrong"); ("key", "sk-new")] |} = Ok true /\
  admin_guard (Some "s3cret")
    {| x_admin_token := Some "wrong";
       content := FormData [] [("token", "s3cret"); ("key", "sk-new")] |} = Ok false /\
  admin_guard (Some "s3cret")
    {| x_admin_token := None;
       content := JsonBody (Some (JObj [("key", JStr "sk-new");
                                        ("token", JStr "s3cret")])) |} = Ok true /\
  admin_guard (Some "s3cret")
    {| x_admin_token := None;
       content := JsonBody (Some (JObj [("key", JStr "sk-new")])) |} = Ok false.
Proof.
  split; [|split; [|split]].
  - exact (proj1 (proj2 (admin_guard_spec
             {| x_admin_token := Some "s3cret";
                content := FormData [] [("token", "wrong"); ("key", "sk-new")] |}))
             "s3cret" "s3cret" ltac:(discriminate) eq_refl ltac:(discriminate)).
  - exact (proj1 (proj2 (admin_guard_spec
             {| x_admin_token := Some "wrong";
                content := FormData [] [("token", "s3cret"); ("key", "sk-new")] |}))
             "s3cret" "wrong" ltac:(discriminate) eq_refl ltac:(discriminate)).
  - destruct (proj2 (proj2 (proj2 (admin_guard_spec
                {| x_admin_token := None;
                   content := JsonBody (Some (JObj [("key", JStr "sk-new");
                                                    ("token", JStr "s3cret")])) |})))
                "s3cret" ltac:(discriminate) (or_introl eq_refl) (or_introl eq_refl))
      as (_ & Htoken & _).
    exact (Htoken [("key", JStr "sk-new"); ("token", JStr "s3cret")] "s3cret"
             eq_refl eq_refl).
  - destruct (proj2 (proj2 (proj2 (admin_guard_spec
                {| x_admin_token := None;
                   content := JsonBody (Some (JObj [("key", JStr "sk-new")])) |})))
                "s3cret" ltac:(discriminate) (or_introl eq_refl) (or_introl eq_refl))
      as (_ & _ & Hmissing & _).
    exact (Hmissing [("key", JStr "sk-new")] eq_refl (or_introl eq_refl)).
Defined.

(** X13. A request the guard refuses changes nothing: both admin
    routes answer 403 [{error: "unauthorized"}], the credential,
    [os.environ] and the disk are as before, and nothing is logged. *)
Theorem admin_refused_changes_nothing
    (admin cwd : string)
    (write_refused read_refused : string -> string -> option exn)
    (write_leaves : string -> string -> option string)
    (environ_encodes : string -> bool)
    (request : AdminRequest) (st : AdminState) (token : json) :
  admin <> "" ->
  admin_token request = Ok token ->
  token <> JStr admin ->
  admin_set_openai_key (Some admin) cwd write_refused read_refused
    write_leaves environ_encodes request st =
    {| reply := Ok {| status := 403; body := [("error", JStr "unauthorized")] |};
       after := st; logged := [] |} /\
  admin_clear_openai_key (Some admin) request st =
    {| reply := Ok {| status := 403; body := [("error", JStr "unauthorized")] |};
       after := st; logged := [] |}.
Proof.
  intros Ha Ht Hne.
  assert (Hg : admin_guard (Some admin) request = Ok false).
  { unfold admin_guard. rewrite (truthy_nonempty admin Ha), Ht.
    destruct token as [| | |s| |]; try reflexivity.
    cbn [token_differs]. rewrite negb_involutive.
    destruct (String.eqb_spec s admin) as [->|]; [congruence|reflexivity]. }
  unfold admin_set_openai_key, admin_clear_openai_key. rewrite Hg.
  split; reflexivity.
Qed.

Lemma admin_refused_changes_nothing_witness :
  after (admin_set_openai_key (Some "s3cret") "/srv/app" writable readable
           not_opened any_value
           (set_key_request "guess" "sk-stolen") admin_start) = admin_start /\
  reply (admin_clear_openai_key (Some "s3cret")
           (set_key_request "guess" "sk-stolen") admin_start) =
    Ok {| status := 403; body := [("error", JStr "unauthorized")] |}.
Proof.
  destruct (admin_refused_changes_nothing "s3cret" "/srv/app" writable readable
              not_opened any_value
              (set_key_request "guess" "sk-stolen") admin_start (JStr "guess"))
    as [Hset Hclear]; [discriminate|reflexivity|discriminate|].
  rewrite Hset, Hclear. split; reflexivity.
Defined.

(** ** The administrative routes: setting and clearing the key *)

(** [write_dotenv], by what the platform answers. *)
Lemma write_dotenv_run
    (cwd : string) (write_refused read_refused : string -> string -> option exn)
    (write_leaves : string -> string -> option string)
    (key : string) (st : State) :
  write_dotenv cwd write_refused read_refused write_leaves key st =
  match dotenv_read_error read_refused (Py.os_path_join cwd ".env")
          (fs st !! Py.os_path_join cwd ".env") with
  | Some e => (Raise e, st)
  | None =>
      match write_refused (Py.os_path_join cwd ".env")
              (dotenv_text key (fs st !! Py.os_path_join cwd ".env")) with
      | None =>
          (Ok tt,
           with_file (Py.os_path_join cwd ".env")
             (dotenv_text key (fs st !! Py.os_path_join cwd ".env")) st)
      | Some e =>
          (Raise e,
           match write_leaves (Py.os_path_join cwd ".env")
                   (dotenv_text key (fs st !! Py.os_path_join cwd ".env")) with
           | Some bytes => with_file (Py.os_path_join cwd ".env") bytes st
           | None => st
           end)
      end
  end.
Proof.
  unfold write_dotenv, write_text, dotenv_read_error.
  destruct (fs st !! Py.os_path_join cwd ".env") as [old|]; [|reflexivity].
  destruct (read_refused (Py.os_path_join cwd ".env") old); reflexivity.
Qed.

(** [write_dotenv] touches [.env] at most. *)
Lemma write_dotenv_frame
    (cwd : string) (write_refused read_refused : string -> string -> option exn)
    (write_leaves : string -> string -> option string)
    (key : string) (st : State) :
  api_key (write_dotenv cwd write_refused read_refused write_leaves key st).2 =
    api_key st /\
  forall p, p <> Py.os_path_join cwd ".env" ->
    fs (write_dotenv cwd write_refused read_refused write_leaves key st).2 !! p =
    fs st !! p.
Proof.
  rewrite write_dotenv_run.
  destruct (dotenv_read_error _ _ _); [split; reflexivity|].
  destruct (write_refused _ _); [destruct (write_leaves _ _)|];
    (split; [reflexivity|]); intros p Hp; cbn [snd with_file fs];
    try reflexivity; apply lookup_insert_ne; congruence.
Qed.

(** [admin_set_openai_key] past its guard, with a key in hand that
    [os.environ] takes. *)
Lemma admin_set_run
    (ADMIN_TOKEN : option string) (cwd : string)
    (write_refused read_refused : string -> string -> option exn)
    (write_leaves : string -> string -> option string)
    (environ_encodes : string -> bool)
    (request : AdminRequest) (st : AdminState) (key : string) :
  admin_guard ADMIN_TOKEN request = Ok true ->
  payload_key request = Ok key ->
  key <> "" ->
  PyStr.contains NUL key = false ->
  environ_encodes key = true ->
  admin_set_openai_key ADMIN_TOKEN cwd write_refused read_refused write_leaves
    environ_encodes request st =
  {| reply :=
       Ok (jsonify
             match (write_dotenv cwd write_refused read_refused write_leaves key
                      (with_api_key (Some key) (app_state st))).1 with
             | Ok _ => KEY_SAVED
             | Raise _ => KEY_NOT_SAVED
             end 200);
     after :=
       {| app_state :=
            (write_dotenv cwd write_refused read_refused write_leaves key
               (with_api_key (Some key) (app_state st))).2;
          environ := <["OPENAI_API_KEY" := key]> (environ st) |};
     logged :=
       match (write_dotenv cwd write_refused read_refused write_leaves key
                (with_api_key (Some key) (app_state st))).1 with
       | Ok _ => [Log "info" "OPENAI_API_KEY set via admin endpoint and saved to .env"]
       | Raise _ => [Log "exception" "Failed to write .env: %s"]
       end |}.
Proof.
  intros Hg Hk Hne Hnul Henc. unfold admin_set_openai_key.
  rewrite Hg, Hk, (truthy_nonempty key Hne), Hnul, Henc.
  cbn [negb orb app_state environ].
  destruct (write_dotenv cwd write_refused read_refused write_leaves key
              (with_api_key (Some key) (app_state st))) as [[u|e] app'];
    reflexivity.
Qed.

(** Past the guard, a key that is not blank is installed as
    [openai.api_key], also when [os.environ] or the disk then refuse. *)
Lemma admin_set_key_installed
    (ADMIN_TOKEN : option string) (cwd : string)
    (write_refused read_refused : string -> string -> option exn)
    (write_leaves : string -> string -> option string)
    (environ_encodes : string -> bool)
    (request : AdminRequest) (st : AdminState) (key : string) :
  admin_guard ADMIN_TOKEN request = Ok true ->
  payload_key request = Ok key ->
  key <> "" ->
  api_key (app_state (after (admin_set_openai_key ADMIN_TOKEN cwd write_refused
                               read_refused write_leaves environ_encodes request st))) = Some key.
Proof.
  intros Hg Hk Hne. unfold admin_set_openai_key.
  rewrite Hg, Hk, (truthy_nonempty key Hne). cbn [negb app_state environ].
  destruct (PyStr.contains NUL key || negb (environ_encodes key));
    [reflexivity|].
  pose proof (proj1 (write_dotenv_frame cwd write_refused read_refused
                       write_leaves key
                       (with_api_key (Some key) (app_state st)))) as Hkey.
  destruct (write_dotenv cwd write_refused read_refused write_leaves key
              (with_api_key (Some key) (app_state st))) as [[u|e] app'];
    exact Hkey.
Qed.

(** X14. Once past the guard with a key that is not blank and that
    [os.environ] takes (no null byte, and encodable),
    [admin_set_openai_key] always answers 200 and always installs the key
    for the running process ([openai.api_key] and
    [os.environ["OPENAI_API_KEY"]]), whatever becomes of [.env]; no other
    environment variable and no file other than [.env] changes.  When
    [.env], if there is one, can be read and the write goes through,
    [.env] holds the updated text, the body is [{status: "ok"}] and one
    info line is logged.  When reading [.env] raises (no permission, or
    bytes that are not UTF-8), nothing is written: the disk is as before
    and the body carries the warning.  When the write raises, the body
    carries the warning, and [.env] holds what the failed write left (no
    byte when it had only been truncated), or is as before when it could
    not be opened. *)
Theorem admin_set_installs_key
    (ADMIN_TOKEN : option string) (cwd : string)
    (write_refused read_refused : string -> string -> option exn)
    (write_leaves : string -> string -> option string)
    (environ_encodes : string -> bool)
    (request : AdminRequest) (st : AdminState) (key : string) :
  admin_guard ADMIN_TOKEN request = Ok true ->
  payload_key request = Ok key ->
  key <> "" ->
  PyStr.contains NUL key = false ->
  environ_encodes key = true ->
  (exists d, reply (admin_set_openai_key ADMIN_TOKEN cwd write_refused read_refused
                      write_leaves environ_encodes request st) =
               Ok {| status := 200; body := d |}) /\
  api_key (app_state (after (admin_set_openai_key ADMIN_TOKEN cwd write_refused read_refused
                               write_leaves environ_encodes request st))) = Some key /\
  environ (after (admin_set_openai_key ADMIN_TOKEN cwd write_refused read_refused
                    write_leaves environ_encodes request st))
    !! "OPENAI_API_KEY" = Some key /\
  (forall v, v <> "OPENAI_API_KEY" ->
     environ (after (admin_set_openai_key ADMIN_TOKEN cwd write_refused read_refused
                       write_leaves environ_encodes request st))
       !! v = environ st !! v) /\
  (forall p, p <> Py.os_path_join cwd ".env" ->
     fs (app_state (after (admin_set_openai_key ADMIN_TOKEN cwd write_refused read_refused
                             write_leaves environ_encodes request st))) !! p = fs (app_state st) !! p) /\
  (dotenv_read_error read_refused (Py.os_path_join cwd ".env")
     (fs (app_state st) !! Py.os_path_join cwd ".env") = None ->
   write_refused (Py.os_path_join cwd ".env")
     (dotenv_text key (fs (app_state st) !! Py.os_path_join cwd ".env")) = None ->
   reply (admin_set_openai_key ADMIN_TOKEN cwd write_refused read_refused
            write_leaves environ_encodes request st) =
     Ok {| status := 200; body := [("status", JStr "ok")] |} /\
   fs (app_state (after (admin_set_openai_key ADMIN_TOKEN cwd write_refused read_refused
                           write_leaves environ_encodes request st))) !! Py.os_path_join cwd ".env" =
     Some (dotenv_text key (fs (app_state st) !! Py.os_path_join cwd ".env")) /\
   logged (admin_set_openai_key ADMIN_TOKEN cwd write_refused read_refused
             write_leaves environ_encodes request st) =
     [Log "info" "OPENAI_API_KEY set via admin endpoint and saved to .env"]) /\
  (forall e,
     dotenv_read_error read_refused (Py.os_path_join cwd ".env")
       (fs (app_state st) !! Py.os_path_join cwd ".env") = Some e ->
     reply (admin_set_openai_key ADMIN_TOKEN cwd write_refused read_refused
              write_leaves environ_encodes request st) =
       Ok {| status := 200;
             body := [("status", JStr "ok");
                      ("warning", JStr "runtime key set but .env write failed")] |} /\
     fs (app_state (after (admin_set_openai_key ADMIN_TOKEN cwd write_refused read_refused
                             write_leaves environ_encodes request st))) = fs (app_state st)) /\
  (forall e,
     dotenv_read_error read_refused (Py.os_path_join cwd ".env")
       (fs (app_state st) !! Py.os_path_join cwd ".env") = None ->
     write_refused (Py.os_path_join cwd ".env")
       (dotenv_text key (fs (app_state st) !! Py.os_path_join cwd ".env")) = Some e ->
     reply (admin_set_openai_key ADMIN_TOKEN cwd write_refused read_refused
              write_leaves environ_encodes request st) =
       Ok {| status := 200;
             body := [("status", JStr "ok");
                      ("warning", JStr "runtime key set but .env write failed")] |} /\
     fs (app_state (after (admin_set_openai_key ADMIN_TOKEN cwd write_refused read_refused
                             write_leaves environ_encodes request st))) !! Py.os_path_join cwd ".env" =
     match write_leaves (Py.os_path_join cwd ".env")
             (dotenv_text key (fs (app_state st) !! Py.os_path_join cwd ".env")) with
     | Some bytes => Some bytes
     | None => fs (app_state st) !! Py.os_path_join cwd ".env"
     end).
Proof.
  intros Hg Hk Hne Hnul Henc.
  rewrite (admin_set_run ADMIN_TOKEN cwd write_refused read_refused write_leaves
             environ_encodes request st key Hg Hk Hne Hnul Henc).
  destruct (write_dotenv_frame cwd write_refused read_refused write_leaves key
              (with_api_key (Some key) (app_state st))) as [Hkey Hframe].
  cbn [reply after app_state environ logged].
  split; [eexists; reflexivity|]. split; [exact Hkey|].
  split; [apply lookup_insert_eq|].
  split; [intros v Hv; apply lookup_insert_ne; congruence|].
  split; [exact Hframe|].
  rewrite write_dotenv_run. cbn [with_api_key fs].
  split; [|split].
  - intros -> ->. cbn [fst snd with_file fs].
    split; [reflexivity|]. split; [apply lookup_insert_eq|reflexivity].
  - intros e ->. split; reflexivity.
  - intros e -> ->. cbn [fst snd]. split; [reflexivity|].
    destruct (write_leaves _ _); [apply lookup_insert_eq|reflexivity].
Qed.

Lemma admin_set_installs_key_witness :
  api_key (app_state (after (admin_set_openai_key (Some "s3cret") "/srv/app"
                               read_only readable truncated any_value
                               (set_key_request "s3cret" "  sk-new ")
                               admin_start))) = Some "sk-new" /\
  reply (admin_set_openai_key (Some "s3cret") "/srv/app" read_only readable
           truncated any_value (set_key_request "s3cret" "  sk-new ")
           admin_start) =
    Ok {| status := 200;
          body := [("status", JStr "ok");
                   ("warning", JStr "runtime key set but .env write failed")] |} /\
  fs (app_state (after (admin_set_openai_key (Some "s3cret") "/srv/app"
                          read_only readable truncated any_value
                          (set_key_request "s3cret" "  sk-new ")
                          admin_start))) !! "/srv/app/.env" = Some "" /\
  reply (admin_set_openai_key (Some "s3cret") "/srv/app" writable undecodable
           not_opened any_value (set_key_request "s3cret" "sk-new")
           admin_with_dotenv) =
    Ok {| status := 200;
          body := [("status", JStr "ok");
                   ("warning", JStr "runtime key set but .env write failed")] |} /\
  fs (app_state (after (admin_set_openai_key (Some "s3cret") "/srv/app"
                          writable undecodable not_opened any_value
                          (set_key_request "s3cret" "sk-new")
                          admin_with_dotenv))) =
    fs (app_state admin_with_dotenv).
Proof.
  destruct (admin_set_installs_key (Some "s3cret") "/srv/app" read_only readable
              truncated any_value (set_key_request "s3cret" "  sk-new ")
              admin_start "sk-new")
    as (_ & Hkey & _ & _ & _ & _ & _ & Hrefused);
    [reflexivity|reflexivity|discriminate|reflexivity|reflexivity|].
  destruct (admin_set_installs_key (Some "s3cret") "/srv/app" writable undecodable
              not_opened any_value (set_key_request "s3cret" "sk-new")
              admin_with_dotenv "sk-new")
    as (_ & _ & _ & _ & _ & _ & Hunread & _);
    [reflexivity|reflexivity|discriminate|reflexivity|reflexivity|].
  destruct (Hrefused (OSError "PermissionError") eq_refl eq_refl)
    as [Hreply Hfile].
  split; [exact Hkey|]. split; [exact Hreply|]. split; [exact Hfile|].
  exact (Hunread ValueError eq_refl).
Defined.

(** X15. Which field is the key: in a form, [key] when it is not
    empty and [OPENAI_API_KEY] otherwise, in both cases stripped of
    surrounding white space (Python's: the no-break space and the other
    white space outside ASCII included); and a key that is blank after
    stripping is refused with 400 [{error: "no key provided"}], leaving
    the credential, [os.environ] and the disk as they were. *)
Theorem admin_set_key_field
    (ADMIN_TOKEN : option string) (cwd : string)
    (write_refused read_refused : string -> string -> option exn)
    (write_leaves : string -> string -> option string)
    (environ_encodes : string -> bool)
    (request : AdminRequest) (st : AdminState) :
  (forall k, Py.assoc "key" (request_form (content request)) = Some k ->
             k <> "" -> payload_key request = Ok (PyStr.strip k)) /\
  (forall k, (Py.assoc "key" (request_form (content request)) = None \/
              Py.assoc "key" (request_form (content request)) = Some "") ->
             Py.assoc "OPENAI_API_KEY" (request_form (content request)) = Some k ->
             payload_key request = Ok (PyStr.strip k)) /\
  (admin_guard ADMIN_TOKEN request = Ok true ->
   payload_key request = Ok "" ->
   admin_set_openai_key ADMIN_TOKEN cwd write_refused read_refused
     write_leaves environ_encodes request st =
   {| reply := Ok {| status := 400; body := [("error", JStr "no key provided")] |};
      after := st; logged := [] |}).
Proof.
  split; [|split].
  - intros k Hk Hne. unfold payload_key, payload_get, request_form_get.
    destruct (request_form (content request)) as [|kv form] eqn:Hform;
      [discriminate Hk|].
    rewrite Hk. cbn [Py.truthy]. rewrite (truthy_nonempty k Hne). reflexivity.
  - intros k Hkey Hk. unfold payload_key, payload_get, request_form_get.
    destruct (request_form (content request)) as [|kv form] eqn:Hform;
      [discriminate Hk|].
    rewrite Hk.
    destruct Hkey as [-> | ->]; cbn [Py.truthy PyStr.truthy];
      unfold Py.or_; cbn [Py.truthy]; destruct k; reflexivity.
  - intros Hg Hk. unfold admin_set_openai_key. rewrite Hg, Hk. reflexivity.
Qed.

Lemma admin_set_key_field_witness :
  payload_key (set_key_request "s3cret" ("  sk-new " +:+ NBSP)) = Ok "sk-new" /\
  reply (admin_set_openai_key (Some "s3cret") "/srv/app" writable readable
           not_opened any_value (set_key_request "s3cret" (" " +:+ NBSP))
           admin_start) =
    Ok {| status := 400; body := [("error", JStr "no key provided")] |}.
Proof.
  destruct (admin_set_key_field (Some "s3cret") "/srv/app" writable readable
              not_opened any_value
              (set_key_request "s3cret" ("  sk-new " +:+ NBSP)) admin_start)
    as (H1 & _ & _).
  destruct (admin_set_key_field (Some "s3cret") "/srv/app" writable readable
              not_opened any_value
              (set_key_request "s3cret" (" " +:+ NBSP)) admin_start)
    as (_ & _ & H3).
  split.
  - exact (H1 ("  sk-new " +:+ NBSP) eq_refl ltac:(discriminate)).
  - rewrite (H3 eq_refl eq_refl). reflexivity.
Defined.

(** X16. [admin_clear_openai_key], past its guard, answers 200
    [{status: "cleared"}], unsets [openai.api_key] and removes
    [OPENAI_API_KEY] from [os.environ]; it leaves every other variable
    and the whole disk alone, so a key saved in [.env] stays there.
    Clearing twice is the same as clearing once. *)
Theorem admin_clear_forgets_key
    (ADMIN_TOKEN : option string) (request : AdminRequest) (st : AdminState) :
  admin_guard ADMIN_TOKEN request = Ok true ->
  reply (admin_clear_openai_key ADMIN_TOKEN request st) =
    Ok {| status := 200; body := [("status", JStr "cleared")] |} /\
  api_key (app_state (after (admin_clear_openai_key ADMIN_TOKEN request st))) = None /\
  environ (after (admin_clear_openai_key ADMIN_TOKEN request st))
    !! "OPENAI_API_KEY" = None /\
  (forall v, v <> "OPENAI_API_KEY" ->
     environ (after (admin_clear_openai_key ADMIN_TOKEN request st)) !! v =
     environ st !! v) /\
  fs (app_state (after (admin_clear_openai_key ADMIN_TOKEN request st))) =
    fs (app_state st) /\
  after (admin_clear_openai_key ADMIN_TOKEN request
           (after (admin_clear_openai_key ADMIN_TOKEN request st))) =
    after (admin_clear_openai_key ADMIN_TOKEN request st).
Proof.
  intros Hg. unfold admin_clear_openai_key. rewrite Hg.
  cbn [reply after app_state environ with_api_key api_key fs rng_pos].
  split; [reflexivity|]. split; [reflexivity|].
  split; [apply lookup_delete_eq|].
  split; [intros v Hv; apply lookup_delete_ne; congruence|].
  split; [reflexivity|].
  f_equal. apply delete_delete_eq.
Qed.

Lemma admin_clear_forgets_key_witness :
  api_key (app_state (after (admin_clear_openai_key (Some "s3cret")
                               (set_key_request "s3cret" "")
                               {| app_state := fresh_state;
                                  environ := {[ "OPENAI_API_KEY" := "sk-test" ]} |}))) =
    None /\
  api_key fresh_state = Some "sk-test".
Proof.
  split; [|reflexivity].
  exact (proj1 (proj2 (admin_clear_forgets_key (Some "s3cret")
                         (set_key_request "s3cret" "")
                         {| app_state := fresh_state;
                            environ := {[ "OPENAI_API_KEY" := "sk-test" ]} |}
                         eq_refl))).
Defined.

(** X17. The admin routes and the Answer Generator, composed.  After
    a key has been set, [get_anwer_openai] no longer stops at its guard:
    it makes its one API attempt, for every question and whatever became
    of [.env].  After the key has been cleared it makes none and returns
    the key-missing sentinel. *)
Theorem admin_routes_drive_the_answer_generator
    (ADMIN_TOKEN : option string) (cwd : string)
    (write_refused read_refused : string -> string -> option exn)
    (write_leaves : string -> string -> option string)
    (environ_encodes : string -> bool)
    (request : AdminRequest) (st : AdminState)
    (env : Env) (question : json) :
  admin_guard ADMIN_TOKEN request = Ok true ->
  (forall key, payload_key request = Ok key -> key <> "" ->
     PyStr.contains NUL key = false ->
     api_attempts
       (events (get_anwer_openai env question
                  (app_state (after (admin_set_openai_key ADMIN_TOKEN cwd
                                       write_refused read_refused
                                       write_leaves environ_encodes request st))))) = 1%nat) /\
  res (get_anwer_openai env question
         (app_state (after (admin_clear_openai_key ADMIN_TOKEN request st)))) =
    Ok KEY_MISSING /\
  api_attempts
    (events (get_anwer_openai env question
               (app_state (after (admin_clear_openai_key ADMIN_TOKEN request st))))) =
    0%nat.
Proof.
  intros Hg. split.
  - intros key Hk Hne Hnul.
    assert (Hkey : api_key (app_state (after (admin_set_openai_key ADMIN_TOKEN cwd
                                                write_refused read_refused
                                                write_leaves environ_encodes request st))) =
                   Some key).
    { exact (admin_set_key_installed ADMIN_TOKEN cwd write_refused read_refused
               write_leaves environ_encodes request st key Hg Hk Hne). }
    destruct (get_anwer_openai_with_key env question
                (app_state (after (admin_set_openai_key ADMIN_TOKEN cwd
                                     write_refused read_refused
                                     write_leaves environ_encodes request st))))
      as (answer & logs & E & Hlogs).
    { unfold key_set. rewrite Hkey. apply truthy_nonempty, Hne. }
    rewrite E. unfold api_attempts. simpl. f_equal.
    apply (logs_make_no_attempt logs Hlogs).
  - unfold admin_clear_openai_key. rewrite Hg. cbn [after app_state].
    rewrite get_anwer_openai_no_key by reflexivity.
    split; reflexivity.
Qed.

Lemma admin_routes_drive_the_answer_generator_witness :
  res (get_anwer_openai working_env (JStr "How do I treat leaf rust?")
         (app_state admin_start)) = Ok KEY_MISSING /\
  api_attempts
    (events (get_anwer_openai working_env (JStr "How do I treat leaf rust?")
               (app_state (after (admin_set_openai_key (Some "s3cret") "/srv/app"
                                    writable readable
                                    not_opened any_value (set_key_request "s3cret" "sk-new")
                                    admin_start))))) = 1%nat.
Proof.
  split; [reflexivity|].
  exact (proj1 (admin_routes_drive_the_answer_generator (Some "s3cret") "/srv/app"
                  writable readable
                  not_opened any_value (set_key_request "s3cret" "sk-new") admin_start
                  working_env (JStr "How do I treat leaf rust?") eq_refl)
           "sk-new" eq_refl ltac:(discriminate) eq_refl).
Defined.

(** X18. Unlike [chat], the admin routes have no catch-all.  A JSON
    body that is true but not an object (an array, a string, a number)
    makes [admin_set_openai_key] raise [AttributeError] unless the guard
    refuses the request first, and it always raises when no
    [X-Admin-Token] header was sent; a key that is true but not a string
    makes it raise as well.  In each of these cases the credential,
    [os.environ] and the disk are as before.  A key with an embedded null
    byte makes it raise [ValueError] half way: [openai.api_key] has been
    set by then, [os.environ] and [.env] have not. *)
Theorem admin_set_lets_exceptions_escape
    (ADMIN_TOKEN : option string) (cwd : string)
    (write_refused read_refused : string -> string -> option exn)
    (write_leaves : string -> string -> option string)
    (environ_encodes : string -> bool)
    (request : AdminRequest) (st : AdminState) :
  (forall j,
     content request = JsonBody (Some j) ->
     Py.truthy j = true -> Py.is_dict j = false ->
     (reply (admin_set_openai_key ADMIN_TOKEN cwd write_refused read_refused
               write_leaves environ_encodes request st) =
        Raise AttributeError \/
      reply (admin_set_openai_key ADMIN_TOKEN cwd write_refused read_refused
               write_leaves environ_encodes request st) =
        Ok UNAUTHORIZED) /\
     after (admin_set_openai_key ADMIN_TOKEN cwd write_refused read_refused
              write_leaves environ_encodes request st) = st /\
     (x_admin_token request = None ->
      reply (admin_set_openai_key ADMIN_TOKEN cwd write_refused read_refused
               write_leaves environ_encodes request st) =
        Raise AttributeError)) /\
  (forall v,
     admin_guard ADMIN_TOKEN request = Ok true ->
     payload_get request "key" = Ok v ->
     Py.truthy v = true -> (forall s, v <> JStr s) ->
     reply (admin_set_openai_key ADMIN_TOKEN cwd write_refused read_refused
              write_leaves environ_encodes request st) =
       Raise AttributeError /\
     after (admin_set_openai_key ADMIN_TOKEN cwd write_refused read_refused
              write_leaves environ_encodes request st) = st) /\
  (forall key,
     admin_guard ADMIN_TOKEN request = Ok true ->
     payload_key request = Ok key ->
     PyStr.contains NUL key = true ->
     reply (admin_set_openai_key ADMIN_TOKEN cwd write_refused read_refused
              write_leaves environ_encodes request st) =
       Raise ValueError /\
     api_key (app_state (after (admin_set_openai_key ADMIN_TOKEN cwd write_refused read_refused
                                  write_leaves environ_encodes request st))) = Some key /\
     environ (after (admin_set_openai_key ADMIN_TOKEN cwd write_refused read_refused
                       write_leaves environ_encodes request st)) =
       environ st /\
     fs (app_state (after (admin_set_openai_key ADMIN_TOKEN cwd write_refused read_refused
                             write_leaves environ_encodes request st))) = fs (app_state st)).
Proof.
  split; [|split].
  - intros j Hc Ht Hd.
    assert (Hget : forall k, payload_get request k = Raise AttributeError).
    { intros k. unfold payload_get. rewrite Hc. cbn [request_form request_get_json].
      unfold Py.or_. rewrite Ht. destruct j; try reflexivity; discriminate Hd. }
    assert (Hkey : payload_key request = Raise AttributeError)
      by (unfold payload_key; rewrite Hget; reflexivity).
    assert (Htok : x_admin_token request = None ->
                   admin_token request = Raise AttributeError).
    { intros Hh. unfold admin_token. rewrite Hh, Hc.
      cbn [from_option Py.truthy request_form_get request_form Py.assoc
           request_get_json].
      unfold Py.or_. rewrite Ht. destruct j; try reflexivity; discriminate Hd. }
    unfold admin_set_openai_key.
    destruct (admin_guard ADMIN_TOKEN request) as [[|]|e] eqn:Hg;
      rewrite ?Hkey; cbn [reply after].
    + split; [left; reflexivity|]. split; [reflexivity|]. reflexivity.
    + split; [right; reflexivity|]. split; [reflexivity|].
      intros Hh. exfalso. unfold admin_guard in Hg.
      destruct ADMIN_TOKEN as [admin|]; [|discriminate Hg].
      destruct (PyStr.truthy admin); [|discriminate Hg].
      rewrite (Htok Hh) in Hg. discriminate Hg.
    + assert (He : e = AttributeError).
      { unfold admin_guard in Hg.
        destruct ADMIN_TOKEN as [admin|]; [|discriminate Hg].
        destruct (PyStr.truthy admin); [|discriminate Hg].
        unfold admin_token in Hg. rewrite Hc in Hg.
        destruct (Py.truthy (from_option JStr JNull (x_admin_token request)));
          [discriminate Hg|].
        cbn [request_form_get request_form Py.assoc Py.truthy request_get_json]
          in Hg.
        unfold Py.or_ in Hg. rewrite Ht in Hg.
        destruct j; try discriminate Hd; cbn in Hg; congruence. }
      subst e. split; [left; reflexivity|]. split; reflexivity.
  - intros v Hg Hv Ht Hns. unfold admin_set_openai_key, payload_key.
    rewrite Hg, Hv, Ht.
    destruct v; try (split; reflexivity). exfalso. exact (Hns s eq_refl).
  - intros key Hg Hk Hnul. unfold admin_set_openai_key.
    rewrite Hg, Hk, Hnul.
    assert (Hne : PyStr.truthy key = true)
      by (destruct key; [discriminate Hnul|reflexivity]).
    rewrite Hne. repeat split.
Qed.

Lemma admin_set_lets_exceptions_escape_witness :
  reply (admin_set_openai_key None "/srv/app" writable readable not_opened any_value
           {| x_admin_token := None; content := JsonBody (Some (JArr [JStr "sk-new"])) |}
           admin_start) = Raise AttributeError /\
  reply (admin_set_openai_key None "/srv/app" writable readable not_opened any_value
           {| x_admin_token := None;
              content := JsonBody (Some (JObj [("key", JNum 5)])) |}
           admin_start) = Raise AttributeError.
Proof.
  split.
  - destruct (admin_set_lets_exceptions_escape None "/srv/app" writable readable
                not_opened any_value
                {| x_admin_token := None;
                   content := JsonBody (Some (JArr [JStr "sk-new"])) |}
                admin_start) as [H _].
    exact (proj2 (proj2 (H (JArr [JStr "sk-new"]) eq_refl eq_refl eq_refl)) eq_refl).
  - destruct (admin_set_lets_exceptions_escape None "/srv/app" writable readable
                not_opened any_value
                {| x_admin_token := None;
                   content := JsonBody (Some (JObj [("key", JNum 5)])) |}
                admin_start) as [_ [H _]].
    refine (proj1 (H (JNum 5) eq_refl eq_refl eq_refl _)).
    intros s; discriminate.
Defined.

(** X23. A key that [os.environ] cannot encode makes
    [admin_set_openai_key] raise half way ([UnicodeEncodeError], which is
    a [ValueError]), as a key with a null byte does: [openai.api_key] has
    been set by then, [os.environ] and the disk are as before, nothing is
    logged and no response is made. *)
Theorem admin_set_unencodable_key
    (ADMIN_TOKEN : option string) (cwd : string)
    (write_refused read_refused : string -> string -> option exn)
    (write_leaves : string -> string -> option string)
    (environ_encodes : string -> bool)
    (request : AdminRequest) (st : AdminState) (key : string) :
  admin_guard ADMIN_TOKEN request = Ok true ->
  payload_key request = Ok key ->
  key <> "" ->
  environ_encodes key = false ->
  admin_set_openai_key ADMIN_TOKEN cwd write_refused read_refused write_leaves
    environ_encodes request st =
  {| reply := Raise ValueError;
     after := {| app_state :=
                   {| fs := fs (app_state st); api_key := Some key;
                      rng_pos := rng_pos (app_state st) |};
                 environ := environ st |};
     logged := [] |}.
Proof.
  intros Hg Hk Hne Henc. unfold admin_set_openai_key.
  rewrite Hg, Hk, (truthy_nonempty key Hne), Henc, orb_true_r. reflexivity.
Qed.

Lemma admin_set_unencodable_key_witness :
  reply (admin_set_openai_key (Some "s3cret") "/srv/app" writable readable
           not_opened ascii_only
           (set_key_request "s3cret" (String "195" (String "169" "")))
           admin_start) = Raise ValueError /\
  api_key (app_state
             (after (admin_set_openai_key (Some "s3cret") "/srv/app" writable
                       readable not_opened ascii_only
                       (set_key_request "s3cret" (String "195" (String "169" "")))
                       admin_start))) =
    Some (String "195" (String "169" "")).
Proof.
  rewrite (admin_set_unencodable_key (Some "s3cret") "/srv/app" writable readable
             not_opened ascii_only
             (set_key_request "s3cret" (String "195" (String "169" "")))
             admin_start (String "195" (String "169" ""))
             eq_refl eq_refl ltac:(discriminate) eq_refl).
  split; reflexivity.
Defined.

(** ** Lines of text *)

Lemma append_nil_r (s : string) : s +:+ "" = s.
Proof.
  induction s as [|a s IH]; [reflexivity|].
  rewrite append_cons, IH. reflexivity.
Qed.

Lemma append_assoc (a b c : string) : (a +:+ b) +:+ c = a +:+ (b +:+ c).
Proof.
  induction a as [|x a IH]; [reflexivity|].
  rewrite !append_cons, IH. reflexivity.
Qed.

Lemma contains_append (c : ascii) (a b : string) :
  PyStr.contains c (a +:+ b) = PyStr.contains c a || PyStr.contains c b.
Proof.
  induction a as [|x a IH]; [reflexivity|].
  rewrite append_cons. simpl. destruct (Ascii.eqb x c); [reflexivity|exact IH].
Qed.

Lemma writelines_cons (l : string) (ls : list string) :
  writelines (l :: ls) = l +:+ writelines ls.
Proof.
  unfold writelines. destruct ls as [|l' ls]; simpl.
  - symmetry. apply append_nil_r.
  - reflexivity.
Qed.

Lemma writelines_app (a b : list string) :
  writelines (a ++ b) = writelines a +:+ writelines b.
Proof.
  induction a as [|l a IH]; [reflexivity|].
  rewrite <- app_comm_cons, !writelines_cons, IH, append_assoc. reflexivity.
Qed.

(** Writing back the lines that were read gives the text that was
    read. *)
Lemma writelines_readlines (s : string) : writelines (readlines s) = s.
Proof.
  induction s as [|c s IH]; [reflexivity|]. simpl.
  destruct (Ascii.eqb c LF).
  - rewrite writelines_cons, IH. reflexivity.
  - destruct (readlines s) as [|l ls].
    + simpl in IH. subst s. reflexivity.
    + rewrite writelines_cons in *. rewrite append_cons, IH. reflexivity.
Qed.

Lemma readlines_terminated (l s : string) :
  terminated l -> readlines (l +:+ s) = l :: readlines s.
Proof.
  intros (b & -> & Hb). revert Hb. induction b as [|c b IH]; intros Hb.
  - reflexivity.
  - simpl in Hb. rewrite !append_cons. simpl.
    destruct (Ascii.eqb c LF); [discriminate Hb|].
    rewrite (IH Hb). reflexivity.
Qed.

Lemma readlines_unterminated (l : string) :
  unterminated l -> readlines l = [l].
Proof.
  intros [Hne Hl]. induction l as [|c l IH]; [congruence|].
  simpl in *. destruct (Ascii.eqb c LF); [discriminate Hl|].
  destruct l as [|c' l]; [reflexivity|].
  rewrite IH; [reflexivity|discriminate|exact Hl].
Qed.

Lemma readlines_one_terminated (l : string) :
  terminated l -> readlines l = [l].
Proof.
  intros H. rewrite <- (append_nil_r l) at 1.
  rewrite (readlines_terminated l "" H). reflexivity.
Qed.

(** Reading lines that are well formed gives them back. *)
Lemma readlines_writelines (ls : list string) :
  lines_ok ls -> readlines (writelines ls) = ls.
Proof.
  induction ls as [|l ls IH]; [reflexivity|].
  destruct ls as [|l' ls].
  - intros [H|H]; unfold writelines; simpl.
    + apply readlines_one_terminated, H.
    + apply readlines_unterminated, H.
  - intros [Hl Hrest]. rewrite writelines_cons.
    rewrite (readlines_terminated l _ Hl), (IH Hrest). reflexivity.
Qed.

(** What [readlines] gives is well formed. *)
Lemma readlines_ok (s : string) : lines_ok (readlines s).
Proof.
  induction s as [|c s IH]; [exact I|]. simpl.
  destruct (Ascii.eqb_spec c LF) as [->|Hc].
  - assert (Ht : terminated (String LF "")) by (exists ""; split; reflexivity).
    destruct (readlines s) as [|l ls]; simpl; [left; exact Ht|].
    split; [exact Ht|exact IH].
  - assert (Hcb : Ascii.eqb c LF = false) by (apply Ascii.eqb_neq, Hc).
    destruct (readlines s) as [|l ls].
    + right. split; [discriminate|]. simpl. rewrite Hcb. reflexivity.
    + assert (Hterm : terminated l -> terminated (String c l)).
      { intros (b & -> & Hb). exists (String c b). split; [reflexivity|].
        simpl. rewrite Hcb. exact Hb. }
      assert (Hunterm : unterminated l -> unterminated (String c l)).
      { intros [_ Hl]. split; [discriminate|]. simpl. rewrite Hcb. exact Hl. }
      destruct ls as [|l' ls]; simpl in *.
      * destruct IH as [H|H]; [left|right]; auto.
      * destruct IH as [H Hrest]. split; auto.
Qed.

(** ** Lines that assign the key *)

(** A byte that starts no white-space character. *)
Lemma lstrip_kept (a : ascii) (s : string) :
  PyStr.is_space a = false ->
  Ascii.eqb a "194" = false -> Ascii.eqb a "225" = false ->
  Ascii.eqb a "226" = false -> Ascii.eqb a "227" = false ->
  PyStr.lstrip (String a s) = String a s.
Proof.
  intros Hspace H2 H3 H4 H5.
  destruct s as [|b [|c s]]; cbn [PyStr.lstrip]; rewrite Hspace;
    try reflexivity;
    unfold PyStr.is_space2, PyStr.is_space3; rewrite ?H2, ?H3, ?H4, ?H5;
    reflexivity.
Qed.

Lemma rstrip_cons_kept (a : ascii) (s : string) :
  PyStr.is_space a = false ->
  Ascii.eqb a "194" = false -> Ascii.eqb a "225" = false ->
  Ascii.eqb a "226" = false -> Ascii.eqb a "227" = false ->
  PyStr.rstrip (String a s) = String a (PyStr.rstrip s).
Proof.
  intros Hspace H2 H3 H4 H5. cbn [PyStr.rstrip].
  rewrite (lstrip_kept a s Hspace H2 H3 H4 H5). reflexivity.
Qed.

(** A line feed ends no white-space character of two or three bytes. *)
Lemma is_space2_line_feed (a : ascii) : PyStr.is_space2 a LF = false.
Proof. unfold PyStr.is_space2. apply andb_false_r. Qed.

Lemma is_space3_line_feed (a b : ascii) : PyStr.is_space3 a b LF = false.
Proof. unfold PyStr.is_space3. cbn. rewrite !andb_false_r. reflexivity. Qed.

Lemma lstrip_line_feed (s : string) :
  PyStr.lstrip (s +:+ String LF EmptyString) =
  match PyStr.lstrip s with
  | EmptyString => EmptyString
  | String a r => String a r +:+ String LF EmptyString
  end.
Proof.
  (* [lstrip] recurses one, two or three bytes further: induction on a
     bound of the length *)
  assert (H : forall n s, (String.length s < n)%nat ->
            PyStr.lstrip (s +:+ String LF EmptyString) =
            match PyStr.lstrip s with
            | EmptyString => EmptyString
            | String a r => String a r +:+ String LF EmptyString
            end).
  { clear s. induction n as [|n IH]; intros s Hn; [lia|].
    destruct s as [|a [|b [|c s]]]; [reflexivity| | |].
    - change (String a "" +:+ String LF "") with (String a (String LF "")).
      cbn [PyStr.lstrip]. destruct (PyStr.is_space a); [reflexivity|].
      rewrite is_space2_line_feed. reflexivity.
    - change (String a (String b "") +:+ String LF "")
        with (String a (String b (String LF ""))).
      cbn [PyStr.lstrip]. destruct (PyStr.is_space a).
      + apply (IH (String b "")). simpl in *. lia.
      + destruct (PyStr.is_space2 a b); [reflexivity|].
        rewrite is_space3_line_feed. reflexivity.
    - rewrite !append_cons. cbn [PyStr.lstrip].
      destruct (PyStr.is_space a).
      + apply (IH (String b (String c s))). simpl in *. lia.
      + destruct (PyStr.is_space2 a b).
        * apply (IH (String c s)). simpl in *. lia.
        * destruct (PyStr.is_space3 a b c); [|reflexivity].
          apply (IH s). simpl in *. lia. }
  apply (H (S (String.length s))). lia.
Qed.

Lemma rstrip_line_feed (s : string) :
  PyStr.rstrip (s +:+ String LF EmptyString) = PyStr.rstrip s.
Proof.
  induction s as [|a s IH]; [reflexivity|].
  rewrite append_cons. cbn [PyStr.rstrip].
  rewrite <- append_cons, lstrip_line_feed, IH.
  destruct (PyStr.lstrip (String a s)); reflexivity.
Qed.

(** A trailing line feed does not change what [strip] gives. *)
Lemma strip_line_feed (s : string) :
  PyStr.strip (s +:+ String LF EmptyString) = PyStr.strip s.
Proof.
  unfold PyStr.strip. rewrite lstrip_line_feed.
  destruct (PyStr.lstrip s) as [|a r]; [reflexivity|].
  apply rstrip_line_feed.
Qed.

Lemma is_key_line_line_feed (l : string) :
  is_key_line (l +:+ String LF EmptyString) = is_key_line l.
Proof. unfold is_key_line. rewrite strip_line_feed. reflexivity. Qed.

Lemma prefix_append (p s : string) : String.prefix p (p +:+ s) = true.
Proof.
  induction p as [|a p IH]; [destruct s; reflexivity|].
  rewrite append_cons. simpl.
  destruct (ascii_dec a a); [exact IH|congruence].
Qed.

(** The line the route writes is itself a line that assigns the key,
    whatever the key. *)
Lemma key_line_is_key_line (key : string) : is_key_line (key_line key) = true.
Proof.
  unfold is_key_line, key_line, PyStr.strip.
  change ("OPENAI_API_KEY=" +:+ key +:+ String LF "")
    with (String "O" ("PENAI_API_KEY=" +:+ key +:+ String LF "")).
  rewrite (lstrip_kept "O") by reflexivity.
  change (String "O" ("PENAI_API_KEY=" +:+ key +:+ String LF ""))
    with (String "O" (String "P" (String "E" (String "N" (String "A"
          (String "I" (String "_" (String "A" (String "P" (String "I"
          (String "_" (String "K" (String "E" (String "Y" (String "="
          (key +:+ String LF "")))))))))))))))).
  rewrite !rstrip_cons_kept by reflexivity.
  apply (prefix_append "OPENAI_API_KEY=").
Qed.

Lemma line_feed_is_no_key_line : is_key_line (String LF EmptyString) = false.
Proof. reflexivity. Qed.

Lemma key_line_terminated (key : string) :
  PyStr.contains LF key = false -> terminated (key_line key).
Proof.
  intros Hk. exists ("OPENAI_API_KEY=" +:+ key). split.
  - unfold key_line. rewrite append_assoc. reflexivity.
  - rewrite contains_append, Hk. reflexivity.
Qed.

(** ** The loop over the lines of [.env] *)

Lemma replace_first_found (key : string) (pre post : list string) (l : string) :
  no_key_line pre = true -> is_key_line l = true ->
  replace_first_key_line key (pre ++ l :: post) = Some (pre ++ key_line key :: post).
Proof.
  intros Hpre Hl. induction pre as [|p pre IH]; simpl.
  - rewrite Hl. reflexivity.
  - simpl in Hpre. apply andb_prop in Hpre as [Hp Hpre].
    apply negb_true_iff in Hp. rewrite Hp, (IH Hpre). reflexivity.
Qed.

Lemma replace_first_decompose (key : string) (lines : list string) :
  match replace_first_key_line key lines with
  | Some lines' =>
      exists pre l post,
        lines = pre ++ l :: post /\ no_key_line pre = true /\
        is_key_line l = true /\ lines' = pre ++ key_line key :: post
  | None => no_key_line lines = true
  end.
Proof.
  induction lines as [|l lines IH]; simpl; [reflexivity|].
  destruct (is_key_line l) eqn:Hl.
  - exists [], l, lines. repeat split. exact Hl.
  - destruct (replace_first_key_line key lines) as [lines'|].
    + destruct IH as (pre & l0 & post & -> & Hpre & Hl0 & ->).
      exists (l :: pre), l0, post. repeat split; try assumption.
      simpl. rewrite Hl, Hpre. reflexivity.
    + simpl. exact IH.
Qed.

Lemma replace_first_none (key : string) (lines : list string) :
  no_key_line lines = true -> replace_first_key_line key lines = None.
Proof.
  induction lines as [|l lines IH]; simpl; [reflexivity|].
  intros H. apply andb_prop in H as [Hl Hrest].
  apply negb_true_iff in Hl. rewrite Hl, (IH Hrest). reflexivity.
Qed.

Lemma first_key_line_after (pre post : list string) (l : string) :
  no_key_line pre = true -> is_key_line l = true ->
  first_key_line (pre ++ l :: post) = Some l.
Proof.
  intros Hpre Hl. unfold first_key_line.
  induction pre as [|p pre IH]; simpl.
  - rewrite Hl. reflexivity.
  - simpl in Hpre. apply andb_prop in Hpre as [Hp Hpre].
    apply negb_true_iff in Hp. rewrite Hp. exact (IH Hpre).
Qed.

Lemma first_key_line_none (lines : list string) :
  first_key_line lines = None <-> no_key_line lines = true.
Proof.
  unfold first_key_line.
  induction lines as [|l lines IH]; simpl; [tauto|].
  destruct (is_key_line l); simpl; [split; discriminate|exact IH].
Qed.

(** X19. The loop of [admin_set_openai_key] over the lines of [.env]:
    the first line that assigns the key (the first whose stripped text
    starts with [OPENAI_API_KEY=]) is replaced by the new assignment and
    every other line stays where it was, later assignments of the key
    included; when no line assigns the key, all lines stay and one entry
    is appended, made of a line feed and the new assignment. *)
Theorem dotenv_lines_spec (key : string) (lines : list string) :
  (forall (i : nat) (line : string),
     lines !! i = Some line ->
     is_key_line line = true ->
     no_key_line (take i lines) = true ->
     dotenv_lines key lines = <[i := key_line key]> lines /\
     length (dotenv_lines key lines) = length lines) /\
  (no_key_line lines = true ->
   dotenv_lines key lines = lines ++ [String LF EmptyString +:+ key_line key]).
Proof.
  split.
  - intros i line Hi Hline Hpre.
    assert (Hsplit : lines = take i lines ++ line :: drop (S i) lines)
      by (symmetry; apply take_drop_middle, Hi).
    assert (Hd : dotenv_lines key lines = <[i := key_line key]> lines).
    { rewrite (insert_take_drop lines i (key_line key))
        by (apply lookup_lt_Some in Hi; exact Hi).
      unfold dotenv_lines. rewrite Hsplit at 1.
      rewrite (replace_first_found key _ _ line Hpre Hline). reflexivity. }
    rewrite Hd. split; [reflexivity|apply length_insert].
  - intros H. unfold dotenv_lines. rewrite (replace_first_none key lines H).
    reflexivity.
Qed.

Lemma dotenv_lines_spec_witness :
  dotenv_lines "sk-new"
    ["A=1" +:+ String LF ""; "OPENAI_API_KEY=old" +:+ String LF "";
     "OPENAI_API_KEY=older" +:+ String LF ""] =
    ["A=1" +:+ String LF ""; "OPENAI_API_KEY=sk-new" +:+ String LF "";
     "OPENAI_API_KEY=older" +:+ String LF ""] /\
  dotenv_lines "sk-new"
    ["A=1" +:+ String LF "";
     NBSP +:+ " OPENAI_API_KEY=old" +:+ NBSP +:+ String LF ""] =
    ["A=1" +:+ String LF ""; "OPENAI_API_KEY=sk-new" +:+ String LF ""].
Proof.
  split.
  - exact (proj1 (proj1 (dotenv_lines_spec "sk-new"
             ["A=1" +:+ String LF ""; "OPENAI_API_KEY=old" +:+ String LF "";
              "OPENAI_API_KEY=older" +:+ String LF ""])
             1%nat ("OPENAI_API_KEY=old" +:+ String LF "")
             eq_refl eq_refl eq_refl)).
  - exact (proj1 (proj1 (dotenv_lines_spec "sk-new"
             ["A=1" +:+ String LF "";
              NBSP +:+ " OPENAI_API_KEY=old" +:+ NBSP +:+ String LF ""])
             1%nat (NBSP +:+ " OPENAI_API_KEY=old" +:+ NBSP +:+ String LF "")
             eq_refl eq_refl eq_refl)).
Defined.

(** ** Rewriting [.env] *)

Lemma translate_newlines_without_cr (s : string) :
  PyStr.contains CR s = false -> translate_newlines s = s.
Proof.
  induction s as [|c s IH]; [reflexivity|]. simpl.
  destruct (Ascii.eqb c CR); [discriminate|].
  intros H. rewrite (IH H). reflexivity.
Qed.

Lemma translate_newlines_cr_free_step (s : string) :
  PyStr.contains CR (translate_newlines s) = false /\
  forall c, PyStr.contains CR (translate_newlines (String c s)) = false.
Proof.
  induction s as [|a s [IH1 IH2]].
  - split; [reflexivity|]. intros c. simpl.
    destruct (Ascii.eqb c CR) eqn:Hc; simpl; [reflexivity|].
    rewrite Hc. reflexivity.
  - split; [apply IH2|]. intros c.
    change (translate_newlines (String c (String a s)))
      with (if Ascii.eqb c CR
            then if Ascii.eqb a LF then String LF (translate_newlines s)
                 else String LF (translate_newlines (String a s))
            else String c (translate_newlines (String a s))).
    destruct (Ascii.eqb c CR) eqn:Hc.
    + destruct (Ascii.eqb a LF).
      * change (PyStr.contains CR (String LF (translate_newlines s)))
          with (PyStr.contains CR (translate_newlines s)). exact IH1.
      * change (PyStr.contains CR (String LF (translate_newlines (String a s))))
          with (PyStr.contains CR (translate_newlines (String a s))). apply IH2.
    + change (PyStr.contains CR (String c (translate_newlines (String a s))))
        with (if Ascii.eqb c CR then true
              else PyStr.contains CR (translate_newlines (String a s))).
      rewrite Hc. apply IH2.
Qed.

(** Translated text holds no carriage return. *)
Lemma translate_newlines_cr_free (s : string) :
  PyStr.contains CR (translate_newlines s) = false.
Proof. apply translate_newlines_cr_free_step. Qed.

Lemma lines_ok_replace (pre post : list string) (l l' : string) :
  terminated l' -> lines_ok (pre ++ l :: post) -> lines_ok (pre ++ l' :: post).
Proof.
  intros Ht. induction pre as [|p pre IH].
  - simpl. destruct post as [|q post].
    + intros _. left. exact Ht.
    + intros [_ H]. split; [exact Ht|exact H].
  - destruct pre as [|p' pre].
    + simpl in *. intros [Hp H]. split; [exact Hp|]. apply IH, H.
    + intros [Hp H]. split; [exact Hp|]. apply IH, H.
Qed.

(** Reading back a text without assignment to which the route has
    appended its entry: the old lines, closed by a line feed, and then
    the new assignment. *)
Lemma readlines_appended (ls : list string) (kl : string) :
  lines_ok ls -> no_key_line ls = true -> terminated kl ->
  exists closed,
    readlines (writelines ls +:+ String LF EmptyString +:+ kl) = closed ++ [kl] /\
    no_key_line closed = true /\
    writelines closed = writelines ls +:+ String LF EmptyString.
Proof.
  intros Hok Hno Hkl.
  assert (Hnl : terminated (String LF "")) by (exists ""; split; reflexivity).
  induction ls as [|l ls IH].
  - exists [String LF ""]. split; [|split; reflexivity].
    change (writelines [] +:+ String LF "" +:+ kl) with (String LF "" +:+ kl).
    rewrite (readlines_terminated _ kl Hnl), (readlines_one_terminated kl Hkl).
    reflexivity.
  - simpl in Hno. apply andb_prop in Hno as [Hl Hno].
    destruct ls as [|l' ls].
    + change (writelines [l]) with l. destruct Hok as [Hterm|[Hne Hun]].
      * exists [l; String LF ""]. split; [|split].
        -- rewrite (readlines_terminated l _ Hterm).
           rewrite (readlines_terminated _ kl Hnl).
           rewrite (readlines_one_terminated kl Hkl). reflexivity.
        -- simpl. rewrite Hl. reflexivity.
        -- rewrite writelines_cons. reflexivity.
      * exists [l +:+ String LF ""]. split; [|split].
        -- rewrite <- append_assoc.
           rewrite (readlines_terminated (l +:+ String LF "") kl)
             by (exists l; split; [reflexivity|exact Hun]).
           rewrite (readlines_one_terminated kl Hkl). reflexivity.
        -- simpl. rewrite is_key_line_line_feed, Hl. reflexivity.
        -- reflexivity.
    + destruct Hok as [Hterm Hok].
      destruct (IH Hok Hno) as (closed & Hread & Hnone & Hwrite).
      exists (l :: closed). split; [|split].
      * rewrite writelines_cons, append_assoc.
        rewrite (readlines_terminated l _ Hterm), Hread. reflexivity.
      * simpl. rewrite Hl, Hnone. reflexivity.
      * rewrite (writelines_cons l closed), Hwrite.
        rewrite (writelines_cons l (l' :: ls)), append_assoc. reflexivity.
Qed.

Lemma writelines_cr (ls : list string) :
  PyStr.contains CR (writelines ls) = existsb (PyStr.contains CR) ls.
Proof.
  induction ls as [|l ls IH]; [reflexivity|].
  rewrite writelines_cons, contains_append, IH. reflexivity.
Qed.

Lemma single_line_parts (key : string) :
  single_line key = true ->
  terminated (key_line key) /\ PyStr.contains CR (key_line key) = false.
Proof.
  unfold single_line. intros H. apply andb_prop in H as [Hlf Hcr].
  apply negb_true_iff in Hlf. apply negb_true_iff in Hcr. split.
  - apply key_line_terminated, Hlf.
  - unfold key_line. rewrite !contains_append, Hcr. reflexivity.
Qed.

(** What the route writes, and what reading it back gives, for a key
    that holds no line end. *)
Lemma dotenv_text_read_back (key : string) (old : option string) :
  single_line key = true ->
  exists pre post,
    readlines (translate_newlines (dotenv_text key old)) =
      pre ++ key_line key :: post /\
    no_key_line pre = true /\
    forall key', dotenv_text key' old = writelines (pre ++ key_line key' :: post).
Proof.
  intros Hkey. destruct (single_line_parts key Hkey) as [Hterm Hcr].
  destruct old as [text|]; cbn [dotenv_text].
  - pose proof (readlines_ok (translate_newlines text)) as Hok.
    pose proof (translate_newlines_cr_free text) as Hfree.
    rewrite <- (writelines_readlines (translate_newlines text)) in Hfree.
    unfold dotenv_lines.
    pose proof (replace_first_decompose key (readlines (translate_newlines text)))
      as Hdec.
    destruct (replace_first_key_line key (readlines (translate_newlines text)))
      as [lines'|] eqn:Hrep.
    + destruct Hdec as (pre & l & post & Hsplit & Hpre & Hl & ->).
      exists pre, post. rewrite Hsplit in Hok, Hfree.
      assert (Hfree' : PyStr.contains CR (writelines (pre ++ key_line key :: post))
                       = false).
      { rewrite writelines_cr, existsb_app in *. simpl in *.
        apply orb_false_elim in Hfree as [H1 H2].
        apply orb_false_elim in H2 as [_ H2].
        rewrite H1, H2, Hcr. reflexivity. }
      rewrite (translate_newlines_without_cr _ Hfree').
      rewrite (readlines_writelines _ (lines_ok_replace pre post l _ Hterm Hok)).
      split; [reflexivity|]. split; [exact Hpre|].
      intros key'. rewrite Hsplit.
      rewrite (replace_first_found key' pre post l Hpre Hl). reflexivity.
    + destruct (readlines_appended _ (key_line key) Hok Hdec Hterm)
        as (closed & Hread & Hnone & Hwrite).
      exists closed, []. rewrite writelines_app.
      change (writelines [String LF "" +:+ key_line key])
        with (String LF "" +:+ key_line key).
      assert (Hfree' :
        PyStr.contains CR (writelines (readlines (translate_newlines text)) +:+
                           String LF "" +:+ key_line key) = false).
      { rewrite !contains_append, Hfree, Hcr. reflexivity. }
      rewrite (translate_newlines_without_cr _ Hfree'), Hread.
      split; [reflexivity|]. split; [exact Hnone|].
      intros key'. rewrite (replace_first_none key' _ Hdec).
      rewrite !writelines_app, Hwrite, append_assoc. reflexivity.
  - exists [], []. 
    rewrite (translate_newlines_without_cr _ Hcr).
    rewrite (readlines_one_terminated _ Hterm).
    split; [reflexivity|]. split; reflexivity.
Qed.

(** X20. Setting a key replaces the previous setting in [.env]: for a
    first key that holds no line end, the file after setting it and then
    a second key is the file that setting the second key directly would
    have given.  In particular setting the same key twice leaves the file
    as the first call left it. *)
Theorem dotenv_last_write_wins (key1 key2 : string) (old : option string) :
  single_line key1 = true ->
  dotenv_text key2 (Some (dotenv_text key1 old)) = dotenv_text key2 old /\
  dotenv_text key1 (Some (dotenv_text key1 old)) = dotenv_text key1 old.
Proof.
  intros Hkey.
  destruct (dotenv_text_read_back key1 old Hkey) as (pre & post & Hread & Hpre & Hall).
  assert (H : forall key,
            dotenv_text key (Some (dotenv_text key1 old)) = dotenv_text key old).
  { intros key. cbn [dotenv_text]. rewrite Hread. unfold dotenv_lines.
    rewrite (replace_first_found key pre post (key_line key1) Hpre
               (key_line_is_key_line key1)).
    symmetry. apply Hall. }
  split; apply H.
Qed.

Lemma dotenv_last_write_wins_witness :
  dotenv_text "sk-second"
    (Some (dotenv_text "sk-first" (Some ("A=1" +:+ String LF "" +:+ "B=2")))) =
  "A=1" +:+ String LF "" +:+ "B=2" +:+ String LF "" +:+
  "OPENAI_API_KEY=sk-second" +:+ String LF "".
Proof.
  rewrite (proj1 (dotenv_last_write_wins "sk-first" "sk-second"
                    (Some ("A=1" +:+ String LF "" +:+ "B=2")) eq_refl)).
  reflexivity.
Defined.

(** X21. After the route has written [.env] for a key that holds no
    line end, reading the file back finds the new assignment as the first
    line that assigns the key, whatever the file held before and whether
    or not it existed. *)
Theorem dotenv_first_assignment_is_new (key : string) (old : option string) :
  single_line key = true ->
  first_key_line (readlines (translate_newlines (dotenv_text key old))) =
    Some ("OPENAI_API_KEY=" +:+ key +:+ String LF EmptyString).
Proof.
  intros Hkey.
  destruct (dotenv_text_read_back key old Hkey) as (pre & post & -> & Hpre & _).
  apply (first_key_line_after pre post (key_line key) Hpre).
  apply key_line_is_key_line.
Qed.

Lemma dotenv_first_assignment_is_new_witness :
  first_key_line
    (readlines
       (translate_newlines
          (dotenv_text "sk-new"
             (Some ("# OPENAI_API_KEY=note" +:+ String LF "" +:+
                    "  OPENAI_API_KEY=old" +:+ String CR (String LF "") +:+
                    "B=2"))))) =
    Some ("OPENAI_API_KEY=sk-new" +:+ String LF "").
Proof.
  exact (dotenv_first_assignment_is_new "sk-new"
           (Some ("# OPENAI_API_KEY=note" +:+ String LF "" +:+
                  "  OPENAI_API_KEY=old" +:+ String CR (String LF "") +:+
                  "B=2")) eq_refl).
Defined.

(** X22. Rewriting [.env] keeps the rest of the file: with no line
    that assigns the key, the new text is the old one (its line ends
    translated to line feeds) followed by a line feed and the new
    assignment; with one, the new text is the old one with that one line
    replaced by the new assignment, everything before and after it kept
    character for character.  Without a file, the new text is the
    assignment alone. *)
Theorem dotenv_keeps_the_rest (key text : string) :
  (first_key_line (readlines (translate_newlines text)) = None ->
   dotenv_text key (Some text) =
     translate_newlines text +:+ String LF EmptyString +:+
     "OPENAI_API_KEY=" +:+ key +:+ String LF EmptyString) /\
  (forall line,
     first_key_line (readlines (translate_newlines text)) = Some line ->
     exists before rest,
       translate_newlines text = before +:+ line +:+ rest /\
       dotenv_text key (Some text) =
         before +:+ ("OPENAI_API_KEY=" +:+ key +:+ String LF EmptyString) +:+ rest) /\
  dotenv_text key None = "OPENAI_API_KEY=" +:+ key +:+ String LF EmptyString.
Proof.
  pose proof (replace_first_decompose key (readlines (translate_newlines text)))
    as Hdec.
  split; [|split; [|reflexivity]].
  - intros Hnone. apply first_key_line_none in Hnone.
    cbn [dotenv_text]. unfold dotenv_lines.
    rewrite (replace_first_none key _ Hnone), writelines_app, writelines_readlines.
    reflexivity.
  - intros line Hline. cbn [dotenv_text]. unfold dotenv_lines.
    destruct (replace_first_key_line key (readlines (translate_newlines text)))
      as [lines'|].
    + destruct Hdec as (pre & l & post & Hsplit & Hpre & Hl & ->).
      rewrite Hsplit, (first_key_line_after pre post l Hpre Hl) in Hline.
      injection Hline as <-.
      exists (writelines pre), (writelines post). split.
      * rewrite <- (writelines_readlines (translate_newlines text)), Hsplit.
        rewrite writelines_app, writelines_cons. reflexivity.
      * rewrite writelines_app, writelines_cons. reflexivity.
    + apply first_key_line_none in Hdec. congruence.
Qed.

Lemma dotenv_keeps_the_rest_witness :
  dotenv_text "sk-new" (Some ("A=1" +:+ String CR (String LF "") +:+ "B=2")) =
  "A=1" +:+ String LF "" +:+ "B=2" +:+ String LF "" +:+
  "OPENAI_API_KEY=sk-new" +:+ String LF "" /\
  exists before rest,
    "A=1" +:+ String LF "" +:+ NBSP +:+ "OPENAI_API_KEY=old" +:+ String LF "" +:+
    "B=2" =
    before +:+ (NBSP +:+ "OPENAI_API_KEY=old" +:+ String LF "") +:+ rest /\
    dotenv_text "sk-new"
      (Some ("A=1" +:+ String LF "" +:+ NBSP +:+ "OPENAI_API_KEY=old" +:+
             String LF "" +:+ "B=2")) =
    before +:+ ("OPENAI_API_KEY=sk-new" +:+ String LF "") +:+ rest.
Proof.
  split.
  - rewrite (proj1 (dotenv_keeps_the_rest "sk-new"
                      ("A=1" +:+ String CR (String LF "") +:+ "B=2")) eq_refl).
    reflexivity.
  - exact (proj1 (proj2 (dotenv_keeps_the_rest "sk-new"
                           ("A=1" +:+ String LF "" +:+ NBSP +:+
                            "OPENAI_API_KEY=old" +:+ String LF "" +:+ "B=2")))
             (NBSP +:+ "OPENAI_API_KEY=old" +:+ String LF "") eq_refl).
Defined.
